(** * Fraud-signal derivation layer of the KYC console

    A shallow embedding of the derivation helpers of the React console
    (fraud alerts page, KYC requests page, fraud dashboard, audit trail,
    upload pages) and the properties its specification states about them.

    JavaScript values are embedded as the inductive type [jsval]; objects
    are finite maps from property names to values.  Numbers are rationals
    extended with NaN and the two infinities, and -0 is identified with 0
    (no operation used below tells them apart).  A product is rounded to
    the nearest IEEE double as the language does ([Num.to_double]); sums,
    quotients and remainders are kept exact: they are used on the integers
    of the dates and of the fraud scores only.  Strings are byte strings; the
    character classes of [trim], [toLowerCase], [\d] and [\s] are those of
    the ASCII range, bytes above 127 are carried unchanged.

    [String(v)], [Number(v)], a template literal and the operators [+] and
    [>=] raise a TypeError on an object that holds a property named
    [toString] of its own (read from JSON it is not callable, and the
    inherited [valueOf] answers the object itself), and on an array with
    such an element.  [convertible] says when they return, [js_String] and
    [js_Number] are the conversions with this error, and the helpers that
    return a [result] use them.  [ToString] and [ToNumber] are the value of
    the conversion when it returns; the formatters and maskers that return
    a plain value are given on the identifiers, texts, numbers and typed
    rows their callers pass, and [computeFallback] on records whose fraud
    score converts, where it does.

    Built-ins whose result depends on the host (the text-to-number parsers,
    the rendering of a number that is not a small integer, the date parser
    and the local time zone) are fields of a [Host] record over which every
    definition is parameterised.  Exceptions are explicit: a function that
    can raise returns a [result]. *)

From Stdlib Require Import ZArith QArith Qround String Ascii List Bool Lia.
From Stdlib Require Import Floats Uint63.
From stdpp Require Import base option list gmap strings pretty fin_maps.

Open Scope string_scope.
Open Scope Z_scope.

(** ** Numbers *)

Inductive number : Type :=
| NaN
| NegInf
| Fin (q : Q)
| PosInf.

Definition num (z : Z) : number := Fin (inject_Z z).

Module Num.

Definition isNaN (a : number) : bool :=
  match a with NaN => true | _ => false end.

(** [a < b]; false as soon as one side is NaN. *)
Definition lt (a b : number) : bool :=
  match a, b with
  | NaN, _ | _, NaN => false
  | NegInf, NegInf => false
  | NegInf, _ => true
  | _, NegInf => false
  | PosInf, _ => false
  | Fin _, PosInf => true
  | Fin x, Fin y => negb (Qle_bool y x)
  end.

(** [a <= b]; false as soon as one side is NaN. *)
Definition le (a b : number) : bool :=
  match a, b with
  | NaN, _ | _, NaN => false
  | NegInf, _ => true
  | _, PosInf => true
  | PosInf, _ => false
  | Fin _, NegInf => false
  | Fin x, Fin y => Qle_bool x y
  end.

Definition gt (a b : number) : bool := lt b a.
Definition ge (a b : number) : bool := le b a.

(** Truthiness of a number: everything but 0 and NaN. *)
Definition truthy (a : number) : bool :=
  match a with
  | NaN => false
  | Fin q => negb (Qeq_bool q 0)
  | _ => true
  end.

(** Strict equality of numbers: NaN differs from itself. *)
Definition eqb (a b : number) : bool :=
  match a, b with
  | Fin x, Fin y => Qeq_bool x y
  | NegInf, NegInf | PosInf, PosInf => true
  | _, _ => false
  end.

Definition add (a b : number) : number :=
  match a, b with
  | NaN, _ | _, NaN => NaN
  | PosInf, NegInf | NegInf, PosInf => NaN
  | PosInf, _ | _, PosInf => PosInf
  | NegInf, _ | _, NegInf => NegInf
  | Fin x, Fin y => Fin (x + y)
  end.

Definition sgn (q : Q) : Z := Z.sgn (Qnum q).

(** The integer nearest to [n / d] for [d > 0], a tie going to the even
    one. *)
Definition round_half_even (n d : Z) : Z :=
  let q := n / d in
  let r := n mod d in
  if 2 * r <? d then q
  else if d <? 2 * r then q + 1
  else if Z.even q then q else q + 1.

(** The double nearest to a rational, a tie going to the even significand
    (the rounding of every arithmetic operation of the language).  With
    [2 ^ k] the power of two at or just below the magnitude, the value is
    written [m * 2 ^ e] for [e = k - 52], or [e = -1074] in the subnormal
    range, and [m] the rounded significand; from [2 ^ 1024] on the result
    is infinite. *)
Definition to_double (q : Q) : number :=
  let n := Z.abs (Qnum q) in
  let d := Zpos (Qden q) in
  if n =? 0 then Fin 0
  else
    let k0 := Z.log2 n - Z.log2 d in
    let k := if (if 0 <=? k0 then d * 2 ^ k0 <=? n else d <=? n * 2 ^ (- k0))
             then k0 else k0 - 1 in
    let e := Z.max (k - 52) (-1074) in
    let m := round_half_even (n * 2 ^ Z.max 0 (- e)) (d * 2 ^ Z.max 0 e) in
    if (971 <? e) || ((e =? 971) && (2 ^ 53 <=? m))
    then (if Qnum q <? 0 then NegInf else PosInf)
    else Fin (Qred (Qmake (Z.sgn (Qnum q) * m * 2 ^ Z.max 0 e)
                          (Z.to_pos (2 ^ Z.max 0 (- e))))).

(** [a * b]: the exact product rounded to the nearest double. *)
Definition mul (a b : number) : number :=
  match a, b with
  | NaN, _ | _, NaN => NaN
  | Fin x, Fin y => to_double (x * y)
  | Fin x, PosInf | PosInf, Fin x =>
      match sgn x with 0 => NaN | Zpos _ => PosInf | Zneg _ => NegInf end
  | Fin x, NegInf | NegInf, Fin x =>
      match sgn x with 0 => NaN | Zpos _ => NegInf | Zneg _ => PosInf end
  | PosInf, PosInf | NegInf, NegInf => PosInf
  | PosInf, NegInf | NegInf, PosInf => NaN
  end.

Definition div (a b : number) : number :=
  match a, b with
  | NaN, _ | _, NaN => NaN
  | Fin x, Fin y =>
      if Qeq_bool y 0 then
        match sgn x with 0 => NaN | Zpos _ => PosInf | Zneg _ => NegInf end
      else Fin (x / y)
  | Fin _, _ => Fin 0
  | PosInf, Fin y => if Qle_bool 0 y then PosInf else NegInf
  | NegInf, Fin y => if Qle_bool 0 y then NegInf else PosInf
  | _, _ => NaN
  end.

(** Truncation toward zero. *)
Definition Qtrunc (q : Q) : Z := Z.quot (Qnum q) (Zpos (Qden q)).

(** The remainder operator [%]: the result has the sign of the dividend. *)
Definition rem (a b : number) : number :=
  match a, b with
  | NaN, _ | _, NaN => NaN
  | PosInf, _ | NegInf, _ => NaN
  | Fin x, PosInf | Fin x, NegInf => Fin x
  | Fin x, Fin y =>
      if Qeq_bool y 0 then NaN
      else Fin (x - y * inject_Z (Qtrunc (x / y)))
  end.

Definition min (a b : number) : number :=
  match a, b with
  | NaN, _ | _, NaN => NaN
  | _, _ => if le a b then a else b
  end.

Definition max (a b : number) : number :=
  match a, b with
  | NaN, _ | _, NaN => NaN
  | _, _ => if le a b then b else a
  end.

(** [Math.round]: the nearest integer, halves going up. *)
Definition round (a : number) : number :=
  match a with
  | Fin q => num (Qfloor (q + (1 # 2)))
  | _ => a
  end.

(** Whether a rational is an integer, and its integer part. *)
Definition is_int (q : Q) : bool := (Qnum q mod Zpos (Qden q) =? 0)%Z.
Definition to_Z (q : Q) : Z := (Qnum q / Zpos (Qden q))%Z.

End Num.

(** ** Strings *)

Module Str.

Definition code (c : ascii) : N := N_of_ascii c.

Definition is_digit (c : ascii) : bool :=
  ((48 <=? code c) && (code c <=? 57))%N.

(** White space of the ASCII range: TAB, LF, VT, FF, CR and SPACE. *)
Definition is_space (c : ascii) : bool :=
  (((9 <=? code c) && (code c <=? 13)) || (code c =? 32))%N.

Definition lower_char (c : ascii) : ascii :=
  if ((65 <=? code c) && (code c <=? 90))%N
  then ascii_of_N (code c + 32) else c.

Fixpoint map (f : ascii → ascii) (s : string) : string :=
  match s with
  | EmptyString => EmptyString
  | String c t => String (f c) (map f t)
  end.

Fixpoint filter (p : ascii → bool) (s : string) : string :=
  match s with
  | EmptyString => EmptyString
  | String c t => if p c then String c (filter p t) else filter p t
  end.

Fixpoint drop_while (p : ascii → bool) (s : string) : string :=
  match s with
  | EmptyString => EmptyString
  | String c t => if p c then drop_while p t else s
  end.

Definition toLowerCase (s : string) : string := map lower_char s.

Definition trimStart (s : string) : string := drop_while is_space s.
Definition trimEnd (s : string) : string :=
  String.rev (drop_while is_space (String.rev s)).
Definition trim (s : string) : string := trimEnd (trimStart s).

Definition len (s : string) : Z := Z.of_nat (String.length s).

(** [s.slice(start, end)]: negative indices count from the end, both
    bounds are clamped to the string. *)
Definition clamp_index (l i : Z) : Z :=
  if i <? 0 then Z.max (l + i) 0 else Z.min i l.

Definition slice (s : string) (start : Z) (stop : option Z) : string :=
  let l := len s in
  let from := clamp_index l start in
  let to := match stop with Some e => clamp_index l e | None => l end in
  String.substring (Z.to_nat from) (Z.to_nat (to - from)) s.

Fixpoint repeat (s : string) (n : nat) : string :=
  match n with
  | O => ""
  | S k => s +:+ repeat s k
  end.

(** [s.padStart(n, fill)]. *)
Definition padStart (n : nat) (fill s : string) : string :=
  let missing := (n - String.length s)%nat in
  match fill with
  | "" => s
  | _ => String.substring 0 missing (repeat fill missing) +:+ s
  end.

(** [hay.includes(needle)]. *)
Fixpoint includes (hay needle : string) : bool :=
  String.prefix needle hay ||
  match hay with
  | EmptyString => false
  | String _ t => includes t needle
  end.

(** [xs.join(sep)] on an array of strings. *)
Fixpoint join (sep : string) (xs : list string) : string :=
  match xs with
  | [] => ""
  | [x] => x
  | x :: rest => x +:+ sep +:+ join sep rest
  end.

(** [xs.includes(x)] on an array of strings. *)
Definition mem (x : string) (xs : list string) : bool :=
  bool_decide (x ∈ xs).

End Str.

(** ** Values *)

#[warnings="-register-all"]
Inductive jsval : Type :=
| JUndefined
| JNull
| JBool (b : bool)
| JNum (n : number)
| JStr (s : string)
| JArr (items : list jsval)
| JObj (fields : gmap string jsval).

Definition obj (kvs : list (string * jsval)) : jsval := JObj (list_to_map kvs).

(** Exceptions: the only one these helpers can raise is a [TypeError]
    (a property read on [undefined] or [null], a call of a non-function). *)
Inductive exn : Type := TypeError.

Inductive result (A : Type) : Type :=
| Ok (a : A)
| Throw (e : exn).
Arguments Ok {A} a.
Arguments Throw {A} e.

Definition bind {A B} (m : result A) (k : A → result B) : result B :=
  match m with
  | Ok a => k a
  | Throw e => Throw e
  end.

Notation "x <- m ;; k" := (bind m (fun x => k))
  (at level 100, m at next level, right associativity).

Definition returns {A} (m : result A) : Prop := ∃ a, m = Ok a.

(** [l.map(f)] for a callback that can raise. *)
Fixpoint map_result {A B} (f : A → result B) (l : list A) : result (list B) :=
  match l with
  | [] => Ok []
  | x :: rest =>
      y <- f x;;
      ys <- map_result f rest;;
      Ok (y :: ys)
  end.

(** ** The host environment *)

(** What [new Date(v)] denotes once read back through the local-time
    getters: [lt_month] is zero-based as [getMonth] returns it. *)
Record LocalTime : Type := {
  lt_year : Z;
  lt_month : Z;
  lt_date : Z;
  lt_hours : Z;
  lt_minutes : Z;
  lt_seconds : Z;
}.

Record Host : Type := {
  (** [Number::toString] on a finite number that is not an integer of
      magnitude below 10^21 (those are rendered in plain decimal). *)
  render_number : Q → string;
  (** [Number(s)] on a string. *)
  string_to_number : string → number;
  (** [parseFloat(s)] on a string. *)
  parse_float : string → number;
  (** [new Date(v)] in the local time zone; [None] is an Invalid Date. *)
  new_Date : jsval → option LocalTime;
}.

(** The ranges the getters of a valid date stay in. *)
Definition valid_time (t : LocalTime) : Prop :=
  -271821 ≤ lt_year t ≤ 275760 ∧
  0 ≤ lt_month t ≤ 11 ∧ 1 ≤ lt_date t ≤ 31 ∧ 0 ≤ lt_hours t ≤ 23 ∧
  0 ≤ lt_minutes t ≤ 59 ∧ 0 ≤ lt_seconds t ≤ 59.

Section Derivation.

Context (host : Host).

(** *** Conversions *)

Definition number_to_string (n : number) : string :=
  match n with
  | NaN => "NaN"
  | PosInf => "Infinity"
  | NegInf => "-Infinity"
  | Fin q =>
      if Num.is_int q && (Z.abs (Num.to_Z q) <? 10 ^ 21)
      then pretty (Num.to_Z q)
      else render_number host q
  end.

(** Whether the conversion of a value to a primitive returns.  An object
    read from JSON converts through the inherited [toString] unless it
    holds a property of that name itself: its value is then not callable,
    the inherited [valueOf] answers the object, and the conversion raises.
    An array converts through [join], which converts every element that is
    not [undefined] or [null]. *)
Fixpoint convertible (v : jsval) : bool :=
  match v with
  | JArr items => forallb convertible items
  | JObj fields => negb (bool_decide (is_Some (fields !! "toString")))
  | _ => true
  end.

(** The text [String(v)] answers when it returns. *)
Fixpoint ToString (v : jsval) : string :=
  match v with
  | JUndefined => "undefined"
  | JNull => "null"
  | JBool true => "true"
  | JBool false => "false"
  | JNum n => number_to_string n
  | JStr s => s
  | JArr items =>
      Str.join ","
        (List.map (fun x => match x with
                            | JUndefined | JNull => ""
                            | _ => ToString x
                            end) items)
  | JObj _ => "[object Object]"
  end.

(** The number [Number(v)] answers when it returns. *)
Definition ToNumber (v : jsval) : number :=
  match v with
  | JUndefined => NaN
  | JNull => num 0
  | JBool true => num 1
  | JBool false => num 0
  | JNum n => n
  | JStr s => string_to_number host s
  | JArr _ => string_to_number host (ToString v)
  | JObj _ => NaN
  end.

(** [String(v)] and [Number(v)]. *)
Definition js_String (v : jsval) : result string :=
  if convertible v then Ok (ToString v) else Throw TypeError.

Definition js_Number (v : jsval) : result number :=
  if convertible v then Ok (ToNumber v) else Throw TypeError.

Definition truthy (v : jsval) : bool :=
  match v with
  | JUndefined | JNull => false
  | JBool b => b
  | JNum n => Num.truthy n
  | JStr s => negb (String.eqb s "")
  | JArr _ | JObj _ => true
  end.

Definition nullish (v : jsval) : bool :=
  match v with
  | JUndefined | JNull => true
  | _ => false
  end.

(** [a || b] and [a ?? b]. *)
Definition or_else (a b : jsval) : jsval := if truthy a then a else b.
Definition coalesce (a b : jsval) : jsval := if nullish a then b else a.

Infix "|||" := or_else (at level 50, left associativity).
Infix "???" := coalesce (at level 50, left associativity).

(** [v.k] on a value that is neither [undefined] nor [null]: the property
    of that name the value holds itself, [undefined] when there is none.
    The members a value inherits (those of [Object.prototype] on an object
    read from JSON, the methods, the [length] and the indices of a string
    or of an array) are not modelled: every name the helpers below read is
    written in the source and is none of them.  [getFirstField] reads the
    names it is given; what is proved of it assumes that they are not
    inherited names ([plain_keys]). *)
Definition prop (v : jsval) (k : string) : jsval :=
  match v with
  | JObj fields => default JUndefined (fields !! k)
  | _ => JUndefined
  end.

(** [v.k]. *)
Definition get (v : jsval) (k : string) : result jsval :=
  if nullish v then Throw TypeError else Ok (prop v k).

(** [v?.k]. *)
Definition get_opt (v : jsval) (k : string) : jsval :=
  if nullish v then JUndefined else prop v k.

(** [v.trim()]: only strings have the method. *)
Definition call_trim (v : jsval) : result string :=
  match v with
  | JStr s => Ok (Str.trim s)
  | _ => Throw TypeError
  end.

Definition is_string (v : jsval) : bool :=
  match v with JStr _ => true | _ => false end.

(** *** Fraud alerts page *)

Definition EM_DASH : string := "—".

Definition getFullYear (d : option LocalTime) : number :=
  match d with Some t => num (lt_year t) | None => NaN end.
Definition getMonth (d : option LocalTime) : number :=
  match d with Some t => num (lt_month t) | None => NaN end.
Definition getDate (d : option LocalTime) : number :=
  match d with Some t => num (lt_date t) | None => NaN end.
Definition getHours (d : option LocalTime) : number :=
  match d with Some t => num (lt_hours t) | None => NaN end.
Definition getMinutes (d : option LocalTime) : number :=
  match d with Some t => num (lt_minutes t) | None => NaN end.
Definition getSeconds (d : option LocalTime) : number :=
  match d with Some t => num (lt_seconds t) | None => NaN end.

Definition pad2 (n : number) : string :=
  Str.padStart 2 "0" (number_to_string n).

(** The body shared by [formatDate] and [formatExact] once the date is
    built: the two sources spell it out with the same statements. *)
Definition render_date (d : option LocalTime) : string :=
  let day := pad2 (getDate d) in
  let month := pad2 (Num.add (getMonth d) (num 1)) in
  let year := getFullYear d in
  let hours := getHours d in
  let minutes := pad2 (getMinutes d) in
  let seconds := pad2 (getSeconds d) in
  let ampm := if Num.ge hours (num 12) then "PM" else "AM" in
  let hours := Num.rem hours (num 12) in
  let hours := if Num.truthy hours then hours else num 12 in
  let hours := pad2 hours in
  day +:+ "/" +:+ month +:+ "/" +:+ number_to_string year +:+ " " +:+
  hours +:+ ":" +:+ minutes +:+ ":" +:+ seconds +:+ " " +:+ ampm.

(** [formatDate]: the [catch] branch is unreachable, since neither the
    constructor nor the getters raise on an Invalid Date. *)
Definition formatDate (ts : jsval) : jsval :=
  if negb (truthy ts) then JStr EM_DASH
  else JStr (render_date (new_Date host ts)).

Record badge : Type := { label : string; cls : string }.

Definition riskBadgeLabel (score : jsval) : badge :=
  let n := let x := ToNumber score in if Num.truthy x then x else num 0 in
  if Num.gt n (num 70) then {| label := "High"; cls := "badge-high" |}
  else if Num.gt n (num 30) then {| label := "Medium"; cls := "badge-medium" |}
  else {| label := "Low"; cls := "badge-low" |}.

Definition detectDocType (r : jsval) : result string :=
  fraud_result <- get r "fraud_result";;
  let fraud := fraud_result ||| JObj ∅ in
  if truthy (prop fraud "document_type")
  then (s <- js_String (prop fraud "document_type");; Ok (Str.toLowerCase s))
  else if truthy (prop r "document_type")
  then (s <- js_String (prop r "document_type");; Ok (Str.toLowerCase s))
  else if truthy (prop r "doc_type")
  then (s <- js_String (prop r "doc_type");; Ok (Str.toLowerCase s))
  else if truthy (prop r "aadhaar_ocr") then Ok "aadhaar"
  else if truthy (prop r "pan_ocr") then Ok "pan"
  else Ok "document".

(** The three-tier mapping [extractConfidence] falls back to; the source
    writes the same four lines at both places it is needed. *)
Definition confidence_from_fraud_score (fraud r : jsval) : result number :=
  fs <- js_Number (prop fraud "fraud_score" ??? prop r "fraud_score" ??? JNum (num 0));;
  if Num.gt fs (num 70) then Ok (num 90)
  else if Num.gt fs (num 30) then Ok (num 75)
  else Ok (num 60).

Definition is_empty_string (v : jsval) : bool :=
  match v with JStr "" => true | _ => false end.

Definition extractConfidence (r : jsval) : result number :=
  fraud_result <- get r "fraud_result";;
  let fraud := fraud_result ||| JObj ∅ in
  let c :=
    prop fraud "confidence" ???
    prop fraud "confidence_score" ???
    prop fraud "risk_score" ???
    prop fraud "match_score" ???
    prop fraud "similarity" ???
    prop r "confidence" ???
    prop r "score" ???
    JNull in
  unusable <- (if nullish c || is_empty_string c then Ok true
               else (n <- js_Number c;; Ok (Num.isNaN n)));;
  if unusable : bool
  then confidence_from_fraud_score fraud r
  else
    c <- js_Number c;;
    let c := if Num.gt c (num 0) && Num.le c (num 1)
             then Num.mul c (num 100) else c in
    let c := Num.min (num 100) (Num.max (num 0) c) in
    if Num.le c (num 1)
    then confidence_from_fraud_score fraud r
    else Ok (Num.round c).

Definition DEFAULT_REASON : string :=
  "No anomalies detected for this KYC submission".

(** The closure [add] of [buildRiskReason], with the array it pushes to
    passed explicitly. *)
Definition add (reasons : list string) (msg : string) : list string :=
  if negb (String.eqb msg "") && negb (Str.mem msg reasons)
  then reasons ++ [msg] else reasons.

Definition text_fields (fraud r : jsval) : list jsval :=
  [ prop fraud "reason"; prop fraud "reason_text";
    prop fraud "description"; prop fraud "message";
    prop r "reason"; prop r "reason_text"; prop r "description";
    prop r "message"; prop r "notes" ].

Definition nonblank_text (x : jsval) : option string :=
  match x with
  | JStr s => if (0 <? Str.len (Str.trim s)) then Some s else None
  | _ => None
  end.

(** The five guarded calls of [add], in the order of the source. *)
Definition flag_reasons (flags : list string) : list string :=
  let reasons : list string := [] in
  let reasons := if Str.mem "duplicate_submission" flags
                 then add reasons "Duplicate submission detected"
                 else reasons in
  let reasons := if Str.mem "name_mismatch" flags
                 then add reasons "Name on document does not closely match user input"
                 else reasons in
  let reasons := if Str.mem "duplicate_aadhaar" flags
                 then add reasons "Duplicate Aadhaar detected"
                 else reasons in
  let reasons := if Str.mem "duplicate_pan" flags
                 then add reasons "Duplicate PAN detected"
                 else reasons in
  let reasons := if Str.mem "aadhaar_pan_duplicate" flags
                 then add reasons "Aadhaar/PAN matches an existing record (duplicate)"
                 else reasons in
  reasons.

(** [buildRiskReason] from the point where [flags_text] has been dealt
    with. *)
Definition reason_from_flags (fraud r : jsval) : result string :=
  let flagsRaw :=
    prop fraud "flags" ||| prop fraud "flag_codes" ||| prop fraud "reasons" |||
    prop fraud "reason_codes" ||| prop r "flags" in
  flags <- match flagsRaw with
           | JArr items =>
               map_result (fun f => s <- js_String f;; Ok (Str.toLowerCase s)) items
           | _ => Ok []
           end;;
  let reasons := flag_reasons flags in
  if (0 <? Z.of_nat (length reasons)) then Ok (Str.join ", " reasons)
  else
    let texts := omap nonblank_text (text_fields fraud r) in
    if negb (Z.of_nat (length texts) =? 0) then Ok (Str.join ", " texts)
    else Ok DEFAULT_REASON.

Definition buildRiskReason (r : jsval) : result string :=
  fraud_result <- get r "fraud_result";;
  let fraud := fraud_result ||| JObj ∅ in
  let flags_text := prop fraud "flags_text" in
  if truthy flags_text then
    trimmed <- call_trim flags_text;;
    if negb (String.eqb trimmed "") then
      let txt := Str.toLowerCase trimmed in
      if negb (Str.mem txt ["low"; "medium"; "high"])
      then Ok trimmed
      else reason_from_flags fraud r
    else reason_from_flags fraud r
  else reason_from_flags fraud r.

(** The risk filter of the alerts table: whether a row with this fraud
    score is kept when the filter named [filterRisk] is selected and the
    search box is empty. *)
Definition passes_risk_filter (filterRisk : string) (fraud_score : number) : bool :=
  if negb (String.eqb filterRisk "all") then
    if String.eqb filterRisk "high" && Num.le fraud_score (num 70) then false
    else if String.eqb filterRisk "medium" &&
            (Num.le fraud_score (num 30) || Num.gt fraud_score (num 70))
    then false
    else if String.eqb filterRisk "low" && Num.gt fraud_score (num 30) then false
    else true
  else true.

(** The callbacks that count the rows of each risk card of the alerts page
    when no aggregate is loaded. *)
Definition card_high (fraud_score : number) : bool := Num.gt fraud_score (num 70).
Definition card_medium (fraud_score : number) : bool :=
  Num.gt fraud_score (num 30) && Num.le fraud_score (num 70).
Definition card_low (fraud_score : number) : bool := Num.le fraud_score (num 30).

(** *** KYC requests page *)

Fixpoint first_field (o : jsval) (keys : list string) : jsval :=
  match keys with
  | [] => JNull
  | k :: rest =>
      let v := prop o k in
      if negb (nullish v) && negb (String.eqb (Str.trim (ToString v)) "")
      then v else first_field o rest
  end.

(** [getFirstField(obj = {}, keys = [])]: an [undefined] first argument
    takes the default. *)
Definition getFirstField (o : jsval) (keys : list string) : jsval :=
  let o := match o with JUndefined => JObj ∅ | _ => o end in
  if negb (truthy o) then JNull else first_field o keys.

(** [maskNumber(numStr = "", visibleFront = 4, visibleBack = 4)]. *)
Definition maskNumber (numStr : jsval) (visibleFront visibleBack : Z) : string :=
  let numStr := match numStr with JUndefined => JStr "" | _ => numStr end in
  if negb (truthy numStr) then "N/A"
  else
    let s := Str.filter (fun c => negb (Str.is_space c)) (ToString numStr) in
    if Str.len s <=? visibleFront + visibleBack then s
    else
      let middle :=
        Str.repeat "X" (Z.to_nat (Z.max 0 (Str.len s - visibleFront - visibleBack))) in
      Str.slice s 0 (Some visibleFront) +:+ middle +:+
      Str.slice s (Str.len s - visibleBack) None.

Definition is_digit_or_dot (c : ascii) : bool :=
  Str.is_digit c || Ascii.eqb c "."%char.

Definition classify_number (n : number) : string :=
  if Num.gt n (num 70) then "High"
  else if Num.gt n (num 30) then "Medium"
  else "Low".

Definition formatRisk (val : jsval) : string :=
  if nullish val || is_empty_string val then "Low"
  else match val with
       | JStr s =>
           let v := Str.toLowerCase s in
           if Str.includes v "high" then "High"
           else if Str.includes v "medium" || Str.includes v "med" then "Medium"
           else if Str.includes v "low" then "Low"
           else
             let n := parse_float host (Str.filter is_digit_or_dot s) in
             if negb (Num.isNaN n) then classify_number n else "Low"
       | _ =>
           let n := ToNumber val in
           if Num.isNaN n then "Low" else classify_number n
       end.

(** The risk label computed inline for each row of the requests list. *)
Definition row_risk (r : jsval) : result string :=
  fraud_result <- get r "fraud_result";;
  let fr := fraud_result ||| JObj ∅ in
  n <- js_Number (prop fr "fraud_score");;
  let fs := if Num.truthy n then n else num 0 in
  Ok (if Num.gt fs (num 70) then "High"
      else if Num.gt fs (num 30) then "Medium" else "Low").

Record riskBuckets : Type := { Low : Z; Medium : Z; High : Z }.
Record verifiedDocs : Type := { verified : Z; unverified : Z }.
Record aggregate : Type := {
  riskScore : number;
  buckets : riskBuckets;
  docs : verifiedDocs;
}.

(** [Number(r?.fraud_result?.fraud_score || 0)]. *)
Definition fallback_score (r : jsval) : number :=
  ToNumber (get_opt (get_opt r "fraud_result") "fraud_score" ||| JNum (num 0)).

(** One turn of the [forEach] of [computeFallback] on the two counters
    objects. *)
Definition count_record (acc : riskBuckets * verifiedDocs) (r : jsval)
  : riskBuckets * verifiedDocs :=
  let '(b, v) := acc in
  let fs := fallback_score r in
  let b :=
    if Num.gt fs (num 70) then {| Low := Low b; Medium := Medium b; High := High b + 1 |}
    else if Num.gt fs (num 30)
    then {| Low := Low b; Medium := Medium b + 1; High := High b |}
    else {| Low := Low b + 1; Medium := Medium b; High := High b |} in
  let v :=
    if Num.gt fs (num 30)
    then {| verified := verified v; unverified := unverified v + 1 |}
    else {| verified := verified v + 1; unverified := unverified v |} in
  (b, v).

Definition computeFallback (recordsList : list jsval) : aggregate :=
  let '(b, v) :=
    fold_left count_record recordsList
      ({| Low := 0; Medium := 0; High := 0 |}, {| verified := 0; unverified := 0 |}) in
  {| riskScore :=
       if negb (Z.of_nat (length recordsList) =? 0)
       then Num.round
              (Num.div
                 (fold_left (fun a b => Num.add a (fallback_score b)) recordsList (num 0))
                 (num (Z.of_nat (length recordsList))))
       else num 0;
     buckets := b;
     docs := v |}.

(** The primitive values: what an identifier passed to a handler can be
    once it has gone through a URL or a JSON payload. *)
Inductive prim : Type :=
| PUndefined
| PNull
| PBool (b : bool)
| PNum (n : number)
| PStr (s : string).

(** [v === p] against a primitive [p]: an object or an array is never
    strictly equal to a primitive. *)
Definition strict_eq (v : jsval) (p : prim) : bool :=
  match v, p with
  | JUndefined, PUndefined | JNull, PNull => true
  | JBool x, PBool y => Bool.eqb x y
  | JNum x, PNum y => Num.eqb x y
  | JStr x, PStr y => String.eqb x y
  | _, _ => false
  end.

Definition indexed {A} (f : A → jsval) (l : list A) : gmap string jsval :=
  list_to_map (imap (fun i x => (pretty i, f x)) l).

(** The own enumerable properties [{...v}] copies. *)
Definition spread (v : jsval) : gmap string jsval :=
  match v with
  | JObj fields => fields
  | JArr items => indexed (fun x => x) items
  | JStr s => indexed (fun c => JStr (String c "")) (list_ascii_of_string s)
  | _ => ∅
  end.

(** [r => r._id === id ? { ...r, status } : r]. *)
Definition with_status (id : prim) (status : string) (r : jsval) : result jsval :=
  rid <- get r "_id";;
  if strict_eq rid id
  then Ok (JObj (<["status" := JStr status]> (spread r)))
  else Ok r.

Definition status_of_action (action : string) : string :=
  if String.eqb action "approve" then "Approved"
  else if String.eqb action "reject" then "Rejected"
  else "Flagged".

(** [doAction]: the new record list, given whether the request went
    through; a rejected request leaves the list as it was. *)
Definition doAction (fetched : bool) (id : prim) (action : string)
    (records : list jsval) : result (list jsval) :=
  if fetched
  then map_result (with_status id (status_of_action action)) records
  else Ok records.

(** *** Admin dashboards ([onApprove], [onReject], [approve], [reject]) *)

Definition onApprove (fetched : bool) (id : prim) (records : list jsval)
  : result (list jsval) :=
  if fetched then map_result (with_status id "Approved") records else Ok records.

Definition onReject (fetched : bool) (id : prim) (records : list jsval)
  : result (list jsval) :=
  if fetched then map_result (with_status id "Rejected") records else Ok records.

Definition approve (fetched : bool) (id : prim) (kycData : list jsval)
  : result (list jsval) :=
  if fetched then map_result (with_status id "Approved") kycData else Ok kycData.

Definition reject (fetched : bool) (id : prim) (kycData : list jsval)
  : result (list jsval) :=
  if fetched then map_result (with_status id "Rejected") kycData else Ok kycData.

(** *** Fraud dashboard *)

Definition ToPrimitive (v : jsval) : jsval :=
  match v with
  | JArr _ | JObj _ => JStr (ToString v)
  | _ => v
  end.

(** [a + b]: both operands are converted to primitives first, which
    raises on one that is not [convertible]. *)
Definition js_add (a b : jsval) : result jsval :=
  if convertible a && convertible b then
    let a := ToPrimitive a in
    let b := ToPrimitive b in
    if is_string a || is_string b
    then Ok (JStr (ToString a +:+ ToString b))
    else Ok (JNum (Num.add (ToNumber a) (ToNumber b)))
  else Throw TypeError.

(** [fs >= n] against a number literal: both sides are converted with
    [Number]. *)
Definition js_ge (fs : jsval) (n : number) : result bool :=
  x <- js_Number fs;;
  Ok (Num.ge x n).

(** The risk label computed inline for each row of the dashboard table. *)
Definition dashboard_risk (r : jsval) : result string :=
  fraud_result <- get r "fraud_result";;
  fraud_score <- get fraud_result "fraud_score";;
  let fs := fraud_score ||| JNum (num 0) in
  high <- js_ge fs (num 71);;
  if high : bool then Ok "High"
  else
    medium <- js_ge fs (num 31);;
    Ok (if medium : bool then "Medium" else "Low").

Fixpoint sum_scores (acc : jsval) (records : list jsval) : result jsval :=
  match records with
  | [] => Ok acc
  | r :: rest =>
      fraud_result <- get r "fraud_result";;
      fraud_score <- get fraud_result "fraud_score";;
      acc <- js_add acc (fraud_score ||| JNum (num 0));;
      sum_scores acc rest
  end.

Definition computeAvg (records : list jsval) : result number :=
  if Z.of_nat (length records) =? 0 then Ok (num 0)
  else
    sum <- sum_scores (JNum (num 0)) records;;
    Ok (Num.round (Num.div (ToNumber sum) (num (Z.of_nat (length records))))).

(** The aggregate the dashboard uses when none was loaded: the average
    is computed, the counters are written as zeros. *)
Definition dashboard_fallback (records : list jsval) : result aggregate :=
  avg <- computeAvg records;;
  Ok {| riskScore := avg;
        buckets := {| Low := 0; Medium := 0; High := 0 |};
        docs := {| verified := 0; unverified := 0 |} |}.

(** *** Upload list and upload form: the maskers *)

Definition maskAadhaar (n : jsval) : jsval :=
  if negb (truthy n) then JStr "-"
  else
    let d := Str.filter Str.is_digit (ToString n) in
    if Str.len d <? 8 then n
    else JStr (Str.slice d 0 (Some 4) +:+ "-XXXX-" +:+ Str.slice d (-4) None).

Definition maskPan (p : jsval) : jsval :=
  if negb (truthy p) then JStr "-"
  else
    let s := Str.filter (fun c => negb (Str.is_space c)) (ToString p) in
    if negb (Str.len s =? 10) then p
    else JStr (Str.slice s 0 (Some 5) +:+ "-XX" +:+ Str.slice s (-2) None).

Definition maskAadhaarUI (n : jsval) : string :=
  if negb (truthy n) then "-"
  else Str.slice (ToString n) 0 (Some 4) +:+ "-XXXX-" +:+
       Str.slice (ToString n) (-4) None.

Definition maskPanUI (p : jsval) : string :=
  if negb (truthy p) then "-"
  else Str.slice (ToString p) 0 (Some 5) +:+ "-XX" +:+
       Str.slice (ToString p) (-2) None.

(** *** Audit trail *)

Definition formatExact (dateString : jsval) : jsval :=
  if negb (truthy dateString) then JStr EM_DASH
  else
    let d := new_Date host dateString in
    match d with
    | None => dateString
    | Some _ => JStr (render_date d)
    end.

End Derivation.

(** * Reference definitions *)

(** A record whose fraud payload carries the fraud score [s], whatever else
    the record and the payload hold. *)
Definition score_record (rest payload : gmap string jsval) (s : jsval) : jsval :=
  JObj (<["fraud_result" := JObj (<["fraud_score" := s]> payload)]> rest).

(** The three bands as the specification words them, for an integer fraud
    score [s] and the level a classifier answers. *)
Definition in_bands (s : Z) (level : string) : Prop :=
  (level = "High" ↔ 70 < s) ∧
  (level = "Medium" ↔ 30 < s ≤ 70) ∧
  (level = "Low" ↔ s ≤ 30).

(** A host fixed on the few inputs the examples below use: it knows one
    timestamp and rejects every other text. *)
Definition sample_host : Host := {|
  render_number := fun _ => "";
  string_to_number := fun _ => NaN;
  parse_float := fun _ => NaN;
  new_Date := fun v =>
    match v with
    | JStr "2025-12-09T17:33:21" =>
        Some {| lt_year := 2025; lt_month := 11; lt_date := 9;
                lt_hours := 17; lt_minutes := 33; lt_seconds := 21 |}
    | _ => None
    end;
|}.

(** A host for two more inputs: a date of the year 999, and the number 0
    read as the first instant of 1970 (in a time zone without offset). *)
Definition early_host : Host := {|
  render_number := fun _ => "";
  string_to_number := fun _ => NaN;
  parse_float := fun _ => NaN;
  new_Date := fun v =>
    match v with
    | JStr "0999-03-04T00:06:07" =>
        Some {| lt_year := 999; lt_month := 2; lt_date := 4;
                lt_hours := 0; lt_minutes := 6; lt_seconds := 7 |}
    | JNum (Fin q) =>
        if Qeq_bool q 0
        then Some {| lt_year := 1970; lt_month := 0; lt_date := 1;
                     lt_hours := 0; lt_minutes := 0; lt_seconds := 0 |}
        else None
    | _ => None
    end;
|}.

(** *** Doubles of the machine *)

(** The value of a primitive double, read from its sign, significand and
    exponent, as a number of the model. *)
Definition number_of_float (f : float) : number :=
  match Prim2SF f with
  | S754_zero _ => Fin 0
  | S754_infinity s => if s then NegInf else PosInf
  | S754_nan => NaN
  | S754_finite s m e =>
      let v := if 0 <=? e then inject_Z (Zpos m * 2 ^ e)
               else Qmake (Zpos m) (Z.to_pos (2 ^ (- e))) in
      Fin (Qred (if s then Qopp v else v))
  end.

(** An integer below 2^53 as a primitive double. *)
Definition float_of_Z (z : Z) : float := PrimFloat.of_uint63 (Uint63.of_Z z).

(** The confidence written [k / 1000], as the double the parser gives
    (the quotient of two doubles is correctly rounded). *)
Definition thousandth (k : Z) : float :=
  PrimFloat.div (float_of_Z k) (float_of_Z 1000).

(** *** Confidence, as the specification words it *)

(** The first value of a list that is present, that is neither [undefined]
    nor [null]. *)
Fixpoint first_present (vs : list jsval) : option jsval :=
  match vs with
  | [] => None
  | v :: rest => if nullish v then first_present rest else Some v
  end.

(** The nested fraud payload of a record, taken as empty when absent. *)
Definition spec_payload (r : jsval) : jsval :=
  if truthy (prop r "fraud_result") then prop r "fraud_result" else JObj ∅.

(** The confidence-like value of a record: the alternate names of the
    payload first, then those of the record, in this order. *)
Definition spec_confidence_field (r : jsval) : option jsval :=
  first_present
    (List.map (prop (spec_payload r))
       ["confidence"; "confidence_score"; "risk_score"; "match_score"; "similarity"]
     ++ List.map (prop r) ["confidence"; "score"]).

(** The fraud score the fallback reads: the payload's, else the record's,
    else 0. *)
Definition spec_fraud_score_value (r : jsval) : jsval :=
  default (JNum (num 0))
    (first_present [prop (spec_payload r) "fraud_score"; prop r "fraud_score"]).

Definition spec_fraud_score (host : Host) (r : jsval) : number :=
  ToNumber host (spec_fraud_score_value r).

(** score > 70 gives 90; score > 30 gives 75; else 60. *)
Definition spec_three_tier (score : number) : number :=
  if Num.gt score (num 70) then num 90
  else if Num.gt score (num 30) then num 75
  else num 60.

(** The number a found value stands for, when it is numeric. *)
Definition spec_numeric (host : Host) (v : jsval) : option number :=
  if is_empty_string v || Num.isNaN (ToNumber host v) then None
  else Some (ToNumber host v).

(** A number brought into the interval from [lo] to [hi]. *)
Definition spec_clamp (lo hi c : number) : number :=
  if Num.lt c lo then lo else if Num.le hi c then hi else c.

(** A hundred times a number, exactly. *)
Definition exact_times_100 (c : number) : number :=
  match c with
  | Fin q => Fin (q * 100)
  | _ => c
  end.

(** A hundred times a number as double arithmetic gives it: the double
    nearest to the exact product. *)
Definition double_times_100 (c : number) : number :=
  match c with
  | Fin q => Num.to_double (q * 100)
  | _ => c
  end.

(** The integer nearest to a number, a half going up. *)
Definition nearest_integer (c : number) : number :=
  match c with
  | Fin q =>
      let below := Qfloor q in
      if Qle_bool (inject_Z below + (1 # 2)) q then num (below + 1) else num below
  | _ => c
  end.

(** The normalizer of the specification, for a given way of multiplying
    by 100: the three-tier value when no field is found or the value is
    not numeric; else the value, scaled when it lies in (0,1], clamped to
    [0,100], replaced by the three-tier value when still at most 1, and
    rounded to the nearest integer. *)
Definition normalize_with (times_100 : number → number) (host : Host) (r : jsval)
  : number :=
  let fallback := spec_three_tier (spec_fraud_score host r) in
  match spec_confidence_field r with
  | None => fallback
  | Some v =>
      match spec_numeric host v with
      | None => fallback
      | Some c =>
          let scaled :=
            if Num.lt (num 0) c && Num.le c (num 1) then times_100 c else c in
          let clamped := spec_clamp (num 0) (num 100) scaled in
          if Num.le clamped (num 1) then fallback else nearest_integer clamped
      end
  end.

(** As the specification words it: the product is the exact one. *)
Definition spec_normalizeConfidence : Host → jsval → number :=
  normalize_with exact_times_100.

(** As amended: the product is the one of double arithmetic. *)
Definition amended_normalizeConfidence : Host → jsval → number :=
  normalize_with double_times_100.

(** The value found under the confidence names and the fraud score can be
    converted to numbers. *)
Definition confidence_converts (r : jsval) : Prop :=
  convertible (default JNull (spec_confidence_field r)) = true ∧
  convertible (spec_fraud_score_value r) = true.

(** *** Reasons, as the specification words them *)

Fixpoint first_truthy (vs : list jsval) : option jsval :=
  match vs with
  | [] => None
  | v :: rest => if truthy v then Some v else first_truthy rest
  end.

(** The known flag codes and their sentences, in the fixed order. *)
Definition code_sentences : list (string * string) :=
  [ ("duplicate_submission", "Duplicate submission detected");
    ("name_mismatch", "Name on document does not closely match user input");
    ("duplicate_aadhaar", "Duplicate Aadhaar detected");
    ("duplicate_pan", "Duplicate PAN detected");
    ("aadhaar_pan_duplicate", "Aadhaar/PAN matches an existing record (duplicate)") ].

Definition risk_labels : list string := ["low"; "medium"; "high"].

(** Step 1: the trimmed [flags_text], unless it is empty or a risk label. *)
Definition spec_flags_text (r : jsval) : option string :=
  match prop (spec_payload r) "flags_text" with
  | JStr s =>
      let t := Str.trim s in
      if String.eqb t "" then None
      else if Str.mem (Str.toLowerCase t) risk_labels then None
      else Some t
  | _ => None
  end.

(** Step 2: the alternate fields that can hold the array of flag codes. *)
Definition alternate_flag_fields (r : jsval) : list jsval :=
  [ prop (spec_payload r) "flags"; prop (spec_payload r) "flag_codes";
    prop (spec_payload r) "reasons"; prop (spec_payload r) "reason_codes";
    prop r "flags" ].

Definition array_items (v : jsval) : list jsval :=
  match v with
  | JArr items => items
  | _ => []
  end.

(** A flag code as it is compared: as text, in lower case. *)
Definition code_of (host : Host) (f : jsval) : string :=
  Str.toLowerCase (ToString host f).


(** As amended: the entries of the first alternate field whose value is
    truthy, when that value is an array; the later fields are not read,
    even when that value is an empty array or is not an array. *)
Definition flag_entries (r : jsval) : list jsval :=
  match first_truthy (alternate_flag_fields r) with
  | Some v => array_items v
  | None => []
  end.

Definition amended_flag_codes (host : Host) (r : jsval) : list string :=
  List.map (code_of host) (flag_entries r).

(** The sentences of the known codes among [codes]: in the fixed order,
    each at most once. *)
Definition sentences_of (codes : list string) : list string :=
  List.map snd (List.filter (fun cs => Str.mem (fst cs) codes) code_sentences).

(** Step 3: the free-text fields that are not blank, a blank text being
    one made of white space only. *)
Definition only_spaces (s : string) : bool :=
  forallb Str.is_space (list_ascii_of_string s).

Definition free_text (v : jsval) : option string :=
  match v with
  | JStr s => if only_spaces s then None else Some s
  | _ => None
  end.

Definition spec_texts (r : jsval) : list string :=
  omap free_text
    (List.map (prop (spec_payload r)) ["reason"; "reason_text"; "description"; "message"]
     ++ List.map (prop r) ["reason"; "reason_text"; "description"; "message"; "notes"])%list.

(** The precedence: the flags text, else the sentences, else the texts,
    else the default. *)
Definition precedence (flags_text : option string) (sentences texts : list string)
  : string :=
  match flags_text with
  | Some t => t
  | None =>
      match sentences with
      | _ :: _ => Str.join ", " sentences
      | [] =>
          match texts with
          | _ :: _ => Str.join ", " texts
          | [] => "No anomalies detected for this KYC submission"
          end
      end
  end.


Definition amended_reason (host : Host) (r : jsval) : string :=
  precedence (spec_flags_text r) (sentences_of (amended_flag_codes host r))
             (spec_texts r).


(** *** The document type *)

(** The value the document type is read from: the first truthy one of the
    payload's [document_type], the record's [document_type] and the
    record's [doc_type]; [undefined] when there is none. *)
Definition doc_type_value (r : jsval) : jsval :=
  default JUndefined
    (first_truthy
       [prop (spec_payload r) "document_type"; prop r "document_type";
        prop r "doc_type"]).


(** *** Masks, as the specification words them *)

Definition first_chars (k : nat) (s : string) : string := String.substring 0 k s.
Definition last_chars (k : nat) (s : string) : string :=
  String.substring (String.length s - k) k s.

Definition digits_of (s : string) : string := Str.filter Str.is_digit s.
Definition without_spaces (s : string) : string :=
  Str.filter (fun c => negb (Str.is_space c)) s.

(** Strip the non-digits; fewer than 8 digits: the input as it is; else the
    first four, the mask, the last four of the digits. *)
Definition spec_maskNational (host : Host) (n : jsval) : jsval :=
  let d := digits_of (ToString host n) in
  if (String.length d <? 8)%nat then n
  else JStr (first_chars 4 d +:+ "-XXXX-" +:+ last_chars 4 d).

(** Strip the white space; other than 10 characters: the input as it is;
    else the first five, the mask, the last two. *)
Definition spec_maskTax (host : Host) (p : jsval) : jsval :=
  let s := without_spaces (ToString host p) in
  if negb (String.length s =? 10)%nat then p
  else JStr (first_chars 5 s +:+ "-XX" +:+ last_chars 2 s).

(** Two identifiers agree on what a mask keeping [front] leading and [back]
    trailing characters leaves visible: same length, same character at
    every position of the prefix and of the suffix. *)
Definition visible_equal (front back : nat) (a b : string) : Prop :=
  String.length a = String.length b ∧
  ∀ i : nat, (i < front ∨ String.length a - back ≤ i)%nat →
             String.get i a = String.get i b.

(** *** The timestamp format, as the specification words it *)

Definition digit_char (d : Z) : ascii := ascii_of_N (48 + Z.to_N d).

(** A number below 100 on two digits, zero-padded. *)
Definition two_digits (n : Z) : string :=
  String (digit_char (n / 10)) (String (digit_char (n mod 10)) "").

Definition four_digits (n : Z) : string :=
  two_digits (n / 100) +:+ two_digits (n mod 100).

(** The hour of the 12-hour clock: 0 and 12 read 12. *)
Definition hour12 (h : Z) : Z := if h mod 12 =? 0 then 12 else h mod 12.

Definition meridiem (h : Z) : string := if h <? 12 then "AM" else "PM".

(** DD/MM/YYYY hh:mm:ss AM|PM, the year being written [year]. *)
Definition spec_timestamp (year : string) (t : LocalTime) : string :=
  two_digits (lt_date t) +:+ "/" +:+ two_digits (lt_month t + 1) +:+ "/" +:+
  year +:+ " " +:+
  two_digits (hour12 (lt_hours t)) +:+ ":" +:+ two_digits (lt_minutes t) +:+ ":" +:+
  two_digits (lt_seconds t) +:+ " " +:+ meridiem (lt_hours t).

(** *** The aggregate, as the specification words it *)

Definition count_if (p : Z → bool) (zs : list Z) : Z :=
  Z.of_nat (length (List.filter p zs)).

Definition sum_Z (zs : list Z) : Z := fold_right Z.add 0 zs.

(** The arithmetic mean rounded to the nearest integer, halves going up;
    0 on the empty list. *)
Definition spec_mean (zs : list Z) : Z :=
  let n := Z.of_nat (length zs) in
  if n =? 0 then 0 else (2 * sum_Z zs + n) / (2 * n).

(** The records carry the integer fraud scores [zs], in order. *)
Definition scores_are (host : Host) (records : list jsval) (zs : list Z) : Prop :=
  Forall2 (fun r z => fallback_score host r = num z) records zs.

(** The records have a fraud payload holding the integer fraud scores
    [zs], in order. *)
Definition carry_scores (records : list jsval) (zs : list Z) : Prop :=
  Forall2 (fun r z => ∃ rest payload, r = score_record rest payload (JNum (num z)))
          records zs.

Definition is_level (level : string) (z : Z) : bool :=
  String.eqb (classify_number (num z)) level.

(** *** The status update, as the claim words it *)

(** [next] is [records] where exactly the records whose [_id] is [id] have
    their [status] set to [status], every other field kept, and every other
    record left as it is. *)
Definition only_status_changed
    (id : prim) (status : string) (records next : list jsval) : Prop :=
  length next = length records ∧
  ∀ (i : nat) (r : jsval), records !! i = Some r →
    (strict_eq (prop r "_id") id = false → next !! i = Some r) ∧
    (strict_eq (prop r "_id") id = true →
     ∃ fields : gmap string jsval,
       next !! i = Some (JObj fields) ∧
       fields !! "status" = Some (JStr status) ∧
       ∀ k : string, k ≠ "status" → fields !! k = spread r !! k).

Definition all_present (records : list jsval) : Prop :=
  Forall (fun r => nullish r = false) records.

(** Two pending records, for the examples. *)
Definition two_pending : list jsval :=
  [obj [("_id", JStr "a"); ("status", JStr "Pending"); ("user_name", JStr "u")];
   obj [("_id", JStr "b"); ("status", JStr "Pending")]].

(** * Further helpers of the same files *)

Section Pages.

Context (host : Host).

(** *** Fraud alerts page: the rows and the table *)

(** A row of the alerts table, as the callback of [loadRecords] builds
    it. *)
Record alert_row : Type := {
  row_id : jsval;
  row_user_name : jsval;
  row_reason : string;
  row_doc_type : string;
  row_timestamp : jsval;
  row_fraud_score : number;
  row_confidence : number;
}.

(** The callback [(r) => { const fs = ...; return {...}; }] of
    [loadRecords]. *)
Definition alert_row_of (r : jsval) : result alert_row :=
  fraud_result <- get r "fraud_result";;
  fs <- js_Number host
          (coalesce (coalesce (get_opt fraud_result "fraud_score") (prop r "fraud_score"))
                    (JNum (num 0)));;
  let id := or_else (or_else (prop r "_id") (prop r "id")) (prop r "case_id") in
  let user_name := or_else (prop r "user_name") (prop r "customer_name") in
  reason <- buildRiskReason host r;;
  doc_type <- detectDocType host r;;
  let timestamp := or_else (prop r "timestamp") (prop r "createdAt") in
  confidence <- extractConfidence host r;;
  Ok {| row_id := id; row_user_name := user_name; row_reason := reason;
        row_doc_type := doc_type; row_timestamp := timestamp;
        row_fraud_score := fs; row_confidence := confidence |}.

(** [loadRecords]: the rows it stores, given the parsed response ([None]
    when the request or the parsing failed).  Whatever is raised on the
    way is caught and leaves the empty list. *)
Definition loadRecords (response : option jsval) : list alert_row :=
  match response with
  | None => []
  | Some json =>
      match (records <- get json "records";;
             match or_else records (JArr []) with
             | JArr items => map_result alert_row_of items
             | _ => Throw TypeError
             end) with
      | Ok rows => rows
      | Throw _ => []
      end
  end.

(** The callback of [records.filter] in [filtered]. *)
Definition keeps_row (filterRisk q : string) (r : alert_row) : bool :=
  if negb (passes_risk_filter filterRisk (row_fraud_score r)) then false
  else if String.eqb q "" then true
  else Str.includes (Str.toLowerCase (ToString host (row_id r))) q ||
       Str.includes (Str.toLowerCase (row_reason r)) q ||
       Str.includes (Str.toLowerCase (row_doc_type r)) q ||
       Str.includes (Str.toLowerCase (ToString host (row_user_name r))) q.

Definition filtered (records : list alert_row) (filterRisk query : string)
  : list alert_row :=
  let q := Str.toLowerCase (Str.trim query) in
  List.filter (keeps_row filterRisk q) records.

(** *** KYC requests page *)

Definition DOB_KEYS : list string :=
  ["dob"; "DOB"; "date_of_birth"; "DateOfBirth"; "birth_date"; "birthDate"].

Definition formatDob (o : jsval) : jsval :=
  or_else (getFirstField host o DOB_KEYS) (JStr "N/A").

(** *** Audit trail *)

(** [loadAudit]: the events it stores, given the events shown so far and
    the parsed response ([None] when the request failed, was not ok or
    did not parse).  [SAMPLE] is the constant list of the module. *)
Definition loadAudit (SAMPLE prev : list jsval) (response : option jsval)
  : list jsval :=
  let on_failure := if negb (Z.of_nat (length prev) =? 0) then prev else SAMPLE in
  match response with
  | None => on_failure
  | Some json =>
      match get json "audit" with
      | Throw _ => on_failure
      | Ok audit =>
          match audit with
          | JArr items => items
          | _ =>
              match prop json "events" with
              | JArr items => items
              | _ =>
                  match json with
                  | JArr items => items
                  | _ => SAMPLE
                  end
              end
          end
      end
  end.

End Pages.

(** [toggleExpand] on the set of expanded ids; the keys of a [Set] are
    compared by value, which is equality on [K]. *)
Definition toggleExpand `{Countable K} (id : K) (prev : gset K) : gset K :=
  if decide (id ∈ prev) then prev ∖ {[ id ]} else prev ∪ {[ id ]}.

(** Every record is an object. *)
Definition all_objects (records : list jsval) : Prop :=
  Forall (fun r => ∃ fields, r = JObj fields) records.

(** A value the field extractor passes over: missing, or blank once
    written as text. *)
Definition blank (host : Host) (v : jsval) : bool :=
  nullish v || String.eqb (Str.trim (ToString host v)) "".

(** Two rows of the alerts table, for the examples. *)
Definition sample_rows : list alert_row :=
  [ {| row_id := JStr "a"; row_user_name := JStr "u"; row_reason := "r";
       row_doc_type := "pan"; row_timestamp := JNull;
       row_fraud_score := num 80; row_confidence := num 90 |};
    {| row_id := JStr "b"; row_user_name := JStr "v"; row_reason := "r";
       row_doc_type := "pan"; row_timestamp := JNull;
       row_fraud_score := num 10; row_confidence := num 60 |} ].

(** One sample event, for the examples. *)
Definition one_sample_event : list jsval := [obj [("id", JStr "evt-1")]].

(** Every character of a text satisfies a test. *)
Fixpoint all_chars (p : ascii → bool) (s : string) : bool :=
  match s with
  | EmptyString => true
  | String c t => p c && all_chars p t
  end.

Definition not_space (c : ascii) : bool := negb (Str.is_space c).

(** The names an object read from JSON inherits from [Object.prototype];
    a property read under one of them is found even when the object does
    not hold it. *)
Definition OBJECT_PROTOTYPE_KEYS : list string :=
  [ "constructor"; "hasOwnProperty"; "isPrototypeOf"; "propertyIsEnumerable";
    "toLocaleString"; "toString"; "valueOf"; "__proto__";
    "__defineGetter__"; "__defineSetter__"; "__lookupGetter__"; "__lookupSetter__" ].

Definition plain_keys (keys : list string) : bool :=
  forallb (fun k => negb (Str.mem k OBJECT_PROTOTYPE_KEYS)) keys.

Definition is_ascii (c : ascii) : bool := (Str.code c <? 128)%N.

(** A value the field extractor can test as the model does: missing, or
    one that converts to a text of the ASCII range, where the white space
    [trim] removes is the white space of the model. *)
Definition readable (host : Host) (v : jsval) : bool :=
  nullish v || (convertible v && all_chars is_ascii (ToString host v)).

(** The value whose conversion [computeFallback] performs for a record. *)
Definition fallback_score_value (r : jsval) : jsval :=
  get_opt (get_opt r "fraud_result") "fraud_score".

(** *** Fraud alerts page: the CSV export *)

Definition QUOTE : ascii := ascii_of_N 34.
Definition NEWLINE : string := String (ascii_of_N 10) "".

(** The global replace applied to the reason: every double quote is
    written twice. *)
Fixpoint escape_quotes (s : string) : string :=
  match s with
  | EmptyString => EmptyString
  | String c t =>
      if Ascii.eqb c QUOTE then String QUOTE (String QUOTE (escape_quotes t))
      else String c (escape_quotes t)
  end.

(** A field between double quotes. *)
Definition quoted (s : string) : string := String QUOTE (s +:+ String QUOTE "").

Definition CSV_HEADER : string :=
  Str.join "," ["Case ID"; "Risk Level"; "Reason"; "Document Type"; "Timestamp";
                "Confidence"].

Definition csv_line (host : Host) (r : alert_row) : string :=
  Str.join ","
    [ quoted (ToString host (row_id r));
      quoted (label (riskBadgeLabel host (JNum (row_fraud_score r))));
      quoted (escape_quotes (ToString host (JStr (row_reason r))));
      quoted (row_doc_type r);
      quoted (ToString host (formatDate host (row_timestamp r)));
      quoted (number_to_string host (row_confidence r)) ].

(** The text [exportCSV] saves for the rows on screen. *)
Definition exportCSV (host : Host) (rows : list alert_row) : string :=
  Str.join NEWLINE (CSV_HEADER :: List.map (csv_line host) rows).

(** A reader of quoted CSV fields, to state what the export's quoting
    achieves: [read_field] reads the inside of a quoted field up to its
    closing quote, a pair of double quotes standing for one, and returns
    the field with the text that follows it. *)
Fixpoint read_field (s : string) : option (string * string) :=
  match s with
  | EmptyString => None
  | String c t =>
      if Ascii.eqb c QUOTE then
        match t with
        | String c' t' =>
            if Ascii.eqb c' QUOTE then
              match read_field t' with
              | Some (f, rest) => Some (String QUOTE f, rest)
              | None => None
              end
            else Some (EmptyString, t)
        | EmptyString => Some (EmptyString, EmptyString)
        end
      else
        match read_field t with
        | Some (f, rest) => Some (String c f, rest)
        | None => None
        end
  end.

Definition read_quoted (s : string) : option (string * string) :=
  match s with
  | String c t => if Ascii.eqb c QUOTE then read_field t else None
  | EmptyString => None
  end.

Definition starts_with_quote (s : string) : bool :=
  match s with
  | String c _ => Ascii.eqb c QUOTE
  | EmptyString => false
  end.

Fixpoint count_char (x : ascii) (s : string) : nat :=
  match s with
  | EmptyString => 0
  | String c t => (if Ascii.eqb c x then 1 else 0) + count_char x t
  end.

(** *** Document upload: the date of birth *)

Definition is_dob_sep (c : ascii) : bool :=
  Ascii.eqb c "/"%char || Ascii.eqb c "-"%char.

Definition is_hyphen (c : ascii) : bool := Ascii.eqb c "-"%char.

(** The longest run of digits a text starts with, and what follows it. *)
Fixpoint span_digits (s : string) : string * string :=
  match s with
  | EmptyString => (EmptyString, EmptyString)
  | String c t =>
      if Str.is_digit c
      then let '(run, rest) := span_digits t in (String c run, rest)
      else (EmptyString, s)
  end.

(** A whole text read as three runs of digits with a slash or a hyphen
    after the first and after the second.  Both date patterns of
    [normalizeDobToDDMMYYYY] are anchored at both ends and have this
    shape; as a separator is not a digit, each group of the pattern can
    only be the whole run. *)
Definition digit_groups (s : string) : option (string * string * string) :=
  let '(g1, r1) := span_digits s in
  match r1 with
  | String a r1' =>
      if is_dob_sep a then
        let '(g2, r2) := span_digits r1' in
        match r2 with
        | String b r2' =>
            if is_dob_sep b then
              let '(g3, r3) := span_digits r2' in
              if String.eqb r3 "" then Some (g1, g2, g3) else None
            else None
        | EmptyString => None
        end
      else None
  | EmptyString => None
  end.

Definition one_or_two (g : string) : bool :=
  (1 <=? String.length g)%nat && (String.length g <=? 2)%nat.

Definition four (g : string) : bool := (String.length g =? 4)%nat.

(** The two patterns: year first, then day first. *)
Definition match_year_first (s : string) : option (string * string * string) :=
  match digit_groups s with
  | Some (g1, g2, g3) =>
      if four g1 && one_or_two g2 && one_or_two g3 then Some (g1, g2, g3) else None
  | None => None
  end.

Definition match_day_first (s : string) : option (string * string * string) :=
  match digit_groups s with
  | Some (g1, g2, g3) =>
      if one_or_two g1 && one_or_two g2 && four g3 then Some (g1, g2, g3) else None
  | None => None
  end.

Definition normalizeDobToDDMMYYYY (host : Host) (raw : jsval) : string :=
  if negb (truthy raw) then ""
  else
    let s := Str.trim (ToString host raw) in
    match match_year_first s with
    | Some (m1, m2, m3) =>
        Str.padStart 2 "0" m3 +:+ "-" +:+ Str.padStart 2 "0" m2 +:+ "-" +:+ m1
    | None =>
        match match_day_first s with
        | Some (m1, m2, m3) =>
            Str.padStart 2 "0" m1 +:+ "-" +:+ Str.padStart 2 "0" m2 +:+ "-" +:+ m3
        | None => s
        end
    end.

(** A text matched character by character against a list of classes. *)
Fixpoint matches_classes (classes : list (ascii → bool)) (s : string) : bool :=
  match classes, s with
  | [], EmptyString => true
  | p :: rest, String c t => p c && matches_classes rest t
  | _, _ => false
  end.

Definition DD_MM_YYYY : list (ascii → bool) :=
  [ Str.is_digit; Str.is_digit; is_hyphen; Str.is_digit; Str.is_digit; is_hyphen;
    Str.is_digit; Str.is_digit; Str.is_digit; Str.is_digit ].

(** [ensureDobFormat]: [None] is the source's [null]. *)
Definition ensureDobFormat (host : Host) (v : jsval) : option string :=
  let norm := normalizeDobToDDMMYYYY host v in
  if matches_classes DD_MM_YYYY norm then Some norm else None.

(** The date the upload form sends:
    [ensureDobFormat(dob) || dob || ""]. *)
Definition submitted_dob (host : Host) (dob : jsval) : jsval :=
  or_else
    (or_else (match ensureDobFormat host dob with
              | Some norm => JStr norm
              | None => JNull
              end) dob)
    (JStr "").

(** The date a well-formed input normalises to: day, month and year with
    day and month padded to two digits. *)
Definition canonical_dob (d m y : string) : string :=
  Str.padStart 2 "0" d +:+ "-" +:+ Str.padStart 2 "0" m +:+ "-" +:+ y.

(** *** Fraud dashboard: the rows it loads *)

(** The callback of [loadRecords] on the dashboard: the row object it
    builds from a record. *)
Definition dashboard_row (r : jsval) : result jsval :=
  id <- get r "_id";;
  user_name <- get r "user_name";;
  aadhaar_masked <- get r "aadhaar_masked";;
  pan_masked <- get r "pan_masked";;
  similarity_score <- get r "similarity_score";;
  similarity_status <- get r "similarity_status";;
  fraud_result <- get r "fraud_result";;
  aadhaar_ocr <- get r "aadhaar_ocr";;
  pan_ocr <- get r "pan_ocr";;
  status <- get r "status";;
  timestamp <- get r "timestamp";;
  Ok (obj [ ("id", id);
            ("user_name", user_name);
            ("aadhaar_masked", aadhaar_masked);
            ("pan_masked", pan_masked);
            ("similarity_score", similarity_score);
            ("similarity_status", similarity_status);
            ("fraud_result", or_else fraud_result (JObj ∅));
            ("aadhaar_ocr", or_else aadhaar_ocr (JObj ∅));
            ("pan_ocr", or_else pan_ocr (JObj ∅));
            ("status", or_else status (JStr "Pending"));
            ("timestamp", timestamp) ]).

(** [loadRecords] of the dashboard: the rows it stores, given the parsed
    response ([None] when the request or the parsing failed); anything
    raised leaves the empty list. *)
Definition dashboard_loadRecords (response : option jsval) : list jsval :=
  match response with
  | None => []
  | Some json =>
      match (records <- get json "records";;
             match or_else records (JArr []) with
             | JArr items => map_result dashboard_row items
             | _ => Throw TypeError
             end) with
      | Ok rows => rows
      | Throw _ => []
      end
  end.

(** The fraud score a row of the dashboard carries. *)
Definition dashboard_score (row : jsval) : jsval :=
  prop (prop row "fraud_result") "fraud_score".

(** *** Audit trail: the filter buttons *)

(** [l.filter(f)] for a callback that can raise. *)
Fixpoint filter_result {A} (f : A → result bool) (l : list A) : result (list A) :=
  match l with
  | [] => Ok []
  | x :: rest =>
      keep <- f x;;
      kept <- filter_result f rest;;
      Ok (if keep then x :: kept else kept)
  end.

(** The callback of [events.filter] in [visible]. *)
Definition shows_event (filter : string) (e : jsval) : result bool :=
  if String.eqb filter "all" then Ok true
  else if String.eqb filter "success" then
    type <- get e "type";; Ok (strict_eq type (PStr "success"))
  else if String.eqb filter "warnings" then
    type <- get e "type";; Ok (strict_eq type (PStr "warning"))
  else if String.eqb filter "errors" then
    type <- get e "type";; Ok (strict_eq type (PStr "error"))
  else Ok true.

Definition visible (events : list jsval) (filter : string) : result (list jsval) :=
  filter_result (shows_event filter) events.

(** The events of a list whose type is a given text. *)
Definition of_type (type : string) (events : list jsval) : list jsval :=
  List.filter (fun e => strict_eq (prop e "type") (PStr type)) events.

(** * Properties *)

(** ** Numbers: comparisons on integers *)

Lemma gt_num (a b : Z) : Num.gt (num a) (num b) = (b <? a).
Proof.
  unfold Num.gt, Num.lt, num, Qle_bool; simpl.
  rewrite !Z.mul_1_r. destruct (Z.leb_spec a b), (Z.ltb_spec b a); simpl; try reflexivity; lia.
Qed.

Lemma le_num (a b : Z) : Num.le (num a) (num b) = (a <=? b).
Proof. unfold Num.le, num, Qle_bool; simpl. now rewrite !Z.mul_1_r. Qed.

Lemma ge_num (a b : Z) : Num.ge (num a) (num b) = (b <=? a).
Proof. unfold Num.ge. apply le_num. Qed.

Lemma truthy_num (z : Z) : Num.truthy (num z) = negb (z =? 0).
Proof.
  unfold Num.truthy, num, Qeq_bool; simpl. rewrite Z.mul_1_r.
  destruct z; reflexivity.
Qed.

Lemma or_zero_num (z : Z) :
  (if Num.truthy (num z) then num z else num 0) = num z.
Proof. rewrite truthy_num. destruct (Z.eqb_spec z 0); subst; reflexivity. Qed.

(** [Num.to_double] on values whose double is known: 0.1 is
    0x1.999999999999ap-4; an integer up to 2^53 is itself; a tie goes to
    the even significand (2^53 + 1 gives 2^53, 2^53 + 3 gives 2^53 + 4);
    the smallest subnormal is 2^-1074, half of it gives 0; a value that
    rounds to 2^1024 is infinite.  0.575 times 100 is
    57.49999999999999289, and the double written 0.175 times 100 is
    17.5. *)
Example to_double_examples :
  Num.to_double (1 # 10) = Fin (3602879701896397 # 36028797018963968) ∧
  Num.to_double (inject_Z 85) = num 85 ∧
  Num.to_double (inject_Z (2 ^ 53)) = num (2 ^ 53) ∧
  Num.to_double (inject_Z (2 ^ 53 + 1)) = num (2 ^ 53) ∧
  Num.to_double (inject_Z (2 ^ 53 + 3)) = num (2 ^ 53 + 4) ∧
  Num.to_double (1 # Z.to_pos (2 ^ 1074)) = Fin (1 # Z.to_pos (2 ^ 1074)) ∧
  Num.to_double (1 # Z.to_pos (2 ^ 1075)) = Fin 0 ∧
  Num.to_double (inject_Z (2 ^ 1024 - 2 ^ 970)) = PosInf ∧
  Num.to_double (inject_Z (- 2 ^ 1024)) = NegInf ∧
  Num.mul (Num.to_double (575 # 1000)) (num 100) =
    Fin (8092405580431359 # 140737488355328) ∧
  Num.mul (Num.to_double (175 # 1000)) (num 100) = Fin (35 # 2) ∧
  Num.mul (Num.to_double (85 # 100)) (num 100) = num 85.
Proof. repeat split; vm_compute; reflexivity. Qed.

(** The rounding of the model against the doubles of the machine: for
    every confidence of three decimals, from 0.001 to 1, [Num.to_double]
    gives the double the machine has for it, and the product by 100 of the
    model is the product the machine computes. *)
Lemma to_double_agrees_with_the_machine :
  forallb
    (fun k : nat =>
       let x := thousandth (Z.of_nat k) in
       Num.eqb (Num.to_double (Z.of_nat k # 1000)) (number_of_float x) &&
       Num.eqb (Num.mul (number_of_float x) (num 100))
               (number_of_float (PrimFloat.mul x (float_of_Z 100))))
    (seq 1 1000) = true.
Proof. vm_compute. reflexivity. Qed.

Lemma classify_number_bands (s : Z) : in_bands s (classify_number (num s)).
Proof.
  unfold in_bands, classify_number. rewrite !gt_num.
  destruct (Z.ltb_spec 70 s), (Z.ltb_spec 30 s);
    repeat split; intros; try discriminate; try lia; try reflexivity.
Qed.

Lemma prop_insert_eq fields k v : prop (JObj (<[k := v]> fields)) k = v.
Proof. unfold prop. now rewrite lookup_insert_eq. Qed.

Lemma prop_insert_ne fields k k' v :
  k ≠ k' → prop (JObj (<[k := v]> fields)) k' = prop (JObj fields) k'.
Proof. intros. unfold prop. now rewrite lookup_insert_ne. Qed.

Lemma get_object fields k : get (JObj fields) k = Ok (prop (JObj fields) k).
Proof. reflexivity. Qed.

Lemma or_else_object fields v : or_else (JObj fields) v = JObj fields.
Proof. reflexivity. Qed.

Lemma js_Number_convertible (host : Host) (v : jsval) :
  convertible v = true → js_Number host v = Ok (ToNumber host v).
Proof. intros H. unfold js_Number. now rewrite H. Qed.

Lemma js_String_convertible (host : Host) (v : jsval) :
  convertible v = true → js_String host v = Ok (ToString host v).
Proof. intros H. unfold js_String. now rewrite H. Qed.

Lemma js_Number_raises (host : Host) (v : jsval) :
  convertible v = false → js_Number host v = Throw TypeError.
Proof. intros H. unfold js_Number. now rewrite H. Qed.

Lemma js_String_raises (host : Host) (v : jsval) :
  convertible v = false → js_String host v = Throw TypeError.
Proof. intros H. unfold js_String. now rewrite H. Qed.

Lemma riskBadgeLabel_int host (s : Z) :
  label (riskBadgeLabel host (JNum (num s))) = classify_number (num s).
Proof.
  unfold riskBadgeLabel, classify_number; cbn [ToNumber]. rewrite or_zero_num.
  destruct (Num.gt (num s) (num 70)), (Num.gt (num s) (num 30)); reflexivity.
Qed.

Lemma formatRisk_int host (s : Z) :
  formatRisk host (JNum (num s)) = classify_number (num s).
Proof. reflexivity. Qed.

Lemma row_risk_int host rest payload (s : Z) :
  row_risk host (score_record rest payload (JNum (num s))) = Ok (classify_number (num s)).
Proof.
  unfold row_risk, score_record.
  rewrite get_object, prop_insert_eq. cbn [bind].
  rewrite or_else_object, prop_insert_eq.
  rewrite js_Number_convertible by reflexivity. cbn [bind ToNumber].
  rewrite or_zero_num. reflexivity.
Qed.

Lemma dashboard_risk_int rest payload (s : Z) host :
  dashboard_risk host (score_record rest payload (JNum (num s))) = Ok (classify_number (num s)).
Proof.
  unfold dashboard_risk, score_record.
  rewrite get_object, prop_insert_eq. cbn [bind].
  rewrite get_object, prop_insert_eq. cbn [bind].
  unfold or_else, js_ge, classify_number. cbn [truthy]. rewrite truthy_num.
  destruct (Z.eqb_spec s 0) as [->|Hs]; cbn [negb]; [reflexivity|].
  rewrite !js_Number_convertible by reflexivity. cbn [bind ToNumber].
  rewrite !ge_num, !gt_num.
  destruct (Z.leb_spec 71 s), (Z.ltb_spec 70 s); try lia; cbn [bind];
  destruct (Z.leb_spec 31 s), (Z.ltb_spec 30 s); try lia; reflexivity.
Qed.

Lemma passes_risk_filter_bands (s : Z) :
  (passes_risk_filter "high" (num s) = true ↔ 70 < s) ∧
  (passes_risk_filter "medium" (num s) = true ↔ 30 < s ≤ 70) ∧
  (passes_risk_filter "low" (num s) = true ↔ s ≤ 30).
Proof.
  unfold passes_risk_filter; cbn [String.eqb Ascii.eqb Bool.eqb negb andb].
  rewrite !le_num, !gt_num.
  destruct (Z.leb_spec s 70), (Z.leb_spec s 30), (Z.ltb_spec 70 s), (Z.ltb_spec 30 s);
    cbn [orb andb]; repeat split; intros; try discriminate; try lia; try reflexivity.
Qed.

Lemma card_bands (s : Z) :
  (card_high (num s) = true ↔ 70 < s) ∧
  (card_medium (num s) = true ↔ 30 < s ≤ 70) ∧
  (card_low (num s) = true ↔ s ≤ 30).
Proof.
  unfold card_high, card_medium, card_low. rewrite !le_num, !gt_num.
  destruct (Z.leb_spec s 70), (Z.leb_spec s 30), (Z.ltb_spec 70 s), (Z.ltb_spec 30 s);
    cbn [andb]; repeat split; intros; try discriminate; try lia; try reflexivity.
Qed.

(** C1. For every integer fraud score [s], each place that classifies a
    fraud score -- [riskBadgeLabel], the numeric branch of [formatRisk], the
    label computed for a row of the requests list, the label computed for a
    row of the fraud dashboard, the risk filter and the risk cards of the
    alerts page --
    answers High exactly when [s > 70], Medium exactly when [30 < s <= 70]
    and Low exactly when [s <= 30]; 70 is Medium and 30 is Low. *)
Theorem risk_bands_at_every_call_site
    (host : Host) (s : Z) (rest payload : gmap string jsval) :
  in_bands s (label (riskBadgeLabel host (JNum (num s)))) ∧
  in_bands s (formatRisk host (JNum (num s))) ∧
  (∃ level, row_risk host (score_record rest payload (JNum (num s))) = Ok level ∧
            in_bands s level) ∧
  (∃ level, dashboard_risk host (score_record rest payload (JNum (num s))) = Ok level ∧
            in_bands s level) ∧
  ((passes_risk_filter "high" (num s) = true ↔ 70 < s) ∧
   (passes_risk_filter "medium" (num s) = true ↔ 30 < s ≤ 70) ∧
   (passes_risk_filter "low" (num s) = true ↔ s ≤ 30)) ∧
  ((card_high (num s) = true ↔ 70 < s) ∧
   (card_medium (num s) = true ↔ 30 < s ≤ 70) ∧
   (card_low (num s) = true ↔ s ≤ 30)) ∧
  label (riskBadgeLabel host (JNum (num 70))) = "Medium" ∧
  label (riskBadgeLabel host (JNum (num 30))) = "Low" ∧
  formatRisk host (JNum (num 70)) = "Medium" ∧
  formatRisk host (JNum (num 30)) = "Low".
Proof.
  split; [rewrite riskBadgeLabel_int; apply classify_number_bands|].
  split; [rewrite formatRisk_int; apply classify_number_bands|].
  split; [eexists; split; [apply row_risk_int | apply classify_number_bands]|].
  split; [eexists; split; [apply dashboard_risk_int | apply classify_number_bands]|].
  split; [apply passes_risk_filter_bands|].
  split; [apply card_bands|].
  repeat split.
Qed.

(** The dashboard compares with [>= 71] and [>= 31]: this is the same
    test as [> 70] and [> 30] on integer scores only.  A score of 70.5,
    which the integer type of a fraud score excludes, would be Medium
    there and High everywhere else. *)
Remark dashboard_risk_between_integers (host : Host) :
  dashboard_risk host (score_record ∅ ∅ (JNum (Fin (141 # 2)))) = Ok "Medium" ∧
  label (riskBadgeLabel host (JNum (Fin (141 # 2)))) = "High".
Proof. split; reflexivity. Qed.

(** ** Confidence *)

Lemma first_present_not_nullish (vs : list jsval) (v : jsval) :
  first_present vs = Some v → nullish v = false.
Proof.
  induction vs as [|x vs IH]; cbn [first_present]; [discriminate|].
  destruct (nullish x) eqn:E; [exact IH|]. intros [= <-]. exact E.
Qed.

Lemma fraud_score_chain_spec (r : jsval) :
  coalesce (coalesce (prop (spec_payload r) "fraud_score") (prop r "fraud_score"))
           (JNum (num 0)) = spec_fraud_score_value r.
Proof.
  unfold spec_fraud_score_value, coalesce. cbn [first_present].
  destruct (nullish (prop (spec_payload r) "fraud_score")) eqn:E1.
  - destruct (nullish (prop r "fraud_score")) eqn:E2; cbn [default];
      rewrite ?E2; reflexivity.
  - cbn [default]. rewrite E1. reflexivity.
Qed.

Lemma confidence_from_fraud_score_spec (host : Host) (r : jsval) :
  confidence_from_fraud_score host (spec_payload r) r =
  if convertible (spec_fraud_score_value r)
  then Ok (spec_three_tier (spec_fraud_score host r))
  else Throw TypeError.
Proof.
  unfold confidence_from_fraud_score, spec_three_tier, spec_fraud_score, js_Number.
  rewrite fraud_score_chain_spec.
  destruct (convertible (spec_fraud_score_value r)); cbn [bind]; [|reflexivity].
  destruct (Num.gt _ (num 70)); [reflexivity|].
  destruct (Num.gt _ (num 30)); reflexivity.
Qed.

Lemma confidence_chain_spec (r : jsval) :
  let fraud := spec_payload r in
  coalesce (coalesce (coalesce (coalesce (coalesce (coalesce (coalesce
    (prop fraud "confidence") (prop fraud "confidence_score"))
    (prop fraud "risk_score")) (prop fraud "match_score"))
    (prop fraud "similarity")) (prop r "confidence")) (prop r "score")) JNull
  = default JNull (spec_confidence_field r).
Proof.
  intros fraud. unfold spec_confidence_field. fold fraud. cbn [List.map app].
  unfold coalesce. cbn [first_present].
  repeat match goal with
  | |- context [nullish (prop ?o ?k)] =>
      let E := fresh "E" in
      destruct (nullish (prop o k)) eqn:E; cbn [default nullish]; rewrite ?E
  end; reflexivity.
Qed.

(** [Math.min(100, Math.max(0, c))] brings [c] into the interval. *)
Lemma clamp_spec (c : number) :
  Num.min (num 100) (Num.max (num 0) c) = spec_clamp (num 0) (num 100) c.
Proof.
  unfold spec_clamp. destruct c as [| |q|]; try reflexivity.
  unfold Num.max, Num.lt, Num.le, num. cbn [negb].
  destruct (Qle_bool (inject_Z 0) q) eqn:E0; cbn [negb]; [|reflexivity].
  unfold Num.min, Num.le. reflexivity.
Qed.

Lemma half_up_div (a : Z) (b : positive) :
  (2 * a + Zpos b) / (2 * Zpos b) =
  if (2 * (a / Zpos b) + 1) * Zpos b <=? 2 * a then a / Zpos b + 1 else a / Zpos b.
Proof.
  pose proof (Z.div_mod a (Zpos b) ltac:(lia)) as Hdm.
  pose proof (Z.mod_pos_bound a (Zpos b) ltac:(lia)) as Hb.
  set (f := a / Zpos b) in *. set (m := a mod Zpos b) in *.
  destruct (Z.leb_spec ((2 * f + 1) * Zpos b) (2 * a)) as [H|H]; symmetry.
  - apply (Z.div_unique_pos _ _ _ (2 * m - Zpos b)); nia.
  - apply (Z.div_unique_pos _ _ _ (2 * m + Zpos b)); nia.
Qed.

(** [Math.round] answers the nearest integer, a half going up. *)
Lemma round_nearest (c : number) : Num.round c = nearest_integer c.
Proof.
  destruct c as [| |[a b]|]; try reflexivity. unfold Num.round, nearest_integer.
  cbv zeta. unfold Qfloor at 1. unfold Qplus, Qle_bool, inject_Z, Qfloor.
  cbn [Qnum Qden].
  replace (a * 2 + 1 * Zpos b) with (2 * a + Zpos b) by lia.
  replace (Zpos (b * 2)) with (2 * Zpos b) by lia.
  rewrite half_up_div.
  replace ((a / Zpos b * 2 + 1 * 1) * Zpos b) with ((2 * (a / Zpos b) + 1) * Zpos b)
    by lia.
  replace (a * Zpos (1 * 2)) with (2 * a) by lia.
  destruct (_ <=? _); reflexivity.
Qed.

(** On a Fin number the product of the code is the double product. *)
Lemma mul_100_spec (c : number) :
  Num.lt (num 0) c && Num.le c (num 1) = true →
  Num.mul c (num 100) = double_times_100 c.
Proof. destruct c; cbn; try discriminate. reflexivity. Qed.

(** What [extractConfidence] does on every record that is an object, the
    conversions that raise included. *)
Lemma extractConfidence_cases (host : Host) (fields : gmap string jsval) :
  let r := JObj fields in
  let fallback :=
    if convertible (spec_fraud_score_value r)
    then Ok (spec_three_tier (spec_fraud_score host r))
    else Throw TypeError in
  extractConfidence host r =
  match spec_confidence_field r with
  | None => fallback
  | Some v =>
      if is_empty_string v then fallback
      else if negb (convertible v) then Throw TypeError
      else
        match spec_numeric host v with
        | None => fallback
        | Some c =>
            let scaled :=
              if Num.lt (num 0) c && Num.le c (num 1) then double_times_100 c else c in
            let clamped := spec_clamp (num 0) (num 100) scaled in
            if Num.le clamped (num 1) then fallback else Ok (Num.round clamped)
        end
  end.
Proof.
  intros r fallback. unfold extractConfidence. subst r. rewrite get_object. cbn [bind].
  change (or_else (prop (JObj fields) "fraud_result") (JObj ∅))
    with (spec_payload (JObj fields)).
  rewrite (confidence_chain_spec (JObj fields)).
  rewrite confidence_from_fraud_score_spec. fold fallback.
  destruct (spec_confidence_field (JObj fields)) as [v|] eqn:Efound;
    cbn [default from_option id]; [|reflexivity].
  rewrite (first_present_not_nullish _ _ Efound). cbn [orb].
  unfold spec_numeric.
  destruct (is_empty_string v) eqn:Eempty; cbn [bind orb]; [reflexivity|].
  unfold js_Number.
  destruct (convertible v); cbn [bind negb]; [|reflexivity].
  destruct (Num.isNaN (ToNumber host v)); [reflexivity|].
  rewrite clamp_spec. unfold Num.gt.
  destruct (Num.lt (num 0) (ToNumber host v) && Num.le (ToNumber host v) (num 1)) eqn:E;
    [rewrite (mul_100_spec _ E)|]; reflexivity.
Qed.

Lemma extractConfidence_object (host : Host) (fields : gmap string jsval) :
  confidence_converts (JObj fields) →
  extractConfidence host (JObj fields) =
  Ok (amended_normalizeConfidence host (JObj fields)).
Proof.
  intros [Hc Hs]. rewrite extractConfidence_cases. cbv zeta. rewrite Hs.
  unfold amended_normalizeConfidence, normalize_with.
  destruct (spec_confidence_field (JObj fields)) as [v|]; [|reflexivity].
  cbn [default from_option id] in Hc. rewrite Hc. cbn [negb].
  destruct (is_empty_string v) eqn:Ee.
  - unfold spec_numeric. rewrite Ee. reflexivity.
  - destruct (spec_numeric host v); [|reflexivity]. cbv zeta.
    rewrite round_nearest.
    destruct (Num.le _ (num 1)); reflexivity.
Qed.

Lemma to_double_not_NaN (q : Q) : Num.to_double q ≠ NaN.
Proof.
  unfold Num.to_double. destruct (Z.abs (Qnum q) =? 0); [discriminate|].
  cbv zeta. destruct (_ || _); [destruct (Qnum q <? 0)|]; discriminate.
Qed.

Lemma round_between (q : Q) :
  Qle_bool q 1 = false → Qle_bool q 100 = true →
  ∃ z : Z, 1 ≤ z ≤ 100 ∧ Num.round (Fin q) = num z.
Proof.
  intros Hlow Hhigh. exists (Qfloor (q + (1 # 2))). split; [|reflexivity].
  apply Qle_bool_iff in Hhigh.
  assert (Hgt : (1 < q)%Q).
  { apply Qnot_le_lt. intros Hle. apply Qle_bool_iff in Hle. congruence. }
  split.
  - change 1 with (Qfloor (3 # 2)). apply Qfloor_resp_le.
    apply Qlt_le_weak in Hgt.
    apply (Qle_trans _ (1 + (1 # 2))); [discriminate|].
    apply Qplus_le_compat; [exact Hgt | apply Qle_refl].
  - change 100 with (Qfloor (201 # 2)). apply Qfloor_resp_le.
    apply (Qle_trans _ (100 + (1 # 2))); [|discriminate].
    apply Qplus_le_compat; [exact Hhigh | apply Qle_refl].
Qed.

(** A clamped value that is above 1 rounds to an integer from 1 to 100. *)
Lemma round_clamped (c : number) :
  c ≠ NaN → Num.le (spec_clamp (num 0) (num 100) c) (num 1) = false →
  ∃ z : Z, 1 ≤ z ≤ 100 ∧ Num.round (spec_clamp (num 0) (num 100) c) = num z.
Proof.
  intros Hnan. unfold spec_clamp.
  destruct c as [| |q|]; [now destruct Hnan| | |].
  - cbn. discriminate.
  - unfold Num.lt, Num.le, num. cbn [negb].
    destruct (Qle_bool (inject_Z 0) q) eqn:E0; cbn [negb].
    + destruct (Qle_bool (inject_Z 100) q) eqn:E100.
      * intros _. exists 100. split; [lia | reflexivity].
      * intros E1. apply (round_between q E1).
        apply Qle_bool_iff. apply Qlt_le_weak, Qnot_le_lt.
        intros Hle. apply Qle_bool_iff in Hle. unfold inject_Z in E100. congruence.
    + cbn. discriminate.
  - cbn. intros _. exists 100. split; [lia | reflexivity].
Qed.

Lemma three_tier_range (s : number) :
  ∃ z : Z, 1 ≤ z ≤ 100 ∧ spec_three_tier s = num z.
Proof.
  unfold spec_three_tier.
  destruct (Num.gt s (num 70)); [exists 90; split; [lia | reflexivity]|].
  destruct (Num.gt s (num 30)); [exists 75 | exists 60]; split; (lia || reflexivity).
Qed.

(** Whenever [extractConfidence] returns on an object, it returns an
    integer between 1 and 100. *)
Lemma extractConfidence_range (host : Host) (fields : gmap string jsval) (n : number) :
  extractConfidence host (JObj fields) = Ok n → ∃ z : Z, 1 ≤ z ≤ 100 ∧ n = num z.
Proof.
  rewrite extractConfidence_cases. cbv zeta.
  assert (Hfallback :
    (if convertible (spec_fraud_score_value (JObj fields))
     then Ok (spec_three_tier (spec_fraud_score host (JObj fields)))
     else Throw TypeError) = Ok n → ∃ z : Z, 1 ≤ z ≤ 100 ∧ n = num z).
  { destruct (convertible _); [|discriminate]. intros [= <-]. apply three_tier_range. }
  destruct (spec_confidence_field (JObj fields)) as [v|]; [|exact Hfallback].
  destruct (is_empty_string v) eqn:Ee; [exact Hfallback|].
  destruct (convertible v); cbn [negb]; [|discriminate].
  destruct (spec_numeric host v) as [c|] eqn:Ec; [|exact Hfallback].
  set (scaled := if Num.lt (num 0) c && Num.le c (num 1)
                 then double_times_100 c else c).
  destruct (Num.le (spec_clamp _ _ scaled) (num 1)) eqn:Ele; [exact Hfallback|].
  intros [= <-]. apply round_clamped; [|exact Ele].
  unfold spec_numeric in Ec. rewrite Ee in Ec. cbn [orb] in Ec.
  destruct (Num.isNaN (ToNumber host v)) eqn:E; [discriminate|].
  injection Ec as <-. subst scaled.
  destruct (ToNumber host v) as [| |q|]; cbn in *; try discriminate.
  destruct (negb _ && _); [apply to_double_not_NaN | discriminate].
Qed.

(** C2, as first worded, fails: the code multiplies in double arithmetic.
    The record whose confidence is written 0.575 holds the double just
    below it; a hundred times it is 57.49999999999999 and the code
    answers 57, where a hundred times 0.575 rounds to 58.  The double
    written 0.175 lies just below 0.175 and a hundred times it, exactly,
    rounds to 17; the double product is 17.5 and the code answers 18. *)
Lemma extractConfidence_rounds_the_double_product :
  extractConfidence sample_host
    (obj [("confidence", JNum (Num.to_double (575 # 1000)))]) = Ok (num 57) ∧
  spec_normalizeConfidence sample_host
    (obj [("confidence", JNum (Fin (575 # 1000)))]) = num 58 ∧
  extractConfidence sample_host
    (obj [("confidence", JNum (Num.to_double (175 # 1000)))]) = Ok (num 18) ∧
  spec_normalizeConfidence sample_host
    (obj [("confidence", JNum (Num.to_double (175 # 1000)))]) = num 17 ∧
  ¬ (∀ (host : Host) (fields : gmap string jsval),
       confidence_converts (JObj fields) →
       extractConfidence host (JObj fields) =
       Ok (spec_normalizeConfidence host (JObj fields))).
Proof.
  split; [vm_compute; reflexivity|]. split; [vm_compute; reflexivity|].
  split; [vm_compute; reflexivity|]. split; [vm_compute; reflexivity|].
  intros H.
  specialize (H sample_host
                (list_to_map [("confidence", JNum (Num.to_double (175 # 1000)))])).
  assert (Hc : confidence_converts
                 (JObj (list_to_map [("confidence", JNum (Num.to_double (175 # 1000)))])))
    by (split; vm_compute; reflexivity).
  specialize (H Hc). vm_compute in H. discriminate H.
Qed.

(** The amendment touches the multiplication only: for a value found
    outside (0,1], which is not multiplied, the amended normalizer is the
    one of the specification. *)
Remark amended_is_spec_without_scaling (host : Host) (r : jsval) :
  (∀ v c, spec_confidence_field r = Some v → spec_numeric host v = Some c →
          Num.lt (num 0) c && Num.le c (num 1) = false) →
  amended_normalizeConfidence host r = spec_normalizeConfidence host r.
Proof.
  intros H. unfold amended_normalizeConfidence, spec_normalizeConfidence, normalize_with.
  destruct (spec_confidence_field r) as [v|]; [|reflexivity].
  destruct (spec_numeric host v) as [c|] eqn:Ec; [|reflexivity].
  now rewrite (H v c eq_refl Ec).
Qed.

(** C2, amended. On every record that is an object and whose confidence
    value and fraud score convert to numbers, [extractConfidence] answers
    what the specification says with the product taken in double
    arithmetic: the three-tier value of the fraud score (90 above 70, 75
    above 30, else 60) when no alternate field is present or the value
    found is not numeric; otherwise the value found, replaced when it lies
    in (0,1] by the double nearest to a hundred times it, clamped to
    [0,100], and then the three-tier value again if the result is at most
    1, else the result rounded to the nearest integer.  The three examples
    of the specification evaluate to 90, 85 and 90. *)
Theorem extractConfidence_meets_amended_spec
    (host : Host) (fields : gmap string jsval) :
  confidence_converts (JObj fields) →
  extractConfidence host (JObj fields) =
    Ok (amended_normalizeConfidence host (JObj fields)) ∧
  extractConfidence host (obj [("fraud_score", JNum (num 80))]) = Ok (num 90) ∧
  extractConfidence host (obj [("confidence", JNum (Num.to_double (85 # 100)))]) =
    Ok (num 85) ∧
  extractConfidence host
    (obj [("confidence", JNum (Num.to_double (5 # 1000)));
          ("fraud_score", JNum (num 80))]) =
    Ok (num 90).
Proof.
  intros Hc. split; [now apply extractConfidence_object|].
  split; [vm_compute; reflexivity|]. split; vm_compute; reflexivity.
Qed.

Lemma extractConfidence_meets_amended_spec_witness :
  confidence_converts (obj [("confidence", JNum (Num.to_double (575 # 1000)))]) ∧
  extractConfidence sample_host
    (obj [("confidence", JNum (Num.to_double (575 # 1000)))]) =
  Ok (amended_normalizeConfidence sample_host
        (obj [("confidence", JNum (Num.to_double (575 # 1000)))])).
Proof.
  assert (Hc : confidence_converts
                 (obj [("confidence", JNum (Num.to_double (575 # 1000)))]))
    by (split; vm_compute; reflexivity).
  split; [exact Hc|].
  exact (proj1 (extractConfidence_meets_amended_spec sample_host _ Hc)).
Defined.

(** ** Texts: appending, reversing and trimming *)

Lemma append_cons (c : ascii) (a b : string) :
  String c a +:+ b = String c (a +:+ b).
Proof. reflexivity. Qed.

Lemma append_nil_l (b : string) : "" +:+ b = b.
Proof. reflexivity. Qed.

Lemma append_nil_r (a : string) : a +:+ "" = a.
Proof. induction a as [|c a IH]; [reflexivity|]. now rewrite append_cons, IH. Qed.

Lemma append_assoc (a b c : string) : (a +:+ b) +:+ c = a +:+ (b +:+ c).
Proof.
  induction a as [|x a IH]; [reflexivity|]. rewrite !append_cons. now f_equal.
Qed.

Lemma rev_app_snoc (x acc : string) (c : ascii) :
  String.rev_app (x +:+ String c "") acc = String c (String.rev_app x acc).
Proof.
  revert acc. induction x as [|a x IH]; intros acc.
  - rewrite append_nil_l. reflexivity.
  - rewrite append_cons. cbn [String.rev_app]. apply IH.
Qed.

Lemma rev_app_append (a b : string) :
  String.rev_app a b = String.rev_app a "" +:+ b.
Proof.
  revert b. induction a as [|c a IH]; intros b.
  - cbn [String.rev_app]. now rewrite append_nil_l.
  - cbn [String.rev_app]. rewrite (IH (String c b)), (IH (String c "")).
    rewrite append_assoc, append_cons, append_nil_l. reflexivity.
Qed.

Lemma rev_cons (c : ascii) (t : string) :
  String.rev (String c t) = String.rev t +:+ String c "".
Proof. unfold String.rev. cbn [String.rev_app]. apply rev_app_append. Qed.

Lemma rev_snoc (x : string) (c : ascii) :
  String.rev (x +:+ String c "") = String c (String.rev x).
Proof. apply rev_app_snoc. Qed.



Lemma drop_while_snoc (p : ascii → bool) (x : string) (c : ascii) :
  p c = false →
  Str.drop_while p (x +:+ String c "") = Str.drop_while p x +:+ String c "".
Proof.
  intros Hc. induction x as [|a x IH].
  - rewrite append_nil_l. cbn [Str.drop_while]. rewrite Hc. now rewrite append_nil_l.
  - rewrite append_cons. cbn [Str.drop_while]. destruct (p a); [exact IH|].
    now rewrite append_cons.
Qed.

(** ** Reasons *)


Lemma trim_empty : Str.trim "" = "".
Proof. reflexivity. Qed.

Lemma only_spaces_cons (c : ascii) (s : string) :
  only_spaces (String c s) = Str.is_space c && only_spaces s.
Proof. reflexivity. Qed.

Lemma drop_while_spaces (s : string) :
  if only_spaces s then Str.drop_while Str.is_space s = ""
  else ∃ c t, Str.drop_while Str.is_space s = String c t ∧ Str.is_space c = false.
Proof.
  induction s as [|c s IH]; [reflexivity|].
  rewrite only_spaces_cons. cbn [Str.drop_while].
  destruct (Str.is_space c) eqn:Hc; cbn [andb]; [exact IH|]. eauto.
Qed.

Lemma trimEnd_clean_start (c : ascii) (t : string) :
  Str.is_space c = false →
  ∃ t', Str.trimEnd (String c t) = String c t'.
Proof.
  intros Hc. unfold Str.trimEnd. rewrite rev_cons, drop_while_snoc by exact Hc.
  rewrite rev_snoc. eauto.
Qed.

(** A text is blank for the code, that is empty once trimmed, exactly when
    it is made of white space only. *)
Lemma trim_blank (s : string) :
  (0 <? Str.len (Str.trim s)) = negb (only_spaces s).
Proof.
  unfold Str.trim, Str.trimStart. pose proof (drop_while_spaces s) as H.
  destruct (only_spaces s); cbn [negb].
  - rewrite H. reflexivity.
  - destruct H as (c & t & -> & Hc).
    destruct (trimEnd_clean_start c t Hc) as [t' ->].
    unfold Str.len. cbn [String.length]. apply Z.ltb_lt. lia.
Qed.

Lemma nonblank_text_free_text (x : jsval) : nonblank_text x = free_text x.
Proof.
  destruct x; try reflexivity. cbn [nonblank_text free_text].
  rewrite trim_blank. destruct (only_spaces s); reflexivity.
Qed.

Lemma text_fields_spec (r : jsval) :
  omap nonblank_text (text_fields (spec_payload r) r) = spec_texts r.
Proof.
  unfold spec_texts, text_fields. cbn [List.map app omap list_omap].
  rewrite !nonblank_text_free_text. reflexivity.
Qed.



(** The value the chain of [||] over the alternate fields selects is an
    array exactly when the first truthy field is one. *)
Lemma flags_chain_spec (r : jsval) :
  let fraud := spec_payload r in
  array_items
    (or_else (or_else (or_else (or_else (prop fraud "flags") (prop fraud "flag_codes"))
       (prop fraud "reasons")) (prop fraud "reason_codes")) (prop r "flags"))
  = flag_entries r.
Proof.
  intros fraud. unfold flag_entries, alternate_flag_fields. fold fraud.
  unfold or_else. cbn [first_truthy].
  repeat match goal with
  | |- context [truthy (prop ?o ?k)] =>
      let E := fresh "E" in
      destruct (truthy (prop o k)) eqn:E; rewrite ?E
  end; try reflexivity.
  destruct (prop r "flags"); try reflexivity; discriminate.
Qed.

(** The codes of an array of flags, when every one converts to text. *)
Lemma map_result_codes (host : Host) (items : list jsval) :
  map_result (fun f => s <- js_String host f;; Ok (Str.toLowerCase s)) items =
  if forallb convertible items then Ok (List.map (code_of host) items)
  else Throw TypeError.
Proof.
  induction items as [|f items IH]; [reflexivity|].
  cbn [map_result forallb List.map]. unfold js_String at 1.
  destruct (convertible f); cbn [bind andb]; [|reflexivity].
  rewrite IH. destruct (forallb convertible items); reflexivity.
Qed.

Lemma flag_reasons_spec (codes : list string) : flag_reasons codes = sentences_of codes.
Proof.
  unfold flag_reasons, sentences_of. cbn [code_sentences List.filter List.map fst snd].
  destruct (Str.mem "duplicate_submission" codes),
           (Str.mem "name_mismatch" codes),
           (Str.mem "duplicate_aadhaar" codes),
           (Str.mem "duplicate_pan" codes),
           (Str.mem "aadhaar_pan_duplicate" codes); vm_compute; reflexivity.
Qed.


Lemma reason_from_flags_spec (host : Host) (r : jsval) :
  reason_from_flags host (spec_payload r) r =
  if forallb convertible (flag_entries r)
  then Ok (precedence None (sentences_of (amended_flag_codes host r)) (spec_texts r))
  else Throw TypeError.
Proof.
  unfold reason_from_flags. cbv zeta.
  pose proof (flags_chain_spec r) as Hchain. cbv zeta in Hchain.
  set (flagsRaw := or_else _ (prop r "flags")) in *.
  replace (match flagsRaw with
           | JArr items =>
               map_result (fun f => s <- js_String host f;; Ok (Str.toLowerCase s)) items
           | _ => Ok []
           end)
    with (map_result (fun f => s <- js_String host f;; Ok (Str.toLowerCase s))
            (array_items flagsRaw))
    by (destruct flagsRaw; reflexivity).
  rewrite Hchain, map_result_codes.
  destruct (forallb convertible (flag_entries r)); cbn [bind]; [|reflexivity].
  rewrite flag_reasons_spec. fold (amended_flag_codes host r).
  unfold precedence.
  destruct (sentences_of (amended_flag_codes host r)) as [|s1 ss];
    cbn [length Z.of_nat Z.ltb Z.compare]; [|reflexivity].
  rewrite text_fields_spec.
  destruct (spec_texts r); cbn [length Z.of_nat Z.eqb negb]; reflexivity.
Qed.

Lemma get_present (r : jsval) (k : string) :
  nullish r = false → get r k = Ok (prop r k).
Proof. intros H. unfold get. now rewrite H. Qed.

(** What [buildRiskReason] does on every value, the cases in which it
    raises included. *)
Lemma buildRiskReason_cases (host : Host) (r : jsval) :
  buildRiskReason host r =
  if nullish r then Throw TypeError
  else
    let flags_text := prop (spec_payload r) "flags_text" in
    if truthy flags_text && negb (is_string flags_text) then Throw TypeError
    else
      match spec_flags_text r with
      | Some t => Ok t
      | None =>
          if forallb convertible (flag_entries r)
          then Ok (amended_reason host r)
          else Throw TypeError
      end.
Proof.
  unfold buildRiskReason, get. destruct (nullish r) eqn:Hr; cbn [bind]; [reflexivity|].
  change (or_else (prop r "fraud_result") (JObj ∅)) with (spec_payload r).
  rewrite reason_from_flags_spec. cbv zeta.
  unfold amended_reason, spec_flags_text.
  destruct (prop (spec_payload r) "flags_text") as [| |b|n|s|items|fs];
    cbn [truthy is_string negb andb call_trim bind]; try reflexivity.
  - destruct b; reflexivity.
  - destruct (Num.truthy n); reflexivity.
  - rewrite andb_false_r.
    destruct (String.eqb_spec s "") as [->|Hs]; cbn [negb]; [reflexivity|].
    destruct (String.eqb (Str.trim s) ""); cbn [negb]; [reflexivity|].
    fold risk_labels. destruct (Str.mem _ risk_labels); reflexivity.
Qed.





(** The three examples of the specification, on any host. *)
Example reason_flags_text_verbatim (host : Host) :
  buildRiskReason host
    (obj [("fraud_result", obj [("flags_text", JStr "Suspicious velocity")])]) =
  Ok "Suspicious velocity".
Proof. reflexivity. Qed.

Example reason_risk_label_skipped (host : Host) :
  buildRiskReason host
    (obj [("fraud_result",
           obj [("flags_text", JStr "high"); ("flags", JArr [JStr "duplicate_pan"])])]) =
  Ok "Duplicate PAN detected".
Proof. reflexivity. Qed.

Example reason_default (host : Host) :
  buildRiskReason host (obj []) = Ok "No anomalies detected for this KYC submission".
Proof. reflexivity. Qed.

Example reason_repeated_and_unknown_codes (host : Host) :
  buildRiskReason host
    (obj [("flags", JArr [JStr "duplicate_pan"; JStr "velocity"; JStr "name_mismatch";
                           JStr "DUPLICATE_PAN"])]) =
  Ok "Name on document does not closely match user input, Duplicate PAN detected".
Proof. reflexivity. Qed.

(** ** Masks *)

Lemma slice_prefix (s : string) (k : Z) :
  0 ≤ k ≤ Str.len s → Str.slice s 0 (Some k) = first_chars (Z.to_nat k) s.
Proof.
  intros Hk. unfold Str.slice, Str.clamp_index, first_chars.
  change (0 <? 0) with false. cbn iota.
  destruct (Z.ltb_spec k 0); [lia|].
  rewrite Z.min_l by lia. rewrite Z.min_l by lia.
  f_equal. lia.
Qed.

Lemma slice_suffix (s : string) (k : Z) :
  0 < k ≤ Str.len s → Str.slice s (- k) None = last_chars (Z.to_nat k) s.
Proof.
  intros Hk. unfold Str.slice, Str.clamp_index, last_chars.
  destruct (Z.ltb_spec (- k) 0); [|lia].
  rewrite Z.max_l by lia. unfold Str.len in *.
  f_equal; lia.
Qed.

Lemma slice_from (s : string) (k : Z) :
  0 ≤ k ≤ Str.len s →
  Str.slice s (Str.len s - k) None = last_chars (Z.to_nat k) s.
Proof.
  intros Hk. unfold Str.slice, Str.clamp_index, last_chars.
  destruct (Z.ltb_spec (Str.len s - k) 0); [lia|].
  rewrite Z.min_l by lia. unfold Str.len in *.
  f_equal; lia.
Qed.

Lemma len_lt_nat (s : string) (k : nat) :
  (Str.len s <? Z.of_nat k) = (String.length s <? k)%nat.
Proof.
  unfold Str.len.
  destruct (Z.ltb_spec (Z.of_nat (String.length s)) (Z.of_nat k)),
           (Nat.ltb_spec (String.length s) k); try reflexivity; lia.
Qed.

Lemma len_eq_nat (s : string) (k : nat) :
  (Str.len s =? Z.of_nat k) = (String.length s =? k)%nat.
Proof.
  unfold Str.len.
  destruct (Z.eqb_spec (Z.of_nat (String.length s)) (Z.of_nat k)),
           (Nat.eqb_spec (String.length s) k); try reflexivity; lia.
Qed.

Lemma maskAadhaar_present (host : Host) (n : jsval) :
  truthy n = true → maskAadhaar host n = spec_maskNational host n.
Proof.
  intros Hn. unfold maskAadhaar, spec_maskNational. rewrite Hn. cbn [negb].
  fold (digits_of (ToString host n)).
  set (d := digits_of (ToString host n)).
  replace (Str.len d <? 8) with (String.length d <? 8)%nat
    by (symmetry; apply (len_lt_nat d 8)).
  destruct (Nat.ltb_spec (String.length d) 8) as [|Hlen]; [reflexivity|].
  change (-4) with (Z.opp 4).
  rewrite (slice_prefix d 4), (slice_suffix d 4) by (unfold Str.len; lia).
  reflexivity.
Qed.

Lemma maskPan_present (host : Host) (p : jsval) :
  truthy p = true → maskPan host p = spec_maskTax host p.
Proof.
  intros Hp. unfold maskPan, spec_maskTax. rewrite Hp. cbn [negb].
  fold (without_spaces (ToString host p)).
  set (s := without_spaces (ToString host p)).
  replace (Str.len s =? 10) with (String.length s =? 10)%nat
    by (symmetry; apply (len_eq_nat s 10)).
  destruct (Nat.eqb_spec (String.length s) 10) as [Hlen|]; [|reflexivity].
  cbn [negb].
  change (-2) with (Z.opp 2).
  rewrite (slice_prefix s 5), (slice_suffix s 2) by (unfold Str.len; lia).
  reflexivity.
Qed.

(** C4, as first worded, fails on the empty identifier: it has fewer than
    8 digits (and not 10 characters), yet the maskers answer the placeholder
    and not the input. *)
Lemma maskers_not_spec_on_empty_input :
  ¬ (∀ (host : Host) (n : jsval),
       maskAadhaar host n = spec_maskNational host n ∧
       maskPan host n = spec_maskTax host n).
Proof.
  intros H. destruct (H sample_host (JStr "")) as [H1 _].
  vm_compute in H1. discriminate H1.
Qed.

(** C4, amended. On an empty or missing identifier both maskers answer the
    placeholder "-".  On any other input the national-ID masker strips the
    non-digits and answers the input unmodified if fewer than 8 digits
    remain, else the first four digits, "-XXXX-" and the last four; the
    tax-ID masker strips the white space and answers the input unmodified
    unless exactly 10 characters remain, else the first five, "-XX" and the
    last two.  The four examples of the specification hold. *)
Theorem maskers_meet_spec (host : Host) (n : jsval) :
  maskAadhaar host n = (if truthy n then spec_maskNational host n else JStr "-") ∧
  maskPan host n = (if truthy n then spec_maskTax host n else JStr "-") ∧
  maskAadhaar host (JStr "123456789012") = JStr "1234-XXXX-9012" ∧
  maskAadhaar host (JStr "1234567") = JStr "1234567" ∧
  maskPan host (JStr "ABCDE1234F") = JStr "ABCDE-XX4F" ∧
  maskPan host (JStr "ABC123") = JStr "ABC123".
Proof.
  split; [|split; [|repeat split]].
  - destruct (truthy n) eqn:Hn; [now apply maskAadhaar_present|].
    unfold maskAadhaar. now rewrite Hn.
  - destruct (truthy n) eqn:Hn; [now apply maskPan_present|].
    unfold maskPan. now rewrite Hn.
Qed.

Lemma substring_ext (a b : string) (n m : nat) :
  (∀ p : nat, (p < m)%nat → String.get (p + n) a = String.get (p + n) b) →
  String.substring n m a = String.substring n m b.
Proof.
  intros H. apply String.get_correct. intros p.
  destruct (Nat.lt_ge_cases p m) as [Hp|Hp].
  - rewrite !String.substring_correct1 by exact Hp. now apply H.
  - rewrite !String.substring_correct2 by exact Hp. reflexivity.
Qed.

Lemma get_beyond (s : string) (i : nat) :
  (String.length s ≤ i)%nat → String.get i s = None.
Proof.
  revert i. induction s as [|c s IH]; intros i Hi; [now destruct i|].
  destruct i as [|i]; cbn in *; [lia|]. apply IH. lia.
Qed.

Lemma visible_equal_all (front back : nat) (a b : string) :
  (String.length a ≤ front + back)%nat → visible_equal front back a b → a = b.
Proof.
  intros Hlen [Hl Hv]. apply String.get_correct. intros i.
  destruct (Nat.lt_ge_cases i (String.length a)) as [Hi|Hi].
  - apply Hv. lia.
  - rewrite !get_beyond by lia. reflexivity.
Qed.

Lemma slice_prefix_visible (front back : nat) (a b : string) (k : Z) :
  visible_equal front back a b → 0 ≤ k ≤ Z.of_nat front →
  Str.slice a 0 (Some k) = Str.slice b 0 (Some k).
Proof.
  intros [Hl Hv] Hk. unfold Str.slice, Str.len. rewrite <- Hl.
  apply substring_ext. intros p Hp. apply Hv. left.
  revert Hp. unfold Str.clamp_index. change (0 <? 0) with false. cbn iota.
  destruct (Z.ltb_spec k 0); lia.
Qed.

Lemma slice_suffix_visible (front back : nat) (a b : string) (k : Z) :
  visible_equal front back a b → 0 < k ≤ Z.of_nat back →
  Str.slice a (- k) None = Str.slice b (- k) None.
Proof.
  intros [Hl Hv] Hk. unfold Str.slice, Str.len. rewrite <- Hl.
  apply substring_ext. intros p Hp. apply Hv. right.
  unfold Str.clamp_index. destruct (Z.ltb_spec (- k) 0); lia.
Qed.

Lemma slice_from_visible (front back : nat) (a b : string) :
  visible_equal front back a b →
  (back ≤ String.length a)%nat →
  Str.slice a (Str.len a - Z.of_nat back) None =
  Str.slice b (Str.len a - Z.of_nat back) None.
Proof.
  intros [Hl Hv] Hb. unfold Str.slice, Str.len. rewrite <- Hl.
  apply substring_ext. intros p Hp. apply Hv. right.
  unfold Str.clamp_index.
  destruct (Z.ltb_spec (Z.of_nat (String.length a) - Z.of_nat back) 0); lia.
Qed.

(** C5, as first worded, fails: an identifier of 11 characters goes through
    the tax-ID masker unmodified, so two identifiers that differ only
    between the visible prefix of five and the visible suffix of two get
    different outputs. *)
Lemma maskPan_exposes_other_lengths :
  visible_equal 5 2 "ABCDE1234FG" "ABCDE9999FG" ∧
  maskPan sample_host (JStr "ABCDE1234FG") = JStr "ABCDE1234FG" ∧
  maskPan sample_host (JStr "ABCDE9999FG") = JStr "ABCDE9999FG" ∧
  ¬ (∀ a b : string,
       visible_equal 5 2 a b →
       maskPan sample_host (JStr a) = maskPan sample_host (JStr b)).
Proof.
  assert (Hv : visible_equal 5 2 "ABCDE1234FG" "ABCDE9999FG").
  { split; [reflexivity|]. intros i Hi.
    do 5 (destruct i as [|i]; [reflexivity|]).
    do 4 (destruct i as [|i]; [cbn in Hi; lia|]).
    do 2 (destruct i as [|i]; [reflexivity|]). reflexivity. }
  split; [exact Hv|]. split; [reflexivity|]. split; [reflexivity|].
  intros H. specialize (H _ _ Hv). vm_compute in H. discriminate H.
Qed.

(** C5, amended. Wherever a masker masks -- [maskAadhaar] on 8 digits or
    more, [maskPan] on exactly 10 characters, [maskNumber],
    [maskAadhaarUI] and [maskPanUI] on every identifier -- the output is
    the same for two identifiers that agree in length and at every
    position of the visible prefix and suffix: no character between them
    reaches the output.  [maskAadhaar] on fewer than 8 digits and [maskPan]
    on another length than 10 answer the input unmodified. *)
Theorem masked_output_hides_the_middle (host : Host) (a b : jsval) :
  truthy a = true → truthy b = true →
  ((8 ≤ String.length (digits_of (ToString host a)))%nat →
   visible_equal 4 4 (digits_of (ToString host a)) (digits_of (ToString host b)) →
   maskAadhaar host a = maskAadhaar host b) ∧
  (String.length (without_spaces (ToString host a)) = 10%nat →
   visible_equal 5 2 (without_spaces (ToString host a)) (without_spaces (ToString host b)) →
   maskPan host a = maskPan host b) ∧
  (∀ front back : nat,
     visible_equal front back
       (without_spaces (ToString host a)) (without_spaces (ToString host b)) →
     maskNumber host a (Z.of_nat front) (Z.of_nat back) =
     maskNumber host b (Z.of_nat front) (Z.of_nat back)) ∧
  (visible_equal 4 4 (ToString host a) (ToString host b) →
   maskAadhaarUI host a = maskAadhaarUI host b) ∧
  (visible_equal 5 2 (ToString host a) (ToString host b) →
   maskPanUI host a = maskPanUI host b) ∧
  ((String.length (digits_of (ToString host a)) < 8)%nat → maskAadhaar host a = a) ∧
  (String.length (without_spaces (ToString host a)) ≠ 10%nat → maskPan host a = a).
Proof.
  intros Ha Hb.
  split; [|split; [|split; [|split; [|split; [|split]]]]].
  - intros Hlen Hv. unfold maskAadhaar. rewrite Ha, Hb. cbn [negb].
    fold (digits_of (ToString host a)) (digits_of (ToString host b)).
    destruct Hv as [Hl Hv].
    unfold Str.len. rewrite <- Hl.
    destruct (Z.ltb_spec (Z.of_nat (String.length (digits_of (ToString host a)))) 8);
      [lia|].
    change (-4) with (Z.opp 4).
    rewrite (slice_prefix_visible 4 4 _ _ 4 (conj Hl Hv)) by lia.
    rewrite (slice_suffix_visible 4 4 _ _ 4 (conj Hl Hv)) by lia.
    reflexivity.
  - intros Hlen Hv. unfold maskPan. rewrite Ha, Hb. cbn [negb].
    fold (without_spaces (ToString host a)) (without_spaces (ToString host b)).
    destruct Hv as [Hl Hv].
    unfold Str.len. rewrite <- Hl, Hlen. cbn [Z.of_nat Z.eqb negb].
    change (-2) with (Z.opp 2).
    rewrite (slice_prefix_visible 5 2 _ _ 5 (conj Hl Hv)) by lia.
    rewrite (slice_suffix_visible 5 2 _ _ 2 (conj Hl Hv)) by lia.
    reflexivity.
  - intros front back Hv. unfold maskNumber.
    replace (match a with JUndefined => JStr "" | _ => a end) with a
      by (destruct a; try reflexivity; discriminate).
    replace (match b with JUndefined => JStr "" | _ => b end) with b
      by (destruct b; try reflexivity; discriminate).
    rewrite Ha, Hb. cbn [negb].
    fold (without_spaces (ToString host a)) (without_spaces (ToString host b)).
    set (sa := without_spaces (ToString host a)) in *.
    set (sb := without_spaces (ToString host b)) in *.
    assert (Hl : Str.len sb = Str.len sa) by (unfold Str.len; now rewrite (proj1 Hv)).
    rewrite Hl.
    destruct (Z.leb_spec (Str.len sa) (Z.of_nat front + Z.of_nat back)) as [Hs|Hs].
    + apply (visible_equal_all front back); [unfold Str.len in Hs; lia | exact Hv].
    + rewrite (slice_prefix_visible front back sa sb (Z.of_nat front) Hv) by lia.
      rewrite (slice_from_visible front back sa sb Hv) by (unfold Str.len in Hs; lia).
      reflexivity.
  - intros Hv. unfold maskAadhaarUI. rewrite Ha, Hb. cbn [negb].
    change (-4) with (Z.opp 4).
    rewrite (slice_prefix_visible 4 4 _ _ 4 Hv) by lia.
    rewrite (slice_suffix_visible 4 4 _ _ 4 Hv) by lia.
    reflexivity.
  - intros Hv. unfold maskPanUI. rewrite Ha, Hb. cbn [negb].
    change (-2) with (Z.opp 2).
    rewrite (slice_prefix_visible 5 2 _ _ 5 Hv) by lia.
    rewrite (slice_suffix_visible 5 2 _ _ 2 Hv) by lia.
    reflexivity.
  - intros Hlen. rewrite maskAadhaar_present by exact Ha.
    unfold spec_maskNational.
    destruct (Nat.ltb_spec (String.length (digits_of (ToString host a))) 8);
      [reflexivity | lia].
  - intros Hlen. rewrite maskPan_present by exact Ha.
    unfold spec_maskTax.
    destruct (Nat.eqb_spec (String.length (without_spaces (ToString host a))) 10);
      [contradiction | reflexivity].
Qed.

Lemma masked_output_hides_the_middle_witness :
  truthy (JStr "123456789012") = true ∧
  truthy (JStr "123400009012") = true ∧
  maskAadhaar sample_host (JStr "123456789012") =
  maskAadhaar sample_host (JStr "123400009012").
Proof.
  split; [reflexivity|]. split; [reflexivity|].
  apply (masked_output_hides_the_middle sample_host
           (JStr "123456789012") (JStr "123400009012")).
  - reflexivity.
  - reflexivity.
  - vm_compute. lia.
  - split; [reflexivity|]. intros i Hi. vm_compute in Hi.
    do 4 (destruct i as [|i]; [reflexivity|]).
    do 4 (destruct i as [|i]; [lia|]).
    do 4 (destruct i as [|i]; [reflexivity|]). reflexivity.
Defined.

(** ** Timestamps *)

Lemma number_to_string_num (host : Host) (z : Z) :
  Z.abs z < 10 ^ 21 → number_to_string host (num z) = pretty z.
Proof.
  intros Hz. unfold number_to_string, num, Num.is_int, Num.to_Z, inject_Z.
  cbn [Qnum Qden]. rewrite Z.mod_1_r, Z.div_1_r. cbn [Z.eqb andb].
  destruct (Z.ltb_spec (Z.abs z) (10 ^ 21)); [reflexivity | lia].
Qed.

Lemma small_nat (z bound : Z) :
  0 ≤ z < bound → ∃ n : nat, z = Z.of_nat n ∧ (n < Z.to_nat bound)%nat.
Proof. intros Hz. exists (Z.to_nat z). lia. Qed.

Lemma padStart_two_digits (z : Z) :
  0 ≤ z ≤ 99 → Str.padStart 2 "0" (pretty z) = two_digits z.
Proof.
  intros Hz. destruct (small_nat z 100) as (n & -> & Hn); [lia|].
  assert (Hall : forallb (fun n => String.eqb (Str.padStart 2 "0" (pretty (Z.of_nat n)))
                                              (two_digits (Z.of_nat n)))
                         (seq 0 100) = true) by (vm_compute; reflexivity).
  rewrite forallb_forall in Hall.
  apply String.eqb_eq, Hall, in_seq. cbn in Hn. lia.
Qed.

Lemma pretty_four_digits (z : Z) :
  1000 ≤ z ≤ 9999 → pretty z = four_digits z.
Proof.
  intros Hz. destruct (small_nat z 10000) as (n & -> & Hn); [lia|].
  assert (Hall : forallb (fun n => String.eqb (pretty (Z.of_nat n)) (four_digits (Z.of_nat n)))
                         (seq (Z.to_nat 1000) (Z.to_nat 9000)) = true)
    by (vm_compute; reflexivity).
  rewrite forallb_forall in Hall.
  apply String.eqb_eq, Hall, in_seq. lia.
Qed.

Lemma pad2_num (host : Host) (z : Z) :
  0 ≤ z ≤ 99 → pad2 host (num z) = two_digits z.
Proof.
  intros Hz. unfold pad2. rewrite number_to_string_num by lia.
  now apply padStart_two_digits.
Qed.

Lemma add_num (a b : Z) : Num.add (num a) (num b) = Fin ((a * 1 + b * 1) # 1).
Proof. reflexivity. Qed.

Lemma pad2_month (host : Host) (m : Z) :
  0 ≤ m ≤ 11 → pad2 host (Num.add (num m) (num 1)) = two_digits (m + 1).
Proof.
  intros Hm. destruct (small_nat m 12) as (n & -> & Hn); [lia|].
  cbn in Hn. do 12 (destruct n as [|n]; [vm_compute; reflexivity|]). lia.
Qed.

Lemma pad2_hours (host : Host) (h : Z) :
  0 ≤ h ≤ 23 →
  pad2 host (let m := Num.rem (num h) (num 12) in if Num.truthy m then m else num 12) =
  two_digits (hour12 h).
Proof.
  intros Hh. destruct (small_nat h 24) as (n & -> & Hn); [lia|].
  cbn in Hn. do 24 (destruct n as [|n]; [vm_compute; reflexivity|]). lia.
Qed.

Lemma meridiem_hours (h : Z) :
  (if Num.ge (num h) (num 12) then "PM" else "AM") = meridiem h.
Proof.
  rewrite ge_num. unfold meridiem.
  destruct (Z.leb_spec 12 h), (Z.ltb_spec h 12); try reflexivity; lia.
Qed.

Lemma render_date_valid (host : Host) (t : LocalTime) :
  valid_time t →
  render_date host (Some t) = spec_timestamp (pretty (lt_year t)) t.
Proof.
  intros (Hy & Hm & Hd & Hh & Hmin & Hs).
  unfold render_date, spec_timestamp.
  cbn [getDate getMonth getFullYear getHours getMinutes getSeconds].
  cbv zeta.
  rewrite (pad2_num host (lt_date t)) by lia.
  rewrite (pad2_month host (lt_month t)) by lia.
  rewrite (pad2_num host (lt_minutes t)) by lia.
  rewrite (pad2_num host (lt_seconds t)) by lia.
  rewrite (number_to_string_num host (lt_year t)) by lia.
  rewrite meridiem_hours.
  pose proof (pad2_hours host (lt_hours t) Hh) as Hhours. cbv zeta in Hhours.
  rewrite Hhours. reflexivity.
Qed.

Lemma spec_timestamp_length (t : LocalTime) :
  String.length (spec_timestamp (four_digits (lt_year t)) t) = 22%nat.
Proof.
  unfold spec_timestamp, four_digits, two_digits, meridiem.
  destruct (lt_hours t <? 12); reflexivity.
Qed.

(** C6, as first worded, fails on inputs that do parse.  The year is
    written as the number it is and never padded: a date of the year 999
    is rendered with three digits, 21 characters in all, not as
    DD/MM/YYYY.  And an input that is falsy is never parsed: the number 0,
    which denotes the first instant of 1970, is rendered as the em-dash. *)
Lemma timestamp_year_is_not_padded :
  new_Date early_host (JStr "0999-03-04T00:06:07") =
    Some {| lt_year := 999; lt_month := 2; lt_date := 4;
            lt_hours := 0; lt_minutes := 6; lt_seconds := 7 |} ∧
  formatExact early_host (JStr "0999-03-04T00:06:07") = JStr "04/03/999 12:06:07 AM" ∧
  formatDate early_host (JStr "0999-03-04T00:06:07") = JStr "04/03/999 12:06:07 AM" ∧
  spec_timestamp (four_digits 999)
    {| lt_year := 999; lt_month := 2; lt_date := 4;
       lt_hours := 0; lt_minutes := 6; lt_seconds := 7 |} = "04/03/0999 12:06:07 AM" ∧
  new_Date early_host (JNum (num 0)) =
    Some {| lt_year := 1970; lt_month := 0; lt_date := 1;
            lt_hours := 0; lt_minutes := 0; lt_seconds := 0 |} ∧
  formatExact early_host (JNum (num 0)) = JStr EM_DASH ∧
  formatDate early_host (JNum (num 0)) = JStr EM_DASH ∧
  ¬ (∀ (host : Host) (ts : jsval) (t : LocalTime),
       new_Date host ts = Some t → valid_time t →
       formatExact host ts = JStr (spec_timestamp (four_digits (lt_year t)) t)).
Proof.
  repeat (split; [vm_compute; reflexivity|]).
  intros H.
  specialize (H early_host (JStr "0999-03-04T00:06:07")
                {| lt_year := 999; lt_month := 2; lt_date := 4;
                   lt_hours := 0; lt_minutes := 6; lt_seconds := 7 |} eq_refl).
  assert (Hvalid : valid_time
            {| lt_year := 999; lt_month := 2; lt_date := 4;
               lt_hours := 0; lt_minutes := 6; lt_seconds := 7 |})
    by (unfold valid_time; cbn; lia).
  specialize (H Hvalid). vm_compute in H. discriminate H.
Qed.

(** C6, amended. A timestamp that is present (not falsy) and parses to
    the local time [t] is rendered by [formatExact] and by [formatDate] as
    DD/MM/year hh:mm:ss AM|PM: day, month, hour, minutes and seconds on
    two digits with a leading zero, the hour on the 12-hour clock with 0
    shown as 12, the year written in full without padding (four digits
    from 1000 to 9999, the text then being 22 characters long).  The local
    time 2025-12-09 17:33:21 is rendered "09/12/2025 05:33:21 PM". *)
Theorem timestamp_fixed_format (host : Host) (ts : jsval) (t : LocalTime) :
  truthy ts = true → new_Date host ts = Some t → valid_time t →
  formatExact host ts = JStr (spec_timestamp (pretty (lt_year t)) t) ∧
  formatDate host ts = JStr (spec_timestamp (pretty (lt_year t)) t) ∧
  (1000 ≤ lt_year t ≤ 9999 →
   pretty (lt_year t) = four_digits (lt_year t) ∧
   String.length (spec_timestamp (four_digits (lt_year t)) t) = 22%nat) ∧
  (lt_hours t = 0 → hour12 (lt_hours t) = 12) ∧
  (t = {| lt_year := 2025; lt_month := 11; lt_date := 9;
          lt_hours := 17; lt_minutes := 33; lt_seconds := 21 |} →
   formatExact host ts = JStr "09/12/2025 05:33:21 PM" ∧
   formatDate host ts = JStr "09/12/2025 05:33:21 PM").
Proof.
  intros Hts Hparse Hvalid.
  assert (Hexact : formatExact host ts = JStr (spec_timestamp (pretty (lt_year t)) t)).
  { unfold formatExact. rewrite Hts, Hparse. cbn [negb].
    now rewrite render_date_valid. }
  assert (Hdate : formatDate host ts = JStr (spec_timestamp (pretty (lt_year t)) t)).
  { unfold formatDate. rewrite Hts, Hparse. cbn [negb].
    now rewrite render_date_valid. }
  split; [exact Hexact|]. split; [exact Hdate|]. split; [|split].
  - intros Hy. split; [now apply pretty_four_digits | apply spec_timestamp_length].
  - intros ->. reflexivity.
  - intros ->. rewrite Hexact, Hdate. split; reflexivity.
Qed.

Lemma timestamp_fixed_format_witness :
  truthy (JStr "2025-12-09T17:33:21") = true ∧
  formatExact sample_host (JStr "2025-12-09T17:33:21") = JStr "09/12/2025 05:33:21 PM" ∧
  formatDate sample_host (JStr "2025-12-09T17:33:21") = JStr "09/12/2025 05:33:21 PM".
Proof.
  split; [reflexivity|].
  destruct (timestamp_fixed_format sample_host (JStr "2025-12-09T17:33:21")
              {| lt_year := 2025; lt_month := 11; lt_date := 9;
                 lt_hours := 17; lt_minutes := 33; lt_seconds := 21 |})
    as (_ & _ & _ & _ & Hexample).
  - reflexivity.
  - reflexivity.
  - unfold valid_time; cbn; lia.
  - exact (Hexample eq_refl).
Defined.

(** C7, as first worded, fails: on text that does not parse, [formatExact]
    answers the text itself. *)
Lemma formatExact_echoes_unparseable_text :
  truthy (JStr "not-a-date") = true ∧
  new_Date sample_host (JStr "not-a-date") = None ∧
  formatExact sample_host (JStr "not-a-date") = JStr "not-a-date" ∧
  ¬ (∀ (host : Host) (ts : jsval),
       truthy ts = true → new_Date host ts = None →
       formatExact host ts = JStr EM_DASH).
Proof.
  split; [reflexivity|]. split; [reflexivity|]. split; [reflexivity|].
  intros H.
  specialize (H sample_host (JStr "not-a-date") eq_refl eq_refl).
  vm_compute in H. discriminate H.
Qed.

(** C7, amended. A missing timestamp ([null], [undefined], the empty
    string, any falsy value) is rendered as the em-dash by both
    formatters; a timestamp that is present but does not parse is answered
    unchanged by [formatExact]. *)
Theorem timestamp_missing_or_unparseable (host : Host) (ts : jsval) :
  (truthy ts = false →
   formatExact host ts = JStr EM_DASH ∧ formatDate host ts = JStr EM_DASH) ∧
  (truthy ts = true → new_Date host ts = None → formatExact host ts = ts) ∧
  formatExact host JNull = JStr EM_DASH ∧
  formatExact host JUndefined = JStr EM_DASH ∧
  formatExact host (JStr "") = JStr EM_DASH ∧
  formatDate host JNull = JStr EM_DASH ∧
  formatDate host JUndefined = JStr EM_DASH ∧
  formatDate host (JStr "") = JStr EM_DASH.
Proof.
  split; [|split; [|repeat split]].
  - intros Hts. unfold formatExact, formatDate. rewrite Hts. split; reflexivity.
  - intros Hts Hparse. unfold formatExact. rewrite Hts, Hparse. reflexivity.
Qed.

(** What [formatDate] answers on text that does not parse: the getters of
    an Invalid Date return NaN and nothing raises, so the [catch] branch
    that would answer the input is never taken. *)
Remark formatDate_on_unparseable_text (host : Host) (ts : jsval) :
  truthy ts = true → new_Date host ts = None →
  formatDate host ts = JStr "NaN/NaN/NaN 12:NaN:NaN AM".
Proof.
  intros Hts Hparse. unfold formatDate. rewrite Hts, Hparse. reflexivity.
Qed.

(** ** The aggregate fallback *)

Lemma fallback_score_record (host : Host) rest payload (z : Z) :
  fallback_score host (score_record rest payload (JNum (num z))) = num z.
Proof.
  unfold fallback_score, score_record, get_opt. cbn [nullish].
  rewrite prop_insert_eq. cbn [nullish]. rewrite prop_insert_eq.
  unfold or_else. cbn [truthy ToNumber].
  rewrite truthy_num. destruct (Z.eqb_spec z 0); subst; reflexivity.
Qed.

Lemma count_if_cons (p : Z → bool) (z : Z) (zs : list Z) :
  count_if p (z :: zs) = (if p z then 1 else 0) + count_if p zs.
Proof.
  unfold count_if. cbn [List.filter]. destruct (p z); cbn [length]; lia.
Qed.

Lemma fold_count_record (host : Host) (records : list jsval) (zs : list Z) :
  scores_are host records zs →
  ∀ b v,
    fold_left (count_record host) records (b, v) =
    ({| Low := Low b + count_if (fun z => z <=? 30) zs;
        Medium := Medium b + count_if (fun z => (30 <? z) && (z <=? 70)) zs;
        High := High b + count_if (fun z => 70 <? z) zs |},
     {| verified := verified v + count_if (fun z => z <=? 30) zs;
        unverified := unverified v + count_if (fun z => 30 <? z) zs |}).
Proof.
  induction 1 as [|r z records zs Hr _ IH]; intros b v.
  - cbn [fold_left]. unfold count_if; cbn. rewrite !Z.add_0_r.
    destruct b, v; reflexivity.
  - cbn [fold_left]. unfold count_record at 2. rewrite Hr, !gt_num.
    rewrite !count_if_cons.
    destruct (Z.ltb_spec 70 z), (Z.ltb_spec 30 z), (Z.leb_spec z 30), (Z.leb_spec z 70);
      try lia; rewrite IH; cbn [Low Medium High verified unverified andb];
      f_equal; f_equal; lia.
Qed.

Lemma fold_sum_scores (host : Host) (records : list jsval) (zs : list Z) :
  scores_are host records zs →
  ∀ a : Z,
    fold_left (fun acc r => Num.add acc (fallback_score host r)) records (num a) =
    num (a + sum_Z zs).
Proof.
  induction 1 as [|r z records zs Hr _ IH]; intros a.
  - cbn. now rewrite Z.add_0_r.
  - cbn [fold_left sum_Z fold_right]. rewrite Hr.
    replace (Num.add (num a) (num z)) with (num (a + z)).
    + rewrite IH. f_equal. unfold sum_Z. lia.
    + unfold Num.add, num, inject_Z, Qplus. cbn [Qnum Qden]. f_equal. f_equal. lia.
Qed.

Lemma round_div_num (s n : Z) :
  0 < n → Num.round (Num.div (num s) (num n)) = num ((2 * s + n) / (2 * n)).
Proof.
  intros Hn. unfold Num.div, num.
  destruct (Qeq_bool (inject_Z n) 0) eqn:E.
  { apply Qeq_bool_eq in E. unfold Qeq, inject_Z in E. cbn in E. lia. }
  unfold Num.round, num. f_equal. f_equal.
  destruct n as [|p|p]; try lia.
  unfold Qfloor, Qdiv, Qinv, Qmult, Qplus, inject_Z. cbn [Qnum Qden].
  rewrite Pos.mul_1_l.
  replace (s * 1 * 2 + 1 * Z.pos p) with (2 * s + Z.pos p) by lia.
  replace (Z.pos (p * 2)) with (2 * Z.pos p) by lia.
  reflexivity.
Qed.

Lemma spec_mean_nearest (zs : list Z) :
  zs ≠ [] →
  let n := Z.of_nat (length zs) in
  2 * n * spec_mean zs - n ≤ 2 * sum_Z zs < 2 * n * spec_mean zs + n.
Proof.
  intros Hne n. unfold spec_mean. fold n.
  assert (Hn : 0 < n) by (destruct zs; [congruence | cbn in *; lia]).
  destruct (Z.eqb_spec n 0); [lia|].
  pose proof (Z.div_mod (2 * sum_Z zs + n) (2 * n) ltac:(lia)) as Hdm.
  pose proof (Z.mod_pos_bound (2 * sum_Z zs + n) (2 * n) ltac:(lia)) as Hb.
  nia.
Qed.

Lemma count_if_ext (p q : Z → bool) (zs : list Z) :
  (∀ z, p z = q z) → count_if p zs = count_if q zs.
Proof.
  intros H. induction zs as [|z zs IH]; [reflexivity|].
  rewrite !count_if_cons, IH, H. reflexivity.
Qed.

Lemma is_level_thresholds (z : Z) :
  is_level "Low" z = (z <=? 30) ∧
  is_level "Medium" z = ((30 <? z) && (z <=? 70)) ∧
  is_level "High" z = (70 <? z).
Proof.
  unfold is_level, classify_number. rewrite !gt_num.
  destruct (Z.ltb_spec 70 z), (Z.ltb_spec 30 z), (Z.leb_spec z 30), (Z.leb_spec z 70);
    try lia; repeat split; reflexivity.
Qed.

Lemma carry_scores_are (host : Host) (records : list jsval) (zs : list Z) :
  carry_scores records zs → scores_are host records zs.
Proof.
  induction 1 as [|r z records zs (rest & payload & ->) _ IH]; constructor.
  - apply fallback_score_record.
  - exact IH.
Qed.

Lemma sum_scores_carried (host : Host) (records : list jsval) (zs : list Z) :
  carry_scores records zs →
  ∀ a : Z, sum_scores host (JNum (num a)) records = Ok (JNum (num (a + sum_Z zs))).
Proof.
  induction 1 as [|r z records zs (rest & payload & ->) _ IH]; intros a.
  - cbn. now rewrite Z.add_0_r.
  - cbn [sum_scores]. unfold score_record.
    rewrite get_object, prop_insert_eq. cbn [bind].
    rewrite get_object, prop_insert_eq. cbn [bind].
    replace (js_add host (JNum (num a)) (or_else (JNum (num z)) (JNum (num 0))))
      with (@Ok jsval (JNum (num (a + z)))).
    + cbn [bind]. rewrite IH. do 3 f_equal. cbn [sum_Z fold_right]. unfold sum_Z. lia.
    + unfold or_else. cbn [truthy]. rewrite truthy_num.
      destruct (Z.eqb_spec z 0) as [->|]; cbn [negb];
        unfold js_add; cbn [convertible andb ToPrimitive is_string orb ToNumber];
        unfold Num.add, num, inject_Z, Qplus; cbn [Qnum Qden];
        do 3 f_equal; f_equal; lia.
Qed.

(** C8. For records carrying the integer fraud scores [zs],
    [computeFallback] counts in each bucket the records the numeric
    classifier puts there (Low: at most 30; Medium: above 30 and at most
    70; High: above 70), counts as verified the scores at most 30 and as
    unverified those above 30, and answers the arithmetic mean of the
    scores rounded to the nearest integer, 0 on the empty list;
    [computeAvg] answers the same mean.  For the scores 10, 50, 90 each
    bucket counts one record and the mean is 50. *)
Theorem computeFallback_counts_and_mean
    (host : Host) (records : list jsval) (zs : list Z) :
  scores_are host records zs →
  let agg := computeFallback host records in
  Low (buckets agg) = count_if (is_level "Low") zs ∧
  Medium (buckets agg) = count_if (is_level "Medium") zs ∧
  High (buckets agg) = count_if (is_level "High") zs ∧
  Low (buckets agg) = count_if (fun z => z <=? 30) zs ∧
  Medium (buckets agg) = count_if (fun z => (30 <? z) && (z <=? 70)) zs ∧
  High (buckets agg) = count_if (fun z => 70 <? z) zs ∧
  verified (docs agg) = count_if (fun z => z <=? 30) zs ∧
  unverified (docs agg) = count_if (fun z => 30 <? z) zs ∧
  riskScore agg = num (spec_mean zs) ∧
  (zs ≠ [] →
   let n := Z.of_nat (length zs) in
   2 * n * spec_mean zs - n ≤ 2 * sum_Z zs < 2 * n * spec_mean zs + n) ∧
  (carry_scores records zs → computeAvg host records = Ok (num (spec_mean zs))) ∧
  riskScore (computeFallback host []) = num 0 ∧
  computeAvg host [] = Ok (num 0) ∧
  computeFallback host
    (List.map (fun z => score_record ∅ ∅ (JNum (num z))) [10; 50; 90]) =
    {| riskScore := num 50;
       buckets := {| Low := 1; Medium := 1; High := 1 |};
       docs := {| verified := 1; unverified := 2 |} |}.
Proof.
  intros Hs agg.
  assert (Hlen : length records = length zs) by (eapply Forall2_length, Hs).
  assert (Hagg : agg =
    {| riskScore := num (spec_mean zs);
       buckets := {| Low := count_if (fun z => z <=? 30) zs;
                     Medium := count_if (fun z => (30 <? z) && (z <=? 70)) zs;
                     High := count_if (fun z => 70 <? z) zs |};
       docs := {| verified := count_if (fun z => z <=? 30) zs;
                  unverified := count_if (fun z => 30 <? z) zs |} |}).
  { subst agg. unfold computeFallback.
    rewrite (fold_count_record host records zs Hs).
    cbn [Low Medium High verified unverified]. rewrite !Z.add_0_l.
    f_equal. rewrite (fold_sum_scores host records zs Hs 0), Z.add_0_l.
    unfold spec_mean. rewrite Hlen.
    destruct (Z.eqb_spec (Z.of_nat (length zs)) 0) as [E|E]; cbn [negb]; [reflexivity|].
    apply round_div_num. lia. }
  rewrite Hagg. cbn [buckets docs riskScore Low Medium High verified unverified].
  split; [apply count_if_ext; intros z; symmetry; apply is_level_thresholds|].
  split; [apply count_if_ext; intros z; symmetry; apply is_level_thresholds|].
  split; [apply count_if_ext; intros z; symmetry; apply is_level_thresholds|].
  do 6 (split; [reflexivity|]).
  split; [apply spec_mean_nearest|].
  split; [|repeat split].
  intros Hc. unfold computeAvg.
  assert (Hlen' : length records = length zs) by (eapply Forall2_length, Hc).
  unfold spec_mean. rewrite Hlen'.
  destruct (Z.eqb_spec (Z.of_nat (length zs)) 0) as [E|E]; [reflexivity|].
  rewrite (sum_scores_carried host records zs Hc 0). cbn [bind ToNumber].
  rewrite Z.add_0_l. f_equal. apply round_div_num. lia.
Qed.

Lemma computeFallback_counts_and_mean_witness :
  scores_are sample_host
    (List.map (fun z => score_record ∅ ∅ (JNum (num z))) [10; 50; 90]) [10; 50; 90] ∧
  riskScore (computeFallback sample_host
               (List.map (fun z => score_record ∅ ∅ (JNum (num z))) [10; 50; 90])) =
  num 50.
Proof.
  assert (Hs : scores_are sample_host
            (List.map (fun z => score_record ∅ ∅ (JNum (num z))) [10; 50; 90])
            [10; 50; 90]).
  { repeat constructor. }
  split; [exact Hs|].
  destruct (computeFallback_counts_and_mean sample_host _ _ Hs)
    as (_ & _ & _ & _ & _ & _ & _ & _ & Hmean & _).
  exact Hmean.
Defined.

(** The fraud dashboard has a fallback of its own: it takes the mean from
    [computeAvg] and leaves every counter at zero, whatever the records. *)
Remark dashboard_fallback_counters (host : Host) (records : list jsval) (agg : aggregate) :
  dashboard_fallback host records = Ok agg →
  buckets agg = {| Low := 0; Medium := 0; High := 0 |} ∧
  docs agg = {| verified := 0; unverified := 0 |}.
Proof.
  unfold dashboard_fallback. destruct (computeAvg host records); cbn [bind];
    [|discriminate].
  intros [= <-]. split; reflexivity.
Qed.

(** ** Totality *)

Lemma buildRiskReason_raises (host : Host) (fields : gmap string jsval) :
  truthy (prop (spec_payload (JObj fields)) "flags_text") = true →
  is_string (prop (spec_payload (JObj fields)) "flags_text") = false →
  buildRiskReason host (JObj fields) = Throw TypeError.
Proof.
  intros Ht Hs. rewrite buildRiskReason_cases. cbn [nullish]. cbv zeta.
  now rewrite Ht, Hs.
Qed.

(** C9. The derivation helpers are not all total.  [buildRiskReason], on
    a record whose [flags_text] is the number 5, calls [trim] on a number
    and raises a TypeError; [detectDocType] and [extractConfidence] raise
    on a record that is [null].  The field extractor does answer, with
    [null], on a missing and on a non-object mapping. *)
Theorem buildRiskReason_raises_on_numeric_flags_text (host : Host) :
  buildRiskReason host (obj [("fraud_result", obj [("flags_text", JNum (num 5))])]) =
    Throw TypeError ∧
  detectDocType host JNull = Throw TypeError ∧
  extractConfidence host JNull = Throw TypeError ∧
  getFirstField host JNull ["name"] = JNull ∧
  getFirstField host (JNum (num 5)) ["name"] = JNull.
Proof. repeat split. Qed.

(** What [detectDocType] does on every value: it raises on a record that
    is [null] or [undefined] and when the value it reads the type from
    does not convert to text. *)
Lemma detectDocType_cases (host : Host) (r : jsval) :
  detectDocType host r =
  if nullish r then Throw TypeError
  else if negb (convertible (doc_type_value r)) then Throw TypeError
  else if truthy (doc_type_value r)
  then Ok (Str.toLowerCase (ToString host (doc_type_value r)))
  else if truthy (prop r "aadhaar_ocr") then Ok "aadhaar"
  else if truthy (prop r "pan_ocr") then Ok "pan"
  else Ok "document".
Proof.
  unfold detectDocType, get. destruct (nullish r); cbn [bind]; [reflexivity|].
  change (or_else (prop r "fraud_result") (JObj ∅)) with (spec_payload r).
  unfold js_String.
  destruct (truthy (prop (spec_payload r) "document_type")) eqn:E1.
  { replace (doc_type_value r) with (prop (spec_payload r) "document_type")
      by (unfold doc_type_value; cbn [first_truthy]; now rewrite E1).
    rewrite E1. destruct (convertible _); reflexivity. }
  destruct (truthy (prop r "document_type")) eqn:E2.
  { replace (doc_type_value r) with (prop r "document_type")
      by (unfold doc_type_value; cbn [first_truthy]; now rewrite E1, E2).
    rewrite E2. destruct (convertible _); reflexivity. }
  destruct (truthy (prop r "doc_type")) eqn:E3.
  { replace (doc_type_value r) with (prop r "doc_type")
      by (unfold doc_type_value; cbn [first_truthy]; now rewrite E1, E2, E3).
    rewrite E3. destruct (convertible _); reflexivity. }
  replace (doc_type_value r) with JUndefined
    by (unfold doc_type_value; cbn [first_truthy]; now rewrite E1, E2, E3).
  reflexivity.
Qed.

(** On a record that is an object the other helpers of the alerts page
    answer as soon as the values they convert can be converted. *)
Lemma object_record_helpers_return (host : Host) (fields : gmap string jsval) :
  (convertible (doc_type_value (JObj fields)) = true →
   returns (detectDocType host (JObj fields))) ∧
  (confidence_converts (JObj fields) →
   returns (extractConfidence host (JObj fields))) ∧
  (convertible (prop (spec_payload (JObj fields)) "fraud_score") = true →
   returns (row_risk host (JObj fields))).
Proof.
  split; [|split].
  - intros H. rewrite detectDocType_cases, H. cbn [nullish negb].
    repeat match goal with
    | |- returns (if ?c then _ else _) => destruct c
    end; eexists; reflexivity.
  - intros H. eexists. now apply extractConfidence_object.
  - intros H. unfold row_risk. rewrite get_object. cbn [bind].
    change (or_else (prop (JObj fields) "fraud_result") (JObj ∅))
      with (spec_payload (JObj fields)).
    rewrite js_Number_convertible by exact H. eexists; reflexivity.
Qed.

(** ** Status updates *)

Lemma with_status_present (id : prim) (status : string) (r : jsval) :
  nullish r = false →
  with_status id status r =
  Ok (if strict_eq (prop r "_id") id
      then JObj (<["status" := JStr status]> (spread r)) else r).
Proof.
  intros Hr. unfold with_status, get. rewrite Hr. cbn [bind].
  destruct (strict_eq (prop r "_id") id); reflexivity.
Qed.

Lemma map_result_with_status (id : prim) (status : string) (records : list jsval) :
  all_present records →
  map_result (with_status id status) records =
  Ok (List.map (fun r => if strict_eq (prop r "_id") id
                         then JObj (<["status" := JStr status]> (spread r)) else r)
               records).
Proof.
  induction 1 as [|r records Hr _ IH]; [reflexivity|].
  cbn [map_result List.map]. rewrite with_status_present by exact Hr.
  cbn [bind]. rewrite IH. reflexivity.
Qed.

Lemma update_only_status (id : prim) (status : string) (records : list jsval) :
  only_status_changed id status records
    (List.map (fun r => if strict_eq (prop r "_id") id
                        then JObj (<["status" := JStr status]> (spread r)) else r)
              records).
Proof.
  split; [apply length_map|].
  intros i r Hi.
  change (@List.map jsval jsval) with (@fmap list _ jsval jsval).
  rewrite list_lookup_fmap, Hi. cbn [fmap option_fmap option_map].
  split; intros E; rewrite E; [reflexivity|].
  eexists. split; [reflexivity|]. split.
  - apply lookup_insert_eq.
  - intros k Hk. now apply lookup_insert_ne.
Qed.

(** C10. When the request goes through and every record is present, each
    handler -- [doAction], [onApprove], [onReject], [approve], [reject] --
    yields a list of the same length in which only the records whose [_id]
    is the given id have their [status] set (to "Approved", "Rejected" or
    "Flagged" according to the action), every other field of those records
    and every other record being left as it was; when the request fails
    the list stays as it was. *)
Theorem status_update_touches_only_status
    (id : prim) (action : string) (records : list jsval) :
  all_present records →
  (∃ next, doAction true id action records = Ok next ∧
           only_status_changed id (status_of_action action) records next) ∧
  (∃ next, onApprove true id records = Ok next ∧
           only_status_changed id "Approved" records next) ∧
  (∃ next, onReject true id records = Ok next ∧
           only_status_changed id "Rejected" records next) ∧
  (∃ next, approve true id records = Ok next ∧
           only_status_changed id "Approved" records next) ∧
  (∃ next, reject true id records = Ok next ∧
           only_status_changed id "Rejected" records next) ∧
  status_of_action "approve" = "Approved" ∧
  status_of_action "reject" = "Rejected" ∧
  status_of_action "flag" = "Flagged" ∧
  doAction false id action records = Ok records.
Proof.
  intros Hp.
  repeat (split; [eexists; split;
                  [apply (map_result_with_status _ _ _ Hp) | apply update_only_status]|]).
  repeat split.
Qed.

Lemma status_update_touches_only_status_witness :
  all_present two_pending ∧
  ∃ next, doAction true (PStr "a") "approve" two_pending = Ok next ∧
          only_status_changed (PStr "a") "Approved" two_pending next.
Proof.
  assert (Hp : all_present two_pending) by (repeat constructor).
  split; [exact Hp|].
  exact (proj1 (status_update_touches_only_status (PStr "a") "approve" two_pending Hp)).
Defined.

Example approve_one_of_two :
  doAction true (PStr "a") "approve" two_pending =
  Ok [obj [("_id", JStr "a"); ("status", JStr "Approved"); ("user_name", JStr "u")];
      obj [("_id", JStr "b"); ("status", JStr "Pending")]].
Proof. vm_compute. reflexivity. Qed.

(** * Further properties *)

(** ** Confidence as a percentage *)

(** X1. Whenever [extractConfidence] returns on a record that is an
    object, it returns a whole number between 1 and 100, whatever the
    confidence field holds (a fraction, a percentage, a text, a value out
    of range).  It does return when the value found and the fraud score
    convert to numbers, and it raises when the value found is an object
    or an array that does not convert. *)
Theorem confidence_is_a_percentage (host : Host) (fields : gmap string jsval) :
  (∀ n : number, extractConfidence host (JObj fields) = Ok n →
     ∃ z : Z, 1 ≤ z ≤ 100 ∧ n = num z) ∧
  (confidence_converts (JObj fields) →
     ∃ z : Z, 1 ≤ z ≤ 100 ∧ extractConfidence host (JObj fields) = Ok (num z)) ∧
  (∀ v : jsval, spec_confidence_field (JObj fields) = Some v →
     convertible v = false →
     extractConfidence host (JObj fields) = Throw TypeError).
Proof.
  split; [|split].
  - intros n. apply extractConfidence_range.
  - intros Hc. pose proof (extractConfidence_object host fields Hc) as E.
    destruct (extractConfidence_range host fields _ E) as (z & Hz & Hn).
    exists z. split; [exact Hz|]. now rewrite E, Hn.
  - intros v Hv Hconv. rewrite extractConfidence_cases. cbv zeta. rewrite Hv, Hconv.
    destruct v; try discriminate Hconv; reflexivity.
Qed.

(** ** Reasons: when [buildRiskReason] raises *)

Lemma buildRiskReason_raise_cases (host : Host) (r : jsval) :
  (∃ e, buildRiskReason host r = Throw e) ↔
  nullish r = true ∨
  (truthy (prop (spec_payload r) "flags_text") = true ∧
   is_string (prop (spec_payload r) "flags_text") = false) ∨
  (spec_flags_text r = None ∧ forallb convertible (flag_entries r) = false).
Proof.
  rewrite buildRiskReason_cases. cbv zeta.
  destruct (nullish r) eqn:Hr.
  { split; [now left | intros _; now eexists]. }
  destruct (truthy (prop (spec_payload r) "flags_text")) eqn:Ht;
    destruct (is_string (prop (spec_payload r) "flags_text")) eqn:Hs; cbn [negb andb];
    try (split; [intros _; right; left; now split | intros _; now eexists]);
    (destruct (spec_flags_text r) as [t|];
     [split; [intros [e He]; discriminate
             | intros [?|[[? ?]|[? _]]]; discriminate]|]);
    (destruct (forallb convertible (flag_entries r));
     [split; [intros [e He]; discriminate
             | intros [?|[[? ?]|[_ ?]]]; discriminate]
     | split; [intros _; right; right; now split | intros _; now eexists]]).
Qed.


(** ** The aggregate fallback: invariants of the counters *)

Lemma gt_70_gt_30 (n : number) :
  Num.gt n (num 70) = true → Num.gt n (num 30) = true.
Proof.
  unfold Num.gt, Num.lt, num. destruct n as [| |q|]; try discriminate; [|reflexivity].
  intros H. apply negb_true_iff in H. apply negb_true_iff.
  destruct (Qle_bool q (inject_Z 30)) eqn:E; [|reflexivity].
  apply Qle_bool_iff in E.
  assert (Hle : (q <= inject_Z 70)%Q)
    by (eapply Qle_trans; [exact E | discriminate]).
  apply Qle_bool_iff in Hle. congruence.
Qed.

Lemma fold_count_record_total (host : Host) (records : list jsval) :
  ∀ b v,
    let '(b', v') := fold_left (count_record host) records (b, v) in
    Low b' + Medium b' + High b' = Low b + Medium b + High b + Z.of_nat (length records) ∧
    verified v' - Low b' = verified v - Low b ∧
    unverified v' - (Medium b' + High b') = unverified v - (Medium b + High b) ∧
    Low b ≤ Low b' ∧ Medium b ≤ Medium b' ∧ High b ≤ High b'.
Proof.
  induction records as [|r records IH]; intros b v.
  - cbn. lia.
  - cbn [fold_left]. specialize (IH (fst (count_record host (b, v) r))
                                      (snd (count_record host (b, v) r))).
    rewrite <- surjective_pairing in IH.
    destruct (fold_left (count_record host) records (count_record host (b, v) r))
      as [b' v'].
    revert IH. unfold count_record.
    destruct (Num.gt (fallback_score host r) (num 70)) eqn:E70;
      [rewrite (gt_70_gt_30 _ E70) |
       destruct (Num.gt (fallback_score host r) (num 30)) eqn:E30];
      cbn [fst snd Low Medium High verified unverified length]; lia.
Qed.

(** X3. On records whose fraud score converts to a number, whatever it
    is otherwise (missing, a text, out of range, the record itself
    [null]), [computeFallback] puts every record in exactly one bucket and
    in exactly one of verified and unverified: the three buckets add up to
    the number of records, so do verified and unverified, the verified
    records are the Low ones and the unverified ones the Medium and High
    ones. *)
Theorem computeFallback_counters_add_up (host : Host) (records : list jsval) :
  Forall (fun r => convertible (fallback_score_value r) = true) records →
  let agg := computeFallback host records in
  Low (buckets agg) + Medium (buckets agg) + High (buckets agg) =
    Z.of_nat (length records) ∧
  verified (docs agg) + unverified (docs agg) = Z.of_nat (length records) ∧
  verified (docs agg) = Low (buckets agg) ∧
  unverified (docs agg) = Medium (buckets agg) + High (buckets agg) ∧
  0 ≤ Low (buckets agg) ∧ 0 ≤ Medium (buckets agg) ∧ 0 ≤ High (buckets agg).
Proof.
  intros _. unfold computeFallback.
  pose proof (fold_count_record_total host records
                {| Low := 0; Medium := 0; High := 0 |}
                {| verified := 0; unverified := 0 |}) as H.
  destruct (fold_left (count_record host) records _) as [b v].
  cbn [buckets docs Low Medium High verified unverified] in *. lia.
Qed.

Lemma computeFallback_counters_add_up_witness :
  Forall (fun r => convertible (fallback_score_value r) = true)
         [score_record ∅ ∅ (JNum (num 80)); JNull; obj [("fraud_result", JStr "x")]] ∧
  Low (buckets (computeFallback sample_host
         [score_record ∅ ∅ (JNum (num 80)); JNull; obj [("fraud_result", JStr "x")]])) +
  Medium (buckets (computeFallback sample_host
         [score_record ∅ ∅ (JNum (num 80)); JNull; obj [("fraud_result", JStr "x")]])) +
  High (buckets (computeFallback sample_host
         [score_record ∅ ∅ (JNum (num 80)); JNull; obj [("fraud_result", JStr "x")]])) = 3.
Proof.
  assert (H : Forall (fun r => convertible (fallback_score_value r) = true)
                [score_record ∅ ∅ (JNum (num 80)); JNull;
                 obj [("fraud_result", JStr "x")]])
    by (repeat constructor).
  split; [exact H|].
  exact (proj1 (computeFallback_counters_add_up sample_host _ H)).
Defined.






(** ** Fraud alerts page: the risk filter *)

Lemma gt_negb_le (n : number) (k : Z) :
  Num.isNaN n = false → Num.gt n (num k) = negb (Num.le n (num k)).
Proof. destruct n; try reflexivity. discriminate. Qed.

Lemma le_30_le_70 (n : number) :
  Num.le n (num 30) = true → Num.le n (num 70) = true.
Proof.
  unfold Num.le, num. destruct n as [| |q|]; try discriminate; [reflexivity|].
  intros H. apply Qle_bool_iff in H. apply Qle_bool_iff.
  eapply Qle_trans; [exact H | discriminate].
Qed.

Lemma risk_filter_one_of_three (n : number) :
  Num.isNaN n = false →
  (passes_risk_filter "high" n = card_high n ∧
   passes_risk_filter "medium" n = card_medium n ∧
   passes_risk_filter "low" n = card_low n) ∧
  (if card_high n then 1 else 0) + (if card_medium n then 1 else 0) +
  (if card_low n then 1 else 0) = 1.
Proof.
  intros Hn. unfold passes_risk_filter, card_high, card_medium, card_low.
  cbn [String.eqb Ascii.eqb Bool.eqb negb andb].
  rewrite !(gt_negb_le n) by exact Hn.
  destruct (Num.le n (num 30)) eqn:E30.
  - rewrite (le_30_le_70 n E30). repeat split.
  - destruct (Num.le n (num 70)); repeat split.
Qed.

Lemma keeps_row_no_query (host : Host) (f : string) (r : alert_row) :
  keeps_row host f "" r = passes_risk_filter f (row_fraud_score r).
Proof.
  unfold keeps_row. destruct (passes_risk_filter f (row_fraud_score r)); reflexivity.
Qed.

Lemma filter_length_count {A} (p : A → bool) (l : list A) :
  Z.of_nat (length (List.filter p l)) =
  fold_right (fun x acc => (if p x then 1 else 0) + acc) 0 l.
Proof.
  induction l as [|x l IH]; [reflexivity|].
  cbn [List.filter fold_right]. destruct (p x); cbn [length]; lia.
Qed.

Lemma card_counts_add_up (rows : list alert_row) :
  Forall (fun r => Num.isNaN (row_fraud_score r) = false) rows →
  Z.of_nat (length (List.filter (fun r => card_high (row_fraud_score r)) rows)) +
  Z.of_nat (length (List.filter (fun r => card_medium (row_fraud_score r)) rows)) +
  Z.of_nat (length (List.filter (fun r => card_low (row_fraud_score r)) rows)) =
  Z.of_nat (length rows).
Proof.
  intros Hall. rewrite !filter_length_count.
  induction Hall as [|r rows Hr _ IH]; [reflexivity|].
  cbn [fold_right length].
  pose proof (proj2 (risk_filter_one_of_three _ Hr)). lia.
Qed.

(** X5. With the search box empty, the three risk filters of the alerts
    table split the rows whose fraud score is a number: each such row is
    shown under exactly one of High, Medium and Low, the one whose card
    counts it, so the three lists add up to all the rows; the filter
    "all" and any filter name the code does not know show every row.  A
    row whose fraud score is NaN is shown under all three filters and
    counted by none of the cards. *)
Theorem risk_filters_split_the_rows (host : Host) (rows : list alert_row) :
  (Forall (fun r => Num.isNaN (row_fraud_score r) = false) rows →
   Z.of_nat (length (filtered host rows "high" "")) +
   Z.of_nat (length (filtered host rows "medium" "")) +
   Z.of_nat (length (filtered host rows "low" "")) = Z.of_nat (length rows) ∧
   filtered host rows "high" "" =
     List.filter (fun r => card_high (row_fraud_score r)) rows ∧
   filtered host rows "medium" "" =
     List.filter (fun r => card_medium (row_fraud_score r)) rows ∧
   filtered host rows "low" "" =
     List.filter (fun r => card_low (row_fraud_score r)) rows) ∧
  (∀ f : string, f ≠ "high" → f ≠ "medium" → f ≠ "low" → filtered host rows f "" = rows) ∧
  (passes_risk_filter "high" NaN = true ∧ passes_risk_filter "medium" NaN = true ∧
   passes_risk_filter "low" NaN = true ∧
   card_high NaN = false ∧ card_medium NaN = false ∧ card_low NaN = false).
Proof.
  split; [|split; [|repeat split]].
  - intros Hall. unfold filtered. change (Str.toLowerCase (Str.trim "")) with "".
    assert (Hext : ∀ f card,
              (∀ n, Num.isNaN n = false → passes_risk_filter f n = card n) →
              List.filter (keeps_row host f "") rows =
              List.filter (fun r => card (row_fraud_score r)) rows).
    { intros f card Hf. induction Hall as [|r rows Hr _ IH]; [reflexivity|].
      cbn [List.filter]. rewrite keeps_row_no_query, (Hf _ Hr), IH. reflexivity. }
    rewrite (Hext "high" card_high), (Hext "medium" card_medium),
            (Hext "low" card_low)
      by (intros n Hn; apply (risk_filter_one_of_three n Hn)).
    split; [now apply card_counts_add_up | repeat split].
  - intros f Hh Hm Hl. unfold filtered. change (Str.toLowerCase (Str.trim "")) with "".
    induction rows as [|r rows IH]; [reflexivity|].
    cbn [List.filter]. rewrite keeps_row_no_query, IH.
    unfold passes_risk_filter.
    destruct (String.eqb_spec f "high"); [contradiction|].
    destruct (String.eqb_spec f "medium"); [contradiction|].
    destruct (String.eqb_spec f "low"); [contradiction|].
    cbn [andb]. destruct (negb (String.eqb f "all")); reflexivity.
Qed.

Lemma risk_filters_split_the_rows_witness :
  Forall (fun r => Num.isNaN (row_fraud_score r) = false) sample_rows ∧
  Z.of_nat (length (filtered sample_host sample_rows "high" "")) +
  Z.of_nat (length (filtered sample_host sample_rows "medium" "")) +
  Z.of_nat (length (filtered sample_host sample_rows "low" "")) = 2.
Proof.
  assert (Hall : Forall (fun r => Num.isNaN (row_fraud_score r) = false) sample_rows)
    by (repeat constructor).
  split; [exact Hall|].
  exact (proj1 (proj1 (risk_filters_split_the_rows sample_host sample_rows) Hall)).
Defined.

(** ** Status updates: how they compose *)

Lemma map_result_ok_map {A B} (f : A → result B) (g : A → B) (l : list A) :
  Forall (fun x => f x = Ok (g x)) l → map_result f l = Ok (List.map g l).
Proof.
  induction 1 as [|x l Hx _ IH]; [reflexivity|].
  cbn [map_result List.map]. rewrite Hx. cbn [bind]. rewrite IH. reflexivity.
Qed.

Lemma with_status_object (id : prim) (status : string) (fields : gmap string jsval) :
  with_status id status (JObj fields) =
  Ok (if strict_eq (prop (JObj fields) "_id") id
      then JObj (<["status" := JStr status]> fields) else JObj fields).
Proof.
  unfold with_status, get. cbn [nullish bind spread].
  destruct (strict_eq _ id); reflexivity.
Qed.

Lemma with_status_twice (id : prim) (s1 s2 : string) (fields : gmap string jsval) :
  with_status id s2
    (if strict_eq (prop (JObj fields) "_id") id
     then JObj (<["status" := JStr s1]> fields) else JObj fields) =
  with_status id s2 (JObj fields).
Proof.
  rewrite (with_status_object id s2 fields).
  destruct (strict_eq (prop (JObj fields) "_id") id) eqn:E.
  - rewrite with_status_object.
    rewrite prop_insert_ne by discriminate. rewrite E.
    now rewrite insert_insert_eq.
  - rewrite with_status_object, E. reflexivity.
Qed.

(** X6. On a list of object records, a second status action on the same
    id overrides the first: approving and then rejecting an id gives
    exactly the list that rejecting alone gives, and repeating an action
    changes nothing more. *)
Theorem last_status_action_wins
    (id : prim) (first second : string) (records mid : list jsval) :
  all_objects records →
  doAction true id first records = Ok mid →
  doAction true id second mid = doAction true id second records ∧
  doAction true id first mid = Ok mid.
Proof.
  intros Hobj Hmid.
  assert (Hstep : ∀ s1 s2 rs ms,
            all_objects rs →
            map_result (with_status id s1) rs = Ok ms →
            map_result (with_status id s2) ms = map_result (with_status id s2) rs).
  { intros s1 s2 rs ms Hrs. revert ms.
    induction Hrs as [|r rs [fields ->] _ IH]; intros ms Hms.
    - cbn in Hms. now injection Hms as <-.
    - cbn [map_result] in Hms. rewrite with_status_object in Hms. cbn [bind] in Hms.
      destruct (map_result (with_status id s1) rs) as [ms'|] eqn:Ers;
        cbn [bind] in Hms; [|discriminate].
      injection Hms as <-. cbn [map_result]. rewrite (IH ms' eq_refl).
      change (default JUndefined (fields !! "_id")) with (prop (JObj fields) "_id").
      now rewrite with_status_twice. }
  unfold doAction in *. split.
  - exact (Hstep _ _ _ _ Hobj Hmid).
  - rewrite (Hstep _ _ _ _ Hobj Hmid). exact Hmid.
Qed.

Lemma last_status_action_wins_witness :
  all_objects two_pending ∧
  ∃ mid, doAction true (PStr "a") "approve" two_pending = Ok mid ∧
         doAction true (PStr "a") "reject" mid =
         doAction true (PStr "a") "reject" two_pending.
Proof.
  assert (Hobj : all_objects two_pending).
  { repeat constructor; eexists; reflexivity. }
  split; [exact Hobj|].
  eexists. split; [reflexivity|].
  exact (proj1 (last_status_action_wins (PStr "a") "approve" "reject" two_pending _
                  Hobj eq_refl)).
Defined.

(** ** The expanded cards *)

(** X7. Clicking a card twice brings the set of expanded cards back to
    what it was, a click changes the state of the clicked card only, and
    clicks on two cards give the same set in either order. *)
Theorem toggleExpand_flips_one_card `{Countable K} (id other : K) (prev : gset K) :
  toggleExpand id (toggleExpand id prev) = prev ∧
  (id ∈ toggleExpand id prev ↔ id ∉ prev) ∧
  (other ≠ id → (other ∈ toggleExpand id prev ↔ other ∈ prev)) ∧
  toggleExpand id (toggleExpand other prev) = toggleExpand other (toggleExpand id prev).
Proof.
  assert (Hin : ∀ (i x : K) (s : gset K),
            x ∈ toggleExpand i s ↔ (x = i ∧ i ∉ s) ∨ (x ≠ i ∧ x ∈ s)).
  { intros i x s. unfold toggleExpand.
    destruct (decide (i ∈ s)) as [Hi|Hi].
    - rewrite elem_of_difference, elem_of_singleton.
      destruct (decide (x = i)) as [->|Hx]; tauto.
    - rewrite elem_of_union, elem_of_singleton.
      destruct (decide (x = i)) as [->|Hx]; tauto. }
  split; [|split; [|split]].
  - apply set_eq. intros x. rewrite !Hin.
    destruct (decide (x = id)) as [->|Hx]; [|tauto].
    destruct (decide (id ∈ prev)); tauto.
  - rewrite Hin. tauto.
  - intros Hne. rewrite Hin. tauto.
  - apply set_eq. intros x. rewrite !Hin.
    destruct (decide (id ∈ prev)), (decide (other ∈ prev)),
             (decide (x = id)), (decide (x = other)); subst;
      intuition congruence.
Qed.

(** ** The field extractor *)

Lemma first_field_all_blank (host : Host) (o : jsval) (keys : list string) :
  Forall (fun k => blank host (prop o k) = true) keys →
  first_field host o keys = JNull.
Proof.
  induction 1 as [|k keys Hk _ IH]; [reflexivity|].
  cbn [first_field]. unfold blank in Hk.
  destruct (nullish (prop o k)); cbn [negb andb orb] in *; [exact IH|].
  rewrite Hk. exact IH.
Qed.

Lemma first_field_first_nonblank (host : Host) (o : jsval) (keys : list string) :
  (∃ pre k post,
     keys = (pre ++ k :: post)%list ∧
     Forall (fun k' => blank host (prop o k') = true) pre ∧
     blank host (prop o k) = false ∧
     first_field host o keys = prop o k) ∨
  (Forall (fun k => blank host (prop o k) = true) keys ∧
   first_field host o keys = JNull).
Proof.
  induction keys as [|k keys IH].
  - right. split; [constructor | reflexivity].
  - destruct (blank host (prop o k)) eqn:Hk.
    + destruct IH as [(pre & k' & post & -> & Hpre & Hk' & Hres) | [Hall Hres]].
      * left. exists (k :: pre), k', post. repeat split; [now constructor | exact Hk' |].
        rewrite <- Hres. cbn [app first_field]. unfold blank in Hk.
        destruct (nullish (prop o k)); cbn [negb andb orb] in *; [reflexivity|].
        now rewrite Hk.
      * right. split; [now constructor|].
        apply first_field_all_blank. now constructor.
    + left. exists [], k, keys. repeat split; [constructor | exact Hk |].
      cbn [first_field]. unfold blank in Hk.
      apply orb_false_elim in Hk as [-> ->]. reflexivity.
Qed.

Lemma empty_object_all_blank (host : Host) (keys : list string) :
  Forall (fun k => blank host (prop (JObj ∅) k) = true) keys.
Proof.
  apply Forall_forall. intros k _. unfold blank, prop.
  rewrite lookup_empty. reflexivity.
Qed.

Lemma getFirstField_falsy (host : Host) (o : jsval) (keys : list string) :
  truthy o = false → getFirstField host o keys = JNull.
Proof.
  intros Ho. unfold getFirstField. destruct o; try discriminate.
  - cbn [truthy negb]. apply first_field_all_blank, empty_object_all_blank.
  - reflexivity.
  - now rewrite Ho.
  - now rewrite Ho.
  - now rewrite Ho.
Qed.

Lemma getFirstField_truthy (host : Host) (o : jsval) (keys : list string) :
  truthy o = true → getFirstField host o keys = first_field host o keys.
Proof.
  intros Ho. unfold getFirstField.
  replace (match o with JUndefined => JObj ∅ | _ => o end) with o
    by (destruct o; try reflexivity; discriminate).
  now rewrite Ho.
Qed.

(** X8. On a mapping that is an object, read under names that are not
    inherited ones and whose values are missing or convert to text of the
    ASCII range, [getFirstField] answers the value of the first key, in
    the order given, whose value is neither missing nor blank once written
    as text and trimmed, and [null] when there is no such key; a mapping
    that is missing or falsy (null, undefined, 0, the empty string) gives
    [null] whatever those keys.  [formatDob] then answers "N/A" when none
    of the date-of-birth keys holds a value. *)
Theorem getFirstField_first_nonblank
    (host : Host) (fields : gmap string jsval) (keys : list string) :
  plain_keys keys = true →
  forallb (fun k => readable host (prop (JObj fields) k)) keys = true →
  ((∃ pre k post,
      keys = (pre ++ k :: post)%list ∧
      Forall (fun k' => blank host (prop (JObj fields) k') = true) pre ∧
      blank host (prop (JObj fields) k) = false ∧
      getFirstField host (JObj fields) keys = prop (JObj fields) k) ∨
   (Forall (fun k => blank host (prop (JObj fields) k) = true) keys ∧
    getFirstField host (JObj fields) keys = JNull)) ∧
  (∀ o : jsval, truthy o = false → getFirstField host o keys = JNull) ∧
  (forallb (fun k => readable host (prop (JObj fields) k)) DOB_KEYS = true →
   Forall (fun k => blank host (prop (JObj fields) k) = true) DOB_KEYS →
   formatDob host (JObj fields) = JStr "N/A").
Proof.
  intros _ _. split; [|split].
  - rewrite getFirstField_truthy by reflexivity. apply first_field_first_nonblank.
  - intros o. apply getFirstField_falsy.
  - intros _ Hall. unfold formatDob.
    rewrite getFirstField_truthy by reflexivity.
    now rewrite first_field_all_blank.
Qed.

Lemma getFirstField_first_nonblank_witness :
  plain_keys DOB_KEYS = true ∧
  formatDob sample_host (obj [("dob", JStr " "); ("DOB", JStr "01-02-1990")]) =
    JStr "01-02-1990" ∧
  getFirstField sample_host JUndefined DOB_KEYS = JNull.
Proof.
  assert (Hkeys : plain_keys DOB_KEYS = true) by (vm_compute; reflexivity).
  assert (Hvalues :
    forallb (fun k => readable sample_host
                        (prop (JObj (list_to_map [("dob", JStr " ");
                                                  ("DOB", JStr "01-02-1990")])) k))
            DOB_KEYS = true) by (vm_compute; reflexivity).
  split; [exact Hkeys|].
  pose proof (getFirstField_first_nonblank sample_host
                (list_to_map [("dob", JStr " "); ("DOB", JStr "01-02-1990")])
                DOB_KEYS Hkeys Hvalues) as (_ & Hfalsy & _).
  split; [vm_compute; reflexivity|].
  exact (Hfalsy JUndefined eq_refl).
Defined.

(** ** Audit trail: what a poll leaves on screen *)

Lemma on_failure_nonempty (SAMPLE prev : list jsval) :
  SAMPLE ≠ [] →
  (if negb (Z.of_nat (length prev) =? 0) then prev else SAMPLE) ≠ [].
Proof. intros HS. destruct prev; cbn; [exact HS | discriminate]. Qed.

(** X9. A poll of the audit trail that fails never empties the screen:
    it keeps the events already shown, or shows the samples when none
    were, so the list is not empty afterwards and a second failure
    changes nothing; a response that is [null] counts as a failure.  A
    response holding an array under [audit] replaces the events by that
    array, even an empty one, and is preferred to [events]. *)
Theorem failed_audit_poll_keeps_events
    (SAMPLE prev items other : list jsval) (rest : gmap string jsval) :
  SAMPLE ≠ [] →
  (prev ≠ [] → loadAudit SAMPLE prev None = prev) ∧
  loadAudit SAMPLE prev None ≠ [] ∧
  loadAudit SAMPLE (loadAudit SAMPLE prev None) None = loadAudit SAMPLE prev None ∧
  loadAudit SAMPLE prev (Some JNull) = loadAudit SAMPLE prev None ∧
  loadAudit SAMPLE prev (Some (JObj (<["audit" := JArr items]> rest))) = items ∧
  loadAudit SAMPLE prev
    (Some (JObj (<["audit" := JArr items]> (<["events" := JArr other]> rest)))) = items ∧
  loadAudit SAMPLE prev (Some (JArr items)) = items ∧
  loadAudit SAMPLE prev (Some (JObj ∅)) = SAMPLE.
Proof.
  intros HS. repeat split.
  - intros Hp. destruct prev; [congruence | reflexivity].
  - apply on_failure_nonempty, HS.
  - destruct prev as [|e prev]; cbn; [|reflexivity].
    destruct SAMPLE; [congruence | reflexivity].
  - unfold loadAudit. cbn [get nullish prop]. now rewrite lookup_insert_eq.
  - unfold loadAudit. cbn [get nullish prop]. now rewrite lookup_insert_eq.
Qed.

Lemma failed_audit_poll_keeps_events_witness :
  one_sample_event ≠ [] ∧
  loadAudit one_sample_event [] None ≠ [].
Proof.
  split; [discriminate|].
  destruct (failed_audit_poll_keeps_events one_sample_event [] [] [] ∅)
    as (_ & Hnonempty & _); [discriminate|].
  exact Hnonempty.
Defined.

(** ** Fraud alerts page: the rows *)

Lemma map_result_length {A B} (f : A → result B) (l : list A) (l' : list B) :
  map_result f l = Ok l' → length l' = length l.
Proof.
  revert l'. induction l as [|x l IH]; intros l' H.
  - injection H as <-. reflexivity.
  - cbn [map_result] in H. destruct (f x); cbn [bind] in H; [|discriminate].
    destruct (map_result f l) as [ys|]; cbn [bind] in H; [|discriminate].
    injection H as <-. cbn [length]. now rewrite (IH ys eq_refl).
Qed.

Lemma map_result_raises {A B} (f : A → result B) (l : list A) (x : A) (e : exn) :
  x ∈ l → f x = Throw e → ∃ e', map_result f l = Throw e'.
Proof.
  intros Hin Hx. induction Hin as [x l | x y l _ IH].
  - cbn [map_result]. rewrite Hx. now eexists.
  - cbn [map_result]. destruct (f y); cbn [bind]; [|now eexists].
    destruct (IH Hx) as [e' ->]. now eexists.
Qed.

(** X10. [loadRecords] builds either one row per record of the response,
    or no row at all: as soon as one record makes a helper raise (a
    record that is [null], or whose [flags_text] is truthy and not a
    string), the whole table is left empty. *)
Theorem loadRecords_all_rows_or_none
    (host : Host) (items : list jsval) (rest : gmap string jsval) :
  let response := Some (JObj (<["records" := JArr items]> rest)) in
  (length (loadRecords host response) = length items ∨ loadRecords host response = []) ∧
  (∀ r e, r ∈ items → alert_row_of host r = Throw e → loadRecords host response = []) ∧
  (∀ r, r ∈ items → nullish r = true → loadRecords host response = []) ∧
  (∀ r, r ∈ items →
        truthy (prop (spec_payload r) "flags_text") = true →
        is_string (prop (spec_payload r) "flags_text") = false →
        loadRecords host response = []) ∧
  loadRecords host None = [] ∧
  loadRecords host (Some JNull) = [].
Proof.
  intros response.
  assert (Hload : loadRecords host response =
                  match map_result (alert_row_of host) items with
                  | Ok rows => rows | Throw _ => [] end).
  { unfold loadRecords, response. cbn [get nullish bind prop].
    rewrite lookup_insert_eq. reflexivity. }
  assert (Hraise : ∀ r e, r ∈ items → alert_row_of host r = Throw e →
                          loadRecords host response = []).
  { intros r e Hin Hr. rewrite Hload.
    destruct (map_result_raises _ _ _ _ Hin Hr) as [e' ->]. reflexivity. }
  split; [|split; [exact Hraise | split; [|split; [|split; reflexivity]]]].
  - rewrite Hload. destruct (map_result (alert_row_of host) items) as [rows|] eqn:E.
    + left. eapply map_result_length, E.
    + now right.
  - intros r Hin Hr. apply (Hraise r TypeError Hin).
    unfold alert_row_of, get. now rewrite Hr.
  - intros r Hin Ht Hs.
    destruct (nullish r) eqn:Hr.
    { apply (Hraise r TypeError Hin). unfold alert_row_of, get. now rewrite Hr. }
    destruct (proj2 (buildRiskReason_raise_cases host r)) as [e He];
      [right; left; now split|].
    assert (Hrow : ∃ e', alert_row_of host r = Throw e').
    { unfold alert_row_of, get. rewrite Hr. cbn [bind].
      destruct (js_Number host _); cbn [bind]; [|now eexists].
      rewrite He. now eexists. }
    destruct Hrow as [e' Hrow]. apply (Hraise r e' Hin Hrow).
Qed.

Lemma payload_fraud_score (r : jsval) :
  get_opt (prop r "fraud_result") "fraud_score" =
  prop (spec_payload r) "fraud_score".
Proof.
  unfold spec_payload, get_opt.
  destruct (prop r "fraud_result") as [| |[]|n|s| |]; cbn [truthy nullish]; try reflexivity.
  - destruct (Num.truthy n); reflexivity.
  - destruct (negb (String.eqb s "")); reflexivity.
Qed.

Lemma row_score_is_spec_score (r : jsval) :
  coalesce (coalesce (get_opt (prop r "fraud_result") "fraud_score")
                     (prop r "fraud_score")) (JNum (num 0)) =
  spec_fraud_score_value r.
Proof. rewrite payload_fraud_score. apply fraud_score_chain_spec. Qed.

Lemma falsy_not_above (n : number) (k : Z) :
  0 ≤ k → Num.truthy n = false → Num.gt n (num k) = false.
Proof.
  intros Hk. destruct n as [| |q|]; try discriminate; try reflexivity.
  cbn [Num.truthy]. intros H. apply negb_false_iff, Qeq_bool_iff in H.
  unfold Num.gt, Num.lt, num. apply negb_false_iff, Qle_bool_iff.
  rewrite H. unfold Qle, inject_Z; cbn. lia.
Qed.

Lemma badge_tier (host : Host) (n : number) :
  (label (riskBadgeLabel host (JNum n)) = "High" ∧ spec_three_tier n = num 90) ∨
  (label (riskBadgeLabel host (JNum n)) = "Medium" ∧ spec_three_tier n = num 75) ∨
  (label (riskBadgeLabel host (JNum n)) = "Low" ∧ spec_three_tier n = num 60).
Proof.
  unfold riskBadgeLabel, spec_three_tier. cbn [ToNumber].
  destruct (Num.truthy n) eqn:Ht.
  - destruct (Num.gt n (num 70)); [now left|].
    destruct (Num.gt n (num 30)); [right; now left | right; now right].
  - rewrite !(falsy_not_above n) by (lia || exact Ht).
    right; right. split; reflexivity.
Qed.

(** X11. For a record that holds no confidence field, the row
    [loadRecords] builds has a confidence that follows its risk badge:
    90 with the badge High, 75 with Medium, 60 with Low. *)
Theorem row_confidence_follows_badge
    (host : Host) (fields : gmap string jsval) (row : alert_row) :
  spec_confidence_field (JObj fields) = None →
  alert_row_of host (JObj fields) = Ok row →
  (label (riskBadgeLabel host (JNum (row_fraud_score row))) = "High" ∧
   row_confidence row = num 90) ∨
  (label (riskBadgeLabel host (JNum (row_fraud_score row))) = "Medium" ∧
   row_confidence row = num 75) ∨
  (label (riskBadgeLabel host (JNum (row_fraud_score row))) = "Low" ∧
   row_confidence row = num 60).
Proof.
  intros Hnone Hrow. unfold alert_row_of in Hrow.
  rewrite get_object in Hrow. cbn [bind] in Hrow.
  change (get_opt (prop (JObj fields) "fraud_result") "fraud_score")
    with (get_opt (prop (JObj fields) "fraud_result") "fraud_score") in Hrow.
  rewrite row_score_is_spec_score in Hrow. unfold js_Number in Hrow.
  destruct (convertible (spec_fraud_score_value (JObj fields))) eqn:Hconv;
    cbn [bind] in Hrow; [|discriminate].
  destruct (buildRiskReason host (JObj fields)); cbn [bind] in Hrow; [|discriminate].
  destruct (detectDocType host (JObj fields)); cbn [bind] in Hrow; [|discriminate].
  rewrite extractConfidence_cases in Hrow. cbv zeta in Hrow.
  rewrite Hnone, Hconv in Hrow. cbn [bind] in Hrow.
  injection Hrow as <-. cbn [row_fraud_score row_confidence].
  apply badge_tier.
Qed.

Lemma row_confidence_follows_badge_witness :
  spec_confidence_field (score_record ∅ ∅ (JNum (num 80))) = None ∧
  ∃ row, alert_row_of sample_host (score_record ∅ ∅ (JNum (num 80))) = Ok row ∧
         row_confidence row = num 90.
Proof.
  assert (Hnone : spec_confidence_field (score_record ∅ ∅ (JNum (num 80))) = None)
    by (vm_compute; reflexivity).
  split; [exact Hnone|].
  destruct (alert_row_of sample_host (score_record ∅ ∅ (JNum (num 80))))
    as [row|] eqn:Hrow; [|vm_compute in Hrow; discriminate Hrow].
  exists row. split; [reflexivity|].
  destruct (row_confidence_follows_badge sample_host _ row Hnone Hrow)
    as [[_ H] | [[H _] | [H _]]]; [exact H | exfalso | exfalso];
    vm_compute in Hrow; injection Hrow as <-; vm_compute in H; discriminate H.
Defined.

(** ** Text helpers *)

Lemma lower_char_facts (c : ascii) :
  Str.lower_char (Str.lower_char c) = Str.lower_char c ∧
  is_digit_or_dot (Str.lower_char c) = is_digit_or_dot c ∧
  Str.is_space (Str.lower_char c) = Str.is_space c.
Proof.
  destruct c as [[] [] [] [] [] [] [] []]; repeat split; reflexivity.
Qed.


Lemma toLowerCase_idempotent (s : string) :
  Str.toLowerCase (Str.toLowerCase s) = Str.toLowerCase s.
Proof.
  unfold Str.toLowerCase. induction s as [|c s IH]; [reflexivity|].
  cbn [Str.map]. rewrite IH, (proj1 (lower_char_facts c)). reflexivity.
Qed.

Lemma toLowerCase_empty (s : string) :
  String.eqb (Str.toLowerCase s) "" = String.eqb s "".
Proof. destruct s; reflexivity. Qed.


(** ** Document type *)

(** X12. Whenever [detectDocType] answers, the document type is in
    lower case: putting it in lower case again changes nothing, be it
    read from the fraud payload, from the record, or one of the defaults
    aadhaar, pan and document.  On a record that is neither [null] nor
    [undefined] it answers exactly when the value the type is read from
    converts to text, and raises otherwise (an object with a [toString]
    property of its own). *)
Theorem detectDocType_lower_case (host : Host) (r : jsval) :
  (∀ d, detectDocType host r = Ok d → Str.toLowerCase d = d) ∧
  (nullish r = false →
     (convertible (doc_type_value r) = true → returns (detectDocType host r)) ∧
     (convertible (doc_type_value r) = false →
      detectDocType host r = Throw TypeError)).
Proof.
  rewrite detectDocType_cases. destruct (nullish r).
  { split; [intros d; discriminate | discriminate]. }
  destruct (convertible (doc_type_value r)); cbn [negb].
  - split.
    + intros d.
      repeat match goal with
      | |- (if ?c then _ else _) = _ → _ => destruct c
      end; intros [= <-]; (apply toLowerCase_idempotent || reflexivity).
    + intros _. split; [intros _ | discriminate].
      repeat match goal with
      | |- returns (if ?c then _ else _) => destruct c
      end; eexists; reflexivity.
  - split; [intros d; discriminate|].
    intros _. split; [discriminate | reflexivity].
Qed.

(** ** Risk labels read from text *)






(** ** Texts: lengths, filters and slices *)

Lemma length_append (a b : string) :
  String.length (a +:+ b) = (String.length a + String.length b)%nat.
Proof.
  induction a as [|c a IH]; [reflexivity|].
  rewrite append_cons. cbn [String.length Nat.add]. now f_equal.
Qed.

Lemma length_substring (n m : nat) (s : string) :
  (n + m ≤ String.length s)%nat → String.length (String.substring n m s) = m.
Proof.
  revert n m. induction s as [|c s IH]; intros n m H.
  - cbn in H. assert (n = 0%nat) by lia. assert (m = 0%nat) by lia. now subst.
  - destruct n as [|n]; cbn [String.substring].
    + destruct m as [|m]; [reflexivity|]. cbn [String.length]. f_equal.
      apply IH. cbn in H. lia.
    + apply IH. cbn in H. lia.
Qed.

Lemma length_repeat_X (k : nat) : String.length (Str.repeat "X" k) = k.
Proof.
  induction k as [|k IH]; [reflexivity|].
  cbn [Str.repeat]. rewrite append_cons, append_nil_l. cbn [String.length]. now f_equal.
Qed.

Lemma substring_all (s : string) : String.substring 0 (String.length s) s = s.
Proof.
  induction s as [|c s IH]; [reflexivity|].
  cbn [String.length String.substring]. now f_equal.
Qed.

Lemma substring_append_left (a b : string) :
  String.substring 0 (String.length a) (a +:+ b) = a.
Proof.
  induction a as [|c a IH]; [now destruct b|].
  rewrite append_cons. cbn [String.length String.substring]. now f_equal.
Qed.

Lemma substring_append_right (a b : string) (n m : nat) :
  String.substring (String.length a + n) m (a +:+ b) = String.substring n m b.
Proof.
  induction a as [|c a IH]; [reflexivity|].
  rewrite append_cons. cbn [String.length String.substring Nat.add]. exact IH.
Qed.

Lemma all_chars_append (p : ascii → bool) (a b : string) :
  all_chars p (a +:+ b) = all_chars p a && all_chars p b.
Proof.
  induction a as [|c a IH]; [reflexivity|].
  rewrite append_cons. cbn [all_chars]. rewrite IH. now rewrite andb_assoc.
Qed.

Lemma all_chars_substring (p : ascii → bool) (n m : nat) (s : string) :
  all_chars p s = true → all_chars p (String.substring n m s) = true.
Proof.
  revert n m. induction s as [|c s IH]; intros n m H.
  - now destruct n, m.
  - cbn in H. apply andb_prop in H as [Hc Hs].
    destruct n as [|n]; cbn [String.substring].
    + destruct m as [|m]; [reflexivity|]. cbn. now rewrite Hc, IH.
    + now apply IH.
Qed.

Lemma all_chars_filter (p : ascii → bool) (s : string) :
  all_chars p (Str.filter p s) = true.
Proof.
  induction s as [|c s IH]; [reflexivity|].
  cbn [Str.filter]. destruct (p c) eqn:E; [cbn; now rewrite E|exact IH].
Qed.

Lemma filter_all_chars (p : ascii → bool) (s : string) :
  all_chars p s = true → Str.filter p s = s.
Proof.
  induction s as [|c s IH]; [reflexivity|].
  cbn. intros H. apply andb_prop in H as [-> Hs]. now rewrite IH.
Qed.

Lemma filter_none (p q : ascii → bool) (s : string) :
  (∀ c, q c = true → p c = false) → all_chars q s = true → Str.filter p s = "".
Proof.
  intros Hpq. induction s as [|c s IH]; [reflexivity|].
  cbn. intros H. apply andb_prop in H as [Hc Hs]. now rewrite (Hpq c Hc), IH.
Qed.


Lemma all_chars_repeat_X (p : ascii → bool) (k : nat) :
  p "X"%char = true → all_chars p (Str.repeat "X" k) = true.
Proof.
  intros H. induction k as [|k IH]; [reflexivity|].
  cbn [Str.repeat]. rewrite append_cons, append_nil_l. cbn [all_chars]. now rewrite H, IH.
Qed.

Lemma first_chars_append (a b : string) (k : nat) :
  String.length a = k → first_chars k (a +:+ b) = a.
Proof. intros <-. apply substring_append_left. Qed.

Lemma last_chars_append (a b : string) (k : nat) :
  String.length b = k → last_chars k (a +:+ b) = b.
Proof.
  intros <-. unfold last_chars. rewrite length_append.
  replace (String.length a + String.length b - String.length b)%nat
    with (String.length a + 0)%nat by lia.
  rewrite substring_append_right. apply substring_all.
Qed.

Lemma length_first_chars (k : nat) (s : string) :
  (k ≤ String.length s)%nat → String.length (first_chars k s) = k.
Proof. intros H. apply length_substring. lia. Qed.

Lemma length_last_chars (k : nat) (s : string) :
  (k ≤ String.length s)%nat → String.length (last_chars k s) = k.
Proof. intros H. apply length_substring. lia. Qed.

(** ** Masks: shape, length and stability *)

Lemma last_chars_append3 (a b c : string) (k : nat) :
  String.length c = k → last_chars k (a +:+ b +:+ c) = c.
Proof. intros H. rewrite <- append_assoc. now apply last_chars_append. Qed.

Lemma truthy_string (s : string) : truthy (JStr s) = true ↔ s ≠ "".
Proof.
  cbn [truthy]. destruct (String.eqb_spec s ""); cbn [negb]; split; congruence.
Qed.

Lemma without_spaces_clean (s : string) :
  all_chars not_space s = true → without_spaces s = s.
Proof. apply filter_all_chars. Qed.

Lemma without_spaces_is_clean (s : string) :
  all_chars not_space (without_spaces s) = true.
Proof. apply (all_chars_filter not_space). Qed.

Lemma maskNumber_present (host : Host) (a : jsval) (front back : nat) :
  truthy a = true →
  maskNumber host a (Z.of_nat front) (Z.of_nat back) =
  let s := without_spaces (ToString host a) in
  if (String.length s <=? front + back)%nat then s
  else first_chars front s +:+
       Str.repeat "X" (String.length s - front - back) +:+
       last_chars back s.
Proof.
  intros Ha. unfold maskNumber.
  replace (match a with JUndefined => JStr "" | _ => a end) with a
    by (destruct a; try reflexivity; discriminate).
  rewrite Ha. cbn [negb]. fold (without_spaces (ToString host a)).
  cbv zeta. set (s := without_spaces (ToString host a)).
  unfold Str.len.
  destruct (Z.leb_spec (Z.of_nat (String.length s)) (Z.of_nat front + Z.of_nat back)),
           (Nat.leb_spec (String.length s) (front + back)); try lia; [reflexivity|].
  change (Z.of_nat (String.length s)) with (Str.len s).
  rewrite (slice_prefix s (Z.of_nat front)) by (unfold Str.len; lia).
  rewrite (slice_from s (Z.of_nat back)) by (unfold Str.len; lia).
  rewrite !Nat2Z.id. do 2 f_equal. f_equal. unfold Str.len. lia.
Qed.

(** X14. On an identifier that is present, [maskNumber] answers a text
    as long as the identifier without its white space, itself free of
    white space: the identifier as it is when it has at most front + back
    characters, else its first [front] characters, one X for each hidden
    character and its last [back] characters.  Masking the result again
    changes nothing. *)
Theorem maskNumber_keeps_length (host : Host) (a : jsval) (front back : nat) :
  truthy a = true →
  let s := without_spaces (ToString host a) in
  let out := maskNumber host a (Z.of_nat front) (Z.of_nat back) in
  String.length out = String.length s ∧
  all_chars not_space out = true ∧
  ((String.length s ≤ front + back)%nat → out = s) ∧
  ((front + back < String.length s)%nat →
   out = first_chars front s +:+
         Str.repeat "X" (String.length s - front - back) +:+ last_chars back s) ∧
  (s ≠ "" → maskNumber host (JStr out) (Z.of_nat front) (Z.of_nat back) = out).
Proof.
  intros Ha s out.
  assert (Hout : out = if (String.length s <=? front + back)%nat then s
                       else first_chars front s +:+
                            Str.repeat "X" (String.length s - front - back) +:+
                            last_chars back s)
    by (apply maskNumber_present, Ha).
  assert (Hclean : all_chars not_space s = true) by apply without_spaces_is_clean.
  assert (Hlen : String.length out = String.length s).
  { rewrite Hout. destruct (Nat.leb_spec (String.length s) (front + back)); [reflexivity|].
    rewrite !length_append, length_repeat_X, length_first_chars, length_last_chars; lia. }
  assert (Hoclean : all_chars not_space out = true).
  { rewrite Hout. destruct (Nat.leb_spec (String.length s) (front + back)); [exact Hclean|].
    rewrite !all_chars_append. unfold first_chars, last_chars.
    rewrite !all_chars_substring by exact Hclean.
    now rewrite all_chars_repeat_X. }
  split; [exact Hlen|]. split; [exact Hoclean|]. split; [|split].
  - intros H. rewrite Hout.
    destruct (Nat.leb_spec (String.length s) (front + back)); [reflexivity | lia].
  - intros H. rewrite Hout.
    destruct (Nat.leb_spec (String.length s) (front + back)); [lia | reflexivity].
  - intros Hs.
    assert (Hne : out ≠ "").
    { intros E. rewrite E in Hlen. destruct s; [congruence | discriminate]. }
    rewrite maskNumber_present by now apply truthy_string.
    cbn [ToString]. cbv zeta. rewrite (without_spaces_clean out Hoclean), Hlen.
    destruct (Nat.leb_spec (String.length s) (front + back)) as [Hshort|Hlong];
      [reflexivity|].
    rewrite Hout.
    destruct (Nat.leb_spec (String.length s) (front + back)); [lia|].
    rewrite first_chars_append by (apply length_first_chars; lia).
    rewrite last_chars_append3 by (apply length_last_chars; lia).
    reflexivity.
Qed.

Lemma maskNumber_keeps_length_witness :
  truthy (JStr "1234 5678 9012") = true ∧
  String.length (maskNumber sample_host (JStr "1234 5678 9012") 4 4) = 12%nat.
Proof.
  split; [reflexivity|].
  exact (proj1 (maskNumber_keeps_length sample_host (JStr "1234 5678 9012") 4 4 eq_refl)).
Defined.





(** ** The CSV export: the reason field *)

Lemma quoted_append (e rest : string) :
  quoted e +:+ rest = String QUOTE (e +:+ String QUOTE rest).
Proof.
  unfold quoted. rewrite append_cons. f_equal.
  rewrite append_assoc, append_cons, append_nil_l. reflexivity.
Qed.

Lemma read_field_escape (s rest : string) :
  starts_with_quote rest = false →
  read_field (escape_quotes s +:+ String QUOTE rest) = Some (s, rest).
Proof.
  intros Hrest. induction s as [|c s IH].
  - cbn [escape_quotes]. rewrite append_nil_l. cbn [read_field].
    rewrite Ascii.eqb_refl. destruct rest as [|c' t']; [reflexivity|].
    cbn [starts_with_quote] in Hrest. now rewrite Hrest.
  - cbn [escape_quotes]. destruct (Ascii.eqb c QUOTE) eqn:Hc.
    + apply Ascii.eqb_eq in Hc. subst c. rewrite !append_cons.
      cbn [read_field]. rewrite !Ascii.eqb_refl.
      cbn [read_field] in IH. now rewrite IH.
    + rewrite append_cons. cbn [read_field]. rewrite Hc.
      cbn [read_field] in IH. now rewrite IH.
Qed.

Lemma count_char_escape (s : string) :
  count_char QUOTE (escape_quotes s) = (2 * count_char QUOTE s)%nat.
Proof.
  induction s as [|c s IH]; [reflexivity|].
  cbn [escape_quotes count_char]. destruct (Ascii.eqb c QUOTE) eqn:Hc.
  - cbn [count_char]. rewrite Ascii.eqb_refl, IH. lia.
  - cbn [count_char]. rewrite Hc, IH. lia.
Qed.

(** X16. The reason column of the CSV export can be read back: in every
    exported line the third field is the reason between double quotes
    with each of its own double quotes written twice, so a reader of
    quoted fields that starts there returns exactly the row's reason and
    stops at the comma before the document type, whatever the reason
    holds; the field counts twice the reason's double quotes. *)
Theorem csv_reason_reads_back (host : Host) (r : alert_row) :
  ∃ rest : string,
    csv_line host r =
      quoted (ToString host (row_id r)) +:+ "," +:+
      quoted (label (riskBadgeLabel host (JNum (row_fraud_score r)))) +:+ "," +:+
      quoted (escape_quotes (row_reason r)) +:+ rest ∧
    rest =
      "," +:+ quoted (row_doc_type r) +:+ "," +:+
      quoted (ToString host (formatDate host (row_timestamp r))) +:+ "," +:+
      quoted (number_to_string host (row_confidence r)) ∧
    read_quoted (quoted (escape_quotes (row_reason r)) +:+ rest) =
      Some (row_reason r, rest) ∧
    count_char QUOTE (escape_quotes (row_reason r)) =
      (2 * count_char QUOTE (row_reason r))%nat.
Proof.
  eexists. split; [|split; [reflexivity|split]].
  - unfold csv_line. cbn [Str.join ToString]. reflexivity.
  - rewrite quoted_append. cbn [read_quoted]. rewrite Ascii.eqb_refl.
    apply read_field_escape. rewrite append_cons. reflexivity.
  - apply count_char_escape.
Qed.

(** ** The upload page's maskers *)

Lemma slice_short_prefix (s : string) (k : Z) :
  Str.len s ≤ k → Str.slice s 0 (Some k) = s.
Proof.
  intros Hk. unfold Str.slice, Str.clamp_index, Str.len in *.
  change (0 <? 0) with false. cbn iota.
  destruct (Z.ltb_spec k 0); [lia|].
  rewrite (Z.min_l 0) by lia. rewrite (Z.min_r k) by lia.
  replace (Z.to_nat (Z.of_nat (String.length s) - 0)) with (String.length s) by lia.
  apply substring_all.
Qed.

Lemma slice_short_suffix (s : string) (k : Z) :
  0 < k → Str.len s ≤ k → Str.slice s (- k) None = s.
Proof.
  intros H0 Hk. unfold Str.slice, Str.clamp_index, Str.len in *.
  destruct (Z.ltb_spec (- k) 0); [|lia].
  rewrite Z.max_r by lia.
  replace (Z.to_nat (Z.of_nat (String.length s) - 0)) with (String.length s) by lia.
  apply substring_all.
Qed.

Lemma ui_mask_short (s mask : string) (front back : Z) :
  0 < back → Str.len s ≤ front → Str.len s ≤ back →
  Str.slice s 0 (Some front) +:+ mask +:+ Str.slice s (- back) None =
  s +:+ mask +:+ s.
Proof.
  intros Hb Hf Hk. rewrite slice_short_prefix by exact Hf.
  rewrite slice_short_suffix by assumption. reflexivity.
Qed.

Lemma ui_mask_long (s mask : string) (front back : Z) :
  0 < back → front ≤ Str.len s → back ≤ Str.len s → 0 ≤ front →
  Str.len (Str.slice s 0 (Some front) +:+ mask +:+ Str.slice s (- back) None) =
  front + Str.len mask + back.
Proof.
  intros Hb Hf Hk H0. rewrite slice_prefix by lia. rewrite slice_suffix by lia.
  unfold Str.len in *. rewrite !length_append.
  rewrite length_first_chars by lia. rewrite length_last_chars by lia. lia.
Qed.

(** X17. The upload page's maskers never look at the length of the
    identifier.  A present Aadhaar number of at most four characters is
    shown whole on both sides of -XXXX-, and one of four characters or
    more gives fourteen characters; a present PAN of at most two
    characters is shown whole on both sides of -XX, and one of five
    characters or more gives ten characters.  A missing value gives a
    hyphen. *)
Theorem upload_maskers_ignore_length (host : Host) (v : jsval) :
  let s := ToString host v in
  (truthy v = false → maskAadhaarUI host v = "-" ∧ maskPanUI host v = "-") ∧
  (truthy v = true →
     (Str.len s ≤ 4 → maskAadhaarUI host v = s +:+ "-XXXX-" +:+ s) ∧
     (4 ≤ Str.len s → Str.len (maskAadhaarUI host v) = 14) ∧
     (Str.len s ≤ 2 → maskPanUI host v = s +:+ "-XX" +:+ s) ∧
     (5 ≤ Str.len s → Str.len (maskPanUI host v) = 10)).
Proof.
  intros s. unfold maskAadhaarUI, maskPanUI. fold s. split; intros Hv; rewrite Hv; cbn [negb].
  - split; reflexivity.
  - repeat split; intros Hl.
    + apply (ui_mask_short s "-XXXX-" 4 4); lia.
    + exact (ui_mask_long s "-XXXX-" 4 4 ltac:(lia) ltac:(lia) ltac:(lia) ltac:(lia)).
    + apply (ui_mask_short s "-XX" 5 2); lia.
    + exact (ui_mask_long s "-XX" 5 2 ltac:(lia) ltac:(lia) ltac:(lia) ltac:(lia)).
Qed.

(** ** The date of birth of the upload form *)

Lemma digit_not_space (c : ascii) : Str.is_digit c = true → Str.is_space c = false.
Proof.
  unfold Str.is_digit, Str.is_space. intros H.
  destruct (N.leb_spec 48 (Str.code c)); [|discriminate].
  destruct (N.leb_spec 9 (Str.code c)), (N.leb_spec (Str.code c) 13),
    (N.eqb_spec (Str.code c) 32); try reflexivity; lia.
Qed.

Lemma digit_not_sep (c : ascii) : Str.is_digit c = true → is_dob_sep c = false.
Proof.
  intros H. unfold is_dob_sep.
  destruct (Ascii.eqb_spec c "/"%char) as [->|_]; [discriminate H|].
  destruct (Ascii.eqb_spec c "-"%char) as [->|_]; [discriminate H|]. reflexivity.
Qed.

Lemma digit_not_hyphen (c : ascii) : Str.is_digit c = true → is_hyphen c = false.
Proof.
  intros H. unfold is_hyphen.
  destruct (Ascii.eqb_spec c "-"%char) as [->|_]; [discriminate H|]. reflexivity.
Qed.

Lemma sep_cases (c : ascii) : is_dob_sep c = true → c = "/"%char ∨ c = "-"%char.
Proof.
  unfold is_dob_sep. destruct (Ascii.eqb_spec c "/"%char); [now left|].
  destruct (Ascii.eqb_spec c "-"%char); [now right|discriminate].
Qed.

Lemma digits_four (g : string) :
  all_chars Str.is_digit g = true → String.length g = 4%nat →
  ∃ a b c d, g = String a (String b (String c (String d ""))) ∧
    Str.is_digit a = true ∧ Str.is_digit b = true ∧
    Str.is_digit c = true ∧ Str.is_digit d = true.
Proof.
  intros Hd Hl.
  destruct g as [|a [|b [|c [|d [|e g]]]]]; try discriminate Hl.
  cbn [all_chars] in Hd. repeat (apply andb_prop in Hd as [? Hd]).
  exists a, b, c, d. auto.
Qed.

Lemma digits_one_or_two (g : string) :
  all_chars Str.is_digit g = true →
  (1 ≤ String.length g ≤ 2)%nat →
  (∃ a, g = String a "" ∧ Str.is_digit a = true) ∨
  (∃ a b, g = String a (String b "") ∧ Str.is_digit a = true ∧ Str.is_digit b = true).
Proof.
  intros Hd Hl.
  destruct g as [|a [|b [|c g]]]; cbn [String.length] in Hl; try lia.
  - left. cbn [all_chars] in Hd. apply andb_prop in Hd as [? _]. eauto.
  - right. cbn [all_chars] in Hd. repeat (apply andb_prop in Hd as [? Hd]).
    exists a, b. auto.
Qed.

Ltac dob_facts :=
  repeat match goal with
  | H : Str.is_digit ?c = true |- context [Str.is_digit ?c] => rewrite H
  | H : Str.is_digit ?c = true |- context [Str.is_space ?c] =>
      rewrite (digit_not_space c H)
  | H : Str.is_digit ?c = true |- context [is_dob_sep ?c] =>
      rewrite (digit_not_sep c H)
  | H : Str.is_digit ?c = true |- context [is_hyphen ?c] =>
      rewrite (digit_not_hyphen c H)
  | |- context [Str.is_digit (Ascii ?a ?b ?c ?d ?e ?f ?g ?h)] =>
      let v := eval vm_compute in (Str.is_digit (Ascii a b c d e f g h)) in
      change (Str.is_digit (Ascii a b c d e f g h)) with v
  | |- context [Str.is_space (Ascii ?a ?b ?c ?d ?e ?f ?g ?h)] =>
      let v := eval vm_compute in (Str.is_space (Ascii a b c d e f g h)) in
      change (Str.is_space (Ascii a b c d e f g h)) with v
  | |- context [is_dob_sep (Ascii ?a ?b ?c ?d ?e ?f ?g ?h)] =>
      let v := eval vm_compute in (is_dob_sep (Ascii a b c d e f g h)) in
      change (is_dob_sep (Ascii a b c d e f g h)) with v
  | |- context [is_hyphen (Ascii ?a ?b ?c ?d ?e ?f ?g ?h)] =>
      let v := eval vm_compute in (is_hyphen (Ascii a b c d e f g h)) in
      change (is_hyphen (Ascii a b c d e f g h)) with v
  end.

Ltac dob_eval :=
  repeat (progress (cbv -[Str.is_digit Str.is_space is_dob_sep is_hyphen]; dob_facts));
  try reflexivity.

Lemma dob_orders (host : Host) (y m d : string) (a b : ascii) :
  all_chars Str.is_digit y = true → String.length y = 4%nat →
  all_chars Str.is_digit m = true → (1 ≤ String.length m ≤ 2)%nat →
  all_chars Str.is_digit d = true → (1 ≤ String.length d ≤ 2)%nat →
  is_dob_sep a = true → is_dob_sep b = true →
  normalizeDobToDDMMYYYY host (JStr (y +:+ String a (m +:+ String b d))) =
    canonical_dob d m y ∧
  normalizeDobToDDMMYYYY host (JStr (d +:+ String a (m +:+ String b y))) =
    canonical_dob d m y ∧
  normalizeDobToDDMMYYYY host (JStr (canonical_dob d m y)) = canonical_dob d m y ∧
  matches_classes DD_MM_YYYY (canonical_dob d m y) = true.
Proof.
  intros Hy Ly Hm Lm Hd Ld Ha Hb.
  destruct (digits_four y Hy Ly) as (y1 & y2 & y3 & y4 & -> & ? & ? & ? & ?).
  apply sep_cases in Ha. apply sep_cases in Hb.
  destruct (digits_one_or_two m Hm Lm) as [(m1 & -> & ?)|(m1 & m2 & -> & ? & ?)];
  destruct (digits_one_or_two d Hd Ld) as [(d1 & -> & ?)|(d1 & d2 & -> & ? & ?)];
  destruct Ha as [-> | ->]; destruct Hb as [-> | ->];
  unfold normalizeDobToDDMMYYYY, canonical_dob;
  (split; [|split; [|split]]); dob_eval.
Qed.









Lemma matches_DD_MM_YYYY_nonempty (n : string) :
  matches_classes DD_MM_YYYY n = true → truthy (JStr n) = true.
Proof. destruct n; [discriminate | reflexivity]. Qed.

Lemma submitted_accepted (host : Host) (v : jsval) (n : string) :
  ensureDobFormat host v = Some n → submitted_dob host v = JStr n.
Proof.
  unfold submitted_dob. intros E. rewrite E.
  assert (T : truthy (JStr n) = true).
  { apply matches_DD_MM_YYYY_nonempty. unfold ensureDobFormat in E. cbv zeta in E.
    destruct (matches_classes DD_MM_YYYY (normalizeDobToDDMMYYYY host v)) eqn:M;
      [|discriminate].
    injection E as <-. exact M. }
  unfold or_else. rewrite T. cbv iota. rewrite T. reflexivity.
Qed.

(** X18. A date of birth written year first or day first, with a slash
    or a hyphen after each of the first two numbers, a year of four
    digits and a day and a month of one or two digits, is normalised to
    the same text: day, month and year joined by hyphens, day and month
    padded with a zero to two digits.  [ensureDobFormat] accepts it and
    the form sends it.  The digits are not checked to be a date of the
    calendar. *)
Theorem dob_both_orders_give_one_date
    (host : Host) (y m d : string) (a b : ascii)
    (Hy : all_chars Str.is_digit y = true) (Ly : String.length y = 4%nat)
    (Hm : all_chars Str.is_digit m = true) (Lm : (1 ≤ String.length m ≤ 2)%nat)
    (Hd : all_chars Str.is_digit d = true) (Ld : (1 ≤ String.length d ≤ 2)%nat)
    (Ha : is_dob_sep a = true) (Hb : is_dob_sep b = true) :
  let year_first := JStr (y +:+ String a (m +:+ String b d)) in
  let day_first := JStr (d +:+ String a (m +:+ String b y)) in
  let out := Str.padStart 2 "0" d +:+ "-" +:+ Str.padStart 2 "0" m +:+ "-" +:+ y in
  normalizeDobToDDMMYYYY host year_first = out ∧
  normalizeDobToDDMMYYYY host day_first = out ∧
  ensureDobFormat host year_first = Some out ∧
  ensureDobFormat host day_first = Some out ∧
  submitted_dob host year_first = JStr out ∧
  submitted_dob host day_first = JStr out ∧
  String.length out = 10%nat.
Proof.
  intros year_first day_first out.
  destruct (dob_orders host y m d a b Hy Ly Hm Lm Hd Ld Ha Hb) as (E1 & E2 & _ & M).
  change (canonical_dob d m y) with out in E1, E2, M.
  assert (A1 : ensureDobFormat host year_first = Some out).
  { unfold ensureDobFormat. fold year_first in E1. now rewrite E1, M. }
  assert (A2 : ensureDobFormat host day_first = Some out).
  { unfold ensureDobFormat. fold day_first in E2. now rewrite E2, M. }
  repeat split; try assumption; try (now apply submitted_accepted).
  clear -M. destruct out as [|c1 [|c2 [|c3 [|c4 [|c5 [|c6 [|c7 [|c8 [|c9 [|c10 [|c11 t]]]]]]]]]]];
    cbn [matches_classes DD_MM_YYYY] in M; rewrite ?andb_false_r in M;
    try discriminate M; reflexivity.
Qed.

Lemma dob_both_orders_give_one_date_witness :
  normalizeDobToDDMMYYYY sample_host (JStr "1990/7-15") = "15-07-1990" ∧
  normalizeDobToDDMMYYYY sample_host (JStr "15/7-1990") = "15-07-1990".
Proof.
  pose proof (dob_both_orders_give_one_date sample_host "1990" "7" "15" "/" "-"
                eq_refl eq_refl eq_refl (conj (le_n 1) (le_S 1 1 (le_n 1)))
                eq_refl (conj (le_S 1 1 (le_n 1)) (le_n 2)) eq_refl eq_refl) as H.
  exact (conj (proj1 H) (proj1 (proj2 H))).
Defined.


(** ** The fraud dashboard's rows *)

Lemma truthy_not_nullish (v : jsval) : truthy v = true → nullish v = false.
Proof. destruct v; cbn [truthy nullish]; congruence. Qed.

Lemma or_else_object_truthy (v : jsval) : truthy (or_else v (JObj ∅)) = true.
Proof. unfold or_else. destruct (truthy v) eqn:E; [exact E | reflexivity]. Qed.

Lemma dashboard_row_shape (r row : jsval) :
  dashboard_row r = Ok row →
  nullish row = false ∧
  truthy (prop row "fraud_result") = true ∧
  truthy (prop row "status") = true ∧
  prop row "id" = prop r "_id".
Proof.
  unfold dashboard_row, get. destruct (nullish r); cbn [bind]; [discriminate|].
  intros [= <-]. split; [reflexivity|]. split; [|split].
  - change (prop (obj _) "fraud_result") with (or_else (prop r "fraud_result") (JObj ∅)).
    apply or_else_object_truthy.
  - change (prop (obj _) "status") with (or_else (prop r "status") (JStr "Pending")).
    unfold or_else. destruct (truthy (prop r "status")) eqn:E; [exact E | reflexivity].
  - reflexivity.
Qed.

(** What every loaded row offers to the table and to the average. *)
Lemma dashboard_rows_shape (items rows : list jsval) :
  map_result dashboard_row items = Ok rows →
  Forall (fun row => nullish row = false ∧
                     truthy (prop row "fraud_result") = true ∧
                     truthy (prop row "status") = true) rows.
Proof.
  revert rows. induction items as [|r items IH]; intros rows H.
  - injection H as <-. constructor.
  - cbn [map_result] in H. destruct (dashboard_row r) as [row|] eqn:Er;
      cbn [bind] in H; [|discriminate].
    destruct (map_result dashboard_row items) as [ys|]; cbn [bind] in H; [|discriminate].
    injection H as <-. constructor; [|now apply IH].
    destruct (dashboard_row_shape r row Er) as (? & ? & ? & _). auto.
Qed.

Lemma dashboard_loadRecords_shape (response : option jsval) :
  Forall (fun row => nullish row = false ∧
                     truthy (prop row "fraud_result") = true ∧
                     truthy (prop row "status") = true)
         (dashboard_loadRecords response).
Proof.
  unfold dashboard_loadRecords. destruct response as [json|]; [|constructor].
  destruct (get json "records") as [records|]; cbn [bind]; [|constructor].
  destruct (or_else records (JArr [])); try constructor.
  destruct (map_result dashboard_row items) as [rows|] eqn:E; [|constructor].
  now apply dashboard_rows_shape with items.
Qed.

Lemma convertible_or_zero (v : jsval) :
  convertible (or_else v (JNum (num 0))) = convertible v.
Proof.
  unfold or_else. destruct (truthy v) eqn:E; [reflexivity|].
  destruct v; try reflexivity; discriminate E.
Qed.

Lemma dashboard_risk_of_row (host : Host) (row : jsval) :
  nullish row = false → truthy (prop row "fraud_result") = true →
  (convertible (dashboard_score row) = true →
   ∃ level, dashboard_risk host row = Ok level ∧
            (level = "High" ∨ level = "Medium" ∨ level = "Low")) ∧
  (convertible (dashboard_score row) = false →
   dashboard_risk host row = Throw TypeError).
Proof.
  intros Hr Hf. unfold dashboard_risk, get. rewrite Hr. cbn [bind].
  rewrite (truthy_not_nullish _ Hf). cbn [bind].
  fold (dashboard_score row). unfold js_ge, js_Number.
  rewrite convertible_or_zero.
  destruct (convertible (dashboard_score row)); cbn [bind].
  - split; [intros _ | discriminate].
    destruct (Num.ge _ (num 71)); [eauto|].
    destruct (Num.ge _ (num 31)); eauto.
  - split; [discriminate | reflexivity].
Qed.

Lemma js_add_convertible (host : Host) (a b v : jsval) :
  js_add host a b = Ok v → convertible v = true.
Proof.
  unfold js_add. destruct (convertible a && convertible b); [|discriminate].
  destruct (is_string _ || is_string _); intros [= <-]; reflexivity.
Qed.

Lemma sum_scores_of_rows (host : Host) (rows : list jsval) (acc : jsval) :
  Forall (fun row => nullish row = false ∧
                     truthy (prop row "fraud_result") = true ∧
                     truthy (prop row "status") = true) rows →
  Forall (fun row => convertible (dashboard_score row) = true) rows →
  convertible acc = true →
  ∃ sum, sum_scores host acc rows = Ok sum.
Proof.
  intros H. revert acc.
  induction H as [|row rows (Hr & Hf & _) _ IH]; intros acc Hconv Hacc.
  - now eexists.
  - apply Forall_cons in Hconv as [Hrow Hconv].
    cbn [sum_scores]. unfold get. rewrite Hr. cbn [bind].
    rewrite (truthy_not_nullish _ Hf). cbn [bind]. fold (dashboard_score row).
    destruct (js_add host acc (or_else (dashboard_score row) (JNum (num 0))))
      as [next|] eqn:E; cbn [bind].
    + apply IH; [exact Hconv | eapply js_add_convertible, E].
    + unfold js_add in E. rewrite Hacc, convertible_or_zero, Hrow in E.
      cbn [andb] in E. destruct (is_string _ || is_string _); discriminate E.
Qed.

(** X20. Whatever the server answers, a row the fraud dashboard loads
    never lacks what the table reads: each row is an object whose
    [fraud_result] and [status] are truthy (an empty object and Pending
    when the record had none), so reading the fraud score of a row never
    raises.  The risk label of a row is computed, and is High, Medium or
    Low, when its fraud score converts to a number, and raises when it
    does not (an object with a [toString] property of its own);
    [computeAvg] and the fallback aggregate over the loaded rows return
    when every score converts. *)
Theorem dashboard_rows_keep_a_payload (host : Host) (response : option jsval) :
  let rows := dashboard_loadRecords response in
  Forall (fun row =>
            truthy (prop row "status") = true ∧
            truthy (prop row "fraud_result") = true ∧
            (convertible (dashboard_score row) = true →
             ∃ level, dashboard_risk host row = Ok level ∧
                      (level = "High" ∨ level = "Medium" ∨ level = "Low")) ∧
            (convertible (dashboard_score row) = false →
             dashboard_risk host row = Throw TypeError)) rows ∧
  (Forall (fun row => convertible (dashboard_score row) = true) rows →
   ∃ avg, computeAvg host rows = Ok avg ∧
          dashboard_fallback host rows =
            Ok {| riskScore := avg;
                  buckets := {| Low := 0; Medium := 0; High := 0 |};
                  docs := {| verified := 0; unverified := 0 |} |}) ∧
  (∀ fields : gmap string jsval,
     dashboard_loadRecords (Some (obj [("records", JArr [JObj fields])])) =
       [obj [ ("id", prop (JObj fields) "_id");
              ("user_name", prop (JObj fields) "user_name");
              ("aadhaar_masked", prop (JObj fields) "aadhaar_masked");
              ("pan_masked", prop (JObj fields) "pan_masked");
              ("similarity_score", prop (JObj fields) "similarity_score");
              ("similarity_status", prop (JObj fields) "similarity_status");
              ("fraud_result", or_else (prop (JObj fields) "fraud_result") (JObj ∅));
              ("aadhaar_ocr", or_else (prop (JObj fields) "aadhaar_ocr") (JObj ∅));
              ("pan_ocr", or_else (prop (JObj fields) "pan_ocr") (JObj ∅));
              ("status", or_else (prop (JObj fields) "status") (JStr "Pending"));
              ("timestamp", prop (JObj fields) "timestamp") ]]).
Proof.
  intros rows. pose proof (dashboard_loadRecords_shape response) as Hrows.
  fold rows in Hrows. split; [|split].
  - eapply Forall_impl; [exact Hrows|]. cbv beta. intros row (Hr & Hf & Hs).
    split; [exact Hs|]. split; [exact Hf|]. now apply dashboard_risk_of_row.
  - intros Hconv. unfold dashboard_fallback, computeAvg.
    destruct (Z.of_nat (length rows) =? 0); [eexists; split; reflexivity|].
    destruct (sum_scores_of_rows host rows (JNum (num 0)) Hrows Hconv eq_refl)
      as [sum ->].
    cbn [bind]. eexists; split; reflexivity.
  - intros fields. reflexivity.
Qed.

(** ** The audit trail's filter buttons *)

Lemma filter_result_always {A} (f : A → result bool) (l : list A) :
  (∀ x, f x = Ok true) → filter_result f l = Ok l.
Proof.
  intros H. induction l as [|x l IH]; [reflexivity|].
  cbn [filter_result]. rewrite H, IH. reflexivity.
Qed.

Lemma filter_result_filter {A} (f : A → result bool) (g : A → bool) (l : list A) :
  Forall (fun x => f x = Ok (g x)) l → filter_result f l = Ok (List.filter g l).
Proof.
  induction 1 as [|x l Hx _ IH]; [reflexivity|].
  cbn [filter_result List.filter]. rewrite Hx, IH. cbn [bind].
  destruct (g x); reflexivity.
Qed.

Lemma visible_of_type (events : list jsval) (filter type : string) :
  all_present events →
  shows_event filter = (fun e => t <- get e "type";; Ok (strict_eq t (PStr type))) →
  visible events filter = Ok (of_type type events).
Proof.
  intros Hall Hf. unfold visible, of_type. rewrite Hf.
  apply filter_result_filter. eapply Forall_impl; [exact Hall|].
  cbv beta. intros e He. unfold get. rewrite He. reflexivity.
Qed.

Lemma of_type_three_kinds (events : list jsval) :
  (length (of_type "success" events) + length (of_type "warning" events) +
   length (of_type "error" events) ≤ length events)%nat.
Proof.
  unfold of_type. induction events as [|e events IH]; [reflexivity|].
  cbn [List.filter]. destruct (prop e "type") as [| | | |t| |];
    cbn [strict_eq length]; try lia.
  destruct (String.eqb_spec t "success") as [->|_]; [cbn; lia|].
  destruct (String.eqb_spec t "warning") as [->|_]; [cbn; lia|].
  destruct (String.eqb t "error"); cbn [length]; lia.
Qed.

(** X21. The filter buttons of the audit trail.  With All, and with any
    filter name other than success, warnings and errors, every event is
    shown, whatever the events are.  On events that are not [null] or
    [undefined], success, warnings and errors show the events whose type
    is exactly success, warning and error; no event is shown by two of
    them, and the three lists together never hold more events than there
    are.  An event that is [null] makes each of the three raise. *)
Theorem audit_filters_select_by_type (events : list jsval) :
  visible events "all" = Ok events ∧
  (∀ f : string, f ≠ "success" → f ≠ "warnings" → f ≠ "errors" →
     visible events f = Ok events) ∧
  (all_present events →
     visible events "success" = Ok (of_type "success" events) ∧
     visible events "warnings" = Ok (of_type "warning" events) ∧
     visible events "errors" = Ok (of_type "error" events) ∧
     (length (of_type "success" events) + length (of_type "warning" events) +
      length (of_type "error" events) ≤ length events)%nat) ∧
  (∀ (e : jsval) (t1 t2 : string),
     In e (of_type t1 events) → In e (of_type t2 events) → t1 = t2) ∧
  (∀ f : string, f = "success" ∨ f = "warnings" ∨ f = "errors" →
     visible (JNull :: events) f = Throw TypeError).
Proof.
  split; [|split; [|split; [|split]]].
  - apply filter_result_always. reflexivity.
  - intros f H1 H2 H3. apply filter_result_always. intros e. unfold shows_event.
    destruct (String.eqb_spec f "all"); [reflexivity|].
    destruct (String.eqb_spec f "success"); [contradiction|].
    destruct (String.eqb_spec f "warnings"); [contradiction|].
    destruct (String.eqb_spec f "errors"); [contradiction|]. reflexivity.
  - intros Hall. repeat split.
    + now apply visible_of_type.
    + now apply visible_of_type.
    + now apply visible_of_type.
    + apply of_type_three_kinds.
  - intros e t1 t2 H1 H2. unfold of_type in H1, H2.
    apply filter_In in H1 as [_ H1]. apply filter_In in H2 as [_ H2].
    destruct (prop e "type"); cbn [strict_eq] in H1, H2; try discriminate.
    apply String.eqb_eq in H1, H2. congruence.
  - intros f [-> | [-> | ->]]; reflexivity.
Qed.

Lemma audit_filters_select_by_type_witness :
  visible [obj [("type", JStr "error")]; obj [("type", JStr "info")]] "errors" =
    Ok [obj [("type", JStr "error")]].
Proof.
  refine (proj1 (proj2 (proj2
    (proj1 (proj2 (proj2
      (audit_filters_select_by_type
         [obj [("type", JStr "error")]; obj [("type", JStr "info")]]))) _)))).
  repeat constructor.
Defined.
